(** * Pomodoro backend: task catalog, session tracker, analytics, bearer auth

    A shallow embedding of the request handlers of [pomodoro_api/routers]
    ([auth.py], [tasks.py], [pomodoro.py], [analytics.py]), of the models
    they read and write ([users], [tasks], [pomodoro]) and of the router
    wiring of [pomodoro_api/api.py].

    Conventions.
    - Python integers are [Z].  Database rows are records, a table is the
      list of its rows in primary-key order; [objects.get], [filter],
      [save] and [delete] are the list functions below.
    - A [date] is a day number and a stored [DateTimeField] an instant in
      seconds; [local_date] is the calendar day of an instant in the
      configured zone ([TIME_ZONE = "Asia/Taipei"], [USE_TZ = True]).
      [strftime("%Y-%m-%d")] is injective on dates, so a formatted date is
      represented by the day number itself.
    - A handler is a computation over the store that may raise; the
      [try]/[except] clauses of the source and the exception handlers of the
      API object turn a raised exception into a response status.
    - The texts of error bodies are not modelled, only the status.
    - [jwt.decode] belongs to an external library: it is a parameter
      [jwt_decode] of the handlers. *)

From Stdlib Require Import ZArith List String Ascii Bool Lia Permutation Sorted
  OrderedTypeEx.
Import ListNotations.
Open Scope string_scope.
Open Scope Z_scope.

(** ** Dates and times *)

Definition date := Z.
Definition instant := Z.

(** Offset of Asia/Taipei from UTC, in seconds. *)
Definition TIME_ZONE_OFFSET : Z := 8 * 3600.

(** [TruncDate] and the [__date] lookups: the local calendar day. *)
Definition local_date (t : instant) : date := (t + TIME_ZONE_OFFSET) / 86400.

(** A [datetime] value received in a request body: its wall-clock reading
    and, when it is timezone-aware, its UTC offset. *)
Record datetime := mk_datetime { wall : Z; tzinfo : option Z }.

(** [timezone.make_aware] with the default (current) zone. *)
Definition make_aware (d : datetime) : datetime :=
  {| wall := wall d; tzinfo := Some TIME_ZONE_OFFSET |}.

(** What the database keeps of a [datetime] written to a
    [DateTimeField]: the instant.  An aware value is converted to UTC; a
    naive one is first read in the configured zone. *)
Definition instant_of (d : datetime) : instant :=
  wall d - match tzinfo d with
           | Some offset => offset
           | None => TIME_ZONE_OFFSET
           end.

(** A stored instant read back from the database: an aware [datetime]
    in UTC. *)
Definition from_database (t : instant) : datetime :=
  {| wall := t; tzinfo := Some 0 |}.

(** [session.start_time.date()]: the database hands datetimes back in
    UTC, so this is the UTC day of the instant. *)
Definition utc_date (t : instant) : date := t / 86400.

(** ** Models *)

Module User.
Record t := mk
    { id : Z; username : string; email : string;
      first_name : string; last_name : string; date_joined : instant }.
End User.

Module UserSetting.
Record t := mk
    { user_id : Z;
      work_duration : Z; short_break_duration : Z; long_break_duration : Z;
      long_break_interval : Z; notifications_enabled : bool }.
(** Field defaults of the model. *)
Definition default (uid : Z) : t :=
    {| user_id := uid; work_duration := 25 * 60; short_break_duration := 5 * 60;
       long_break_duration := 15 * 60; long_break_interval := 4;
       notifications_enabled := true |}.
End UserSetting.

Module Category.
Record t := mk { id : Z; name : string; color_code : string; user_id : Z }.
End Category.

Module Tag.
Record t := mk { id : Z; name : string; color_code : string; user_id : Z }.
End Tag.

Module Task.
Record t := mk
    { id : Z; title : string; description : option string;
      status : string; priority : string; due_date : option date;
      estimated_pomodoros : Z; completed_pomodoros : Z;
      created_at : instant; updated_at : instant;
      user_id : Z; category_id : option Z }.
End Task.

Module PomodoroSession.
Record t := mk
    { id : Z; user_id : Z; task_id : option Z;
      start_time : instant; end_time : option instant;
      duration : Z; type : string; is_completed : bool }.
End PomodoroSession.

(** The relational store.  [task_tags] is the through table of
    [Task.tags]: pairs (task id, tag id).  [next_session_id] is the
    auto-increment counter of the session table. *)
Record Store := mk_store
  { users : list User.t;
    user_settings : list UserSetting.t;
    categories : list Category.t;
    tags : list Tag.t;
    tasks : list Task.t;
    task_tags : list (Z * Z);
    pomodoro_sessions : list PomodoroSession.t;
    next_session_id : Z }.

(** ** Exceptions and the handler monad *)

Inductive model_name := MUser | MCategory | MTag | MTask | MPomodoroSession.

Inductive exn :=
| Http404                            (* raised by get_object_or_404 *)
| DoesNotExist (m : model_name)      (* raised by objects.get and by a dangling relation *)
| ZeroDivisionError
| OverflowError                      (* date arithmetic outside the calendar *)
| ResponseTupleError.                (* see [unauthenticated_tuple] *)

(** A computation reads and writes the store and ends in a value or in a
    raised exception; writes made before a raise stay (no request runs in a
    transaction). *)
Definition M (A : Type) : Type := Store -> (exn + A) * Store.

Definition ret {A} (a : A) : M A := fun s => (inr a, s).
Definition raise {A} (e : exn) : M A := fun s => (inl e, s).
Definition bind {A B} (m : M A) (k : A -> M B) : M B :=
  fun s => match m s with
           | (inl e, s') => (inl e, s')
           | (inr a, s') => k a s'
           end.
Definition get_store : M Store := fun s => (inr s, s).
Definition put_store (s' : Store) : M unit := fun _ => (inr tt, s').

Declare Scope handler_scope.
Delimit Scope handler_scope with handler.
Notation "x <- c1 ;; c2" := (bind c1 (fun x => c2))
  (at level 100, c1 at next level, right associativity) : handler_scope.
Notation "c1 ;;; c2" := (bind c1 (fun _ => c2))
  (at level 100, right associativity) : handler_scope.
Open Scope handler_scope.

(** What a handler hands back to the framework: a body for the declared
    200 schema, or a [Response] object built by hand with its status. *)
Inductive result (A : Type) :=
| Body (a : A)
| Response (status : Z).
Arguments Body {A} a.
Arguments Response {A} status.

(** What the client receives. *)
Inductive http (A : Type) :=
| Ok (a : A)
| Error (status : Z).
Arguments Ok {A} a.
Arguments Error {A} status.

(** ** Python values and strings *)

(** Truthiness of an optional integer: [None] and [0] are falsy. *)
Definition truthy (o : option Z) : bool :=
  match o with
  | Some n => negb (n =? 0)
  | None => false
  end.

Definition is_some {A} (o : option A) : bool :=
  match o with Some _ => true | None => false end.

(** [s.startswith(p)]. *)
Definition startswith (s p : string) : bool := String.prefix p s.

(** [s.replace("Bearer ", "")]: every non-overlapping occurrence, scanned
    from the left, is removed.  [skip] counts the characters of a matched
    occurrence that are still to be dropped. *)
Fixpoint replace_bearer (skip : nat) (s : string) : string :=
  match s with
  | EmptyString => EmptyString
  | String c r =>
      match skip with
      | S k => replace_bearer k r
      | O => if String.prefix "Bearer " s then replace_bearer 6 r
             else String c (replace_bearer 0 r)
      end
  end.

(** [s.split(" ")[0]] and [" ".join(s.split(" ")[1:])]: the text before the
    first blank and the text after it. *)
Fixpoint split_first (s : string) : string * string :=
  match s with
  | EmptyString => (EmptyString, EmptyString)
  | String c r =>
      if Ascii.eqb c " "%char then (EmptyString, r)
      else let (a, b) := split_first r in (String c a, b)
  end.

Definition lower_ascii (c : ascii) : ascii :=
  let n := nat_of_ascii c in
  if (Nat.leb 65 n && Nat.leb n 90)%bool then ascii_of_nat (n + 32)%nat else c.

(** [s.lower()], on the ASCII letters (no other character lowers to a
    letter of ["bearer"]). *)
Fixpoint lower (s : string) : string :=
  match s with
  | EmptyString => EmptyString
  | String c r => String (lower_ascii c) (lower r)
  end.

(** ** Table access *)

Definition find_user (i : Z) (s : Store) : option User.t :=
  find (fun u => User.id u =? i) (users s).
Definition find_category (i : Z) (s : Store) : option Category.t :=
  find (fun c => Category.id c =? i) (categories s).
Definition find_task (i : Z) (s : Store) : option Task.t :=
  find (fun t => Task.id t =? i) (tasks s).
Definition find_setting (uid : Z) (s : Store) : option UserSetting.t :=
  find (fun x => UserSetting.user_id x =? uid) (user_settings s).

Definition with_tasks (s : Store) (l : list Task.t) : Store :=
  {| users := users s; user_settings := user_settings s;
     categories := categories s; tags := tags s; tasks := l;
     task_tags := task_tags s; pomodoro_sessions := pomodoro_sessions s;
     next_session_id := next_session_id s |}.

Definition with_sessions (s : Store) (l : list PomodoroSession.t) (n : Z) : Store :=
  {| users := users s; user_settings := user_settings s;
     categories := categories s; tags := tags s; tasks := tasks s;
     task_tags := task_tags s; pomodoro_sessions := l;
     next_session_id := n |}.

Definition with_task_tags (s : Store) (l : list (Z * Z)) : Store :=
  {| users := users s; user_settings := user_settings s;
     categories := categories s; tags := tags s; tasks := tasks s;
     task_tags := l; pomodoro_sessions := pomodoro_sessions s;
     next_session_id := next_session_id s |}.

Definition with_settings (s : Store) (l : list UserSetting.t) : Store :=
  {| users := users s; user_settings := l;
     categories := categories s; tags := tags s; tasks := tasks s;
     task_tags := task_tags s; pomodoro_sessions := pomodoro_sessions s;
     next_session_id := next_session_id s |}.

Definition with_categories (s : Store) (l : list Category.t) : Store :=
  {| users := users s; user_settings := user_settings s;
     categories := l; tags := tags s; tasks := tasks s;
     task_tags := task_tags s; pomodoro_sessions := pomodoro_sessions s;
     next_session_id := next_session_id s |}.

Definition with_tags (s : Store) (l : list Tag.t) : Store :=
  {| users := users s; user_settings := user_settings s;
     categories := categories s; tags := l; tasks := tasks s;
     task_tags := task_tags s; pomodoro_sessions := pomodoro_sessions s;
     next_session_id := next_session_id s |}.

(** [auto_now]: every [Task.save()] stamps [updated_at]. *)
Definition touch (now : instant) (t : Task.t) : Task.t :=
  {| Task.id := Task.id t; Task.title := Task.title t;
     Task.description := Task.description t; Task.status := Task.status t;
     Task.priority := Task.priority t; Task.due_date := Task.due_date t;
     Task.estimated_pomodoros := Task.estimated_pomodoros t;
     Task.completed_pomodoros := Task.completed_pomodoros t;
     Task.created_at := Task.created_at t; Task.updated_at := now;
     Task.user_id := Task.user_id t; Task.category_id := Task.category_id t |}.

(** [task.save()] of a task loaded from the table: the row with its
    primary key is rewritten from the object. *)
Definition save_task (now : instant) (t : Task.t) : M unit :=
  fun s => (inr tt,
            with_tasks s (map (fun r => if Task.id r =? Task.id t then touch now t else r)
                              (tasks s))).

Definition save_session (x : PomodoroSession.t) : M unit :=
  fun s => (inr tt,
            with_sessions s
              (map (fun r => if PomodoroSession.id r =? PomodoroSession.id x then x else r)
                   (pomodoro_sessions s))
              (next_session_id s)).

Definition delete_session_row (x : PomodoroSession.t) : M unit :=
  fun s => (inr tt,
            with_sessions s
              (filter (fun r => negb (PomodoroSession.id r =? PomodoroSession.id x))
                      (pomodoro_sessions s))
              (next_session_id s)).

(** [get_object_or_404(Model, ...)]: the row, or [Http404]. *)
Definition get_object_or_404 {A} (lookup : Store -> option A) : M A :=
  fun s => match lookup s with
           | Some a => (inr a, s)
           | None => (inl Http404, s)
           end.

(** [Model.objects.get(...)]: the row, or the model's [DoesNotExist]. *)
Definition objects_get {A} (m : model_name) (lookup : Store -> option A) : M A :=
  fun s => match lookup s with
           | Some a => (inr a, s)
           | None => (inl (DoesNotExist m), s)
           end.

(** [session.task]: [None] without a query when the reference is null,
    else the referenced row. *)
Definition related_task (x : PomodoroSession.t) : M (option Task.t) :=
  match PomodoroSession.task_id x with
  | None => ret None
  | Some i => t <- objects_get MTask (find_task i) ;; ret (Some t)
  end.

(** [session.user]. *)
Definition related_user (x : PomodoroSession.t) : M User.t :=
  objects_get MUser (find_user (PomodoroSession.user_id x)).

(** [try: body except ...: return Response(status=...)]: [statuses] gives,
    for the exception raised, the status of the first clause that matches. *)
Definition try_except {A} (body : M (result A)) (statuses : exn -> Z) : M (result A) :=
  fun s => match body s with
           | (inl e, s') => (inr (Response (statuses e)), s')
           | r => r
           end.

(** ** The calendar *)

(** [date.min] and [date.max], the first day of year 1 and the last day
    of year 9999, as day numbers ([date(1970, 1, 1)] is day 0), and the
    greatest magnitude of a [timedelta], in days. *)
Definition date_min : date := -719162.
Definition date_max : date := 2932896.
Definition timedelta_max_days : Z := 999999999.

(** [timedelta(days=days)]: the number of days, or [OverflowError] beyond
    the magnitude of a [timedelta]. *)
Definition timedelta (days : Z) : M Z :=
  if Z.abs days <=? timedelta_max_days then ret days else raise OverflowError.

(** [d - delta] on a [date]: [OverflowError] outside the calendar. *)
Definition date_sub (d : date) (delta : Z) : M date :=
  if (date_min <=? d - delta) && (d - delta <=? date_max)
  then ret (d - delta)
  else raise OverflowError.

(** [t - delta] on a [datetime], [delta] in days. *)
Definition datetime_sub (t : instant) (delta : Z) : M instant :=
  if (date_min * 86400 <=? t - delta * 86400)
     && (t - delta * 86400 <? (date_max + 1) * 86400)
  then ret (t - delta * 86400)
  else raise OverflowError.

(** ** Query helpers *)

(** [order_by]: a stable insertion sort, [leb x y] telling that [x] may
    come before [y].  Rows that compare equal keep the table order. *)
Fixpoint insert_sorted {A} (leb : A -> A -> bool) (x : A) (l : list A) : list A :=
  match l with
  | [] => [x]
  | y :: r => if leb x y then x :: l else y :: insert_sorted leb x r
  end.

Definition order_by {A} (leb : A -> A -> bool) (l : list A) : list A :=
  fold_right (insert_sorted leb) [] l.

(** [values(key).annotate(count=Count("id"))]: one group per distinct key
    with the number of rows that carry it. *)
Fixpoint bump {K} (eqb : K -> K -> bool) (k : K) (groups : list (K * Z)) : list (K * Z) :=
  match groups with
  | [] => [(k, 1)]
  | (k', c) :: r => if eqb k k' then (k', c + 1) :: r else (k', c) :: bump eqb k r
  end.

Definition group_count {K} (eqb : K -> K -> bool) (keys : list K) : list (K * Z) :=
  fold_left (fun groups k => bump eqb k groups) keys [].

(** [aggregate(total=Sum(field))["total"] or 0]. *)
Definition sum_or_0 (l : list Z) : Z := fold_right Z.add 0 l.

(** [len] of a query, as a Python integer. *)
Definition count {A} (l : list A) : Z := Z.of_nat (List.length l).

(** The days visited by [while current_date <= end_date] from
    [current_date = d] with [n] iterations left. *)
Fixpoint dates_from (d : date) (n : nat) : list date :=
  match n with
  | O => []
  | S k => d :: dates_from (d + 1) k
  end.

(** The days from [start_date] to [end_date], both included; none when
    [end_date < start_date]. *)
Definition date_window (start_date end_date : date) : list date :=
  dates_from start_date (Z.to_nat (end_date - start_date + 1)).

Definition option_Z_eqb (a b : option Z) : bool :=
  match a, b with
  | Some x, Some y => x =? y
  | None, None => true
  | _, _ => false
  end.

(** A Python number of a response: an integer literal, or
    [round(num / den, ndigits)] of a true division, kept symbolic. *)
Inductive number :=
| Int (n : Z)
| Round (num den : Z) (ndigits : Z).

(** ** Response schemas *)

Module PomodoroSessionSchema.
Record t := mk
  { id : Z; user_id : Z; task_id : option Z; task_title : option string;
    start_time : instant; end_time : option datetime;
    duration : Z; type : string; is_completed : bool }.
End PomodoroSessionSchema.

Module SessionCreateSchema.
Record t := mk { task_id : option Z; type : string; duration : Z }.
End SessionCreateSchema.

Module SessionUpdateSchema.
Record t := mk { end_time : datetime; is_completed : bool }.
End SessionUpdateSchema.

Module TimeSeriesDataPoint.
Record t := mk { date : date; value : Z }.
End TimeSeriesDataPoint.

Module CategoryDataPoint.
Record t := mk
  { category_id : option Z; category_name : string; value : Z; color : string }.
End CategoryDataPoint.

Module PriorityDataPoint.
Record t := mk { priority : string; value : Z }.
End PriorityDataPoint.

Module ProductivityStats.
Record t := mk
  { total_pomodoros : Z; completed_tasks : Z; focus_hours : number;
    completion_rate : number; daily_average : number; streak : Z }.
End ProductivityStats.

Module DailyStats.
Record t := mk { date : date; pomodoros : Z; tasks_completed : Z; focus_minutes : Z }.
End DailyStats.

Module AnalyticsResponse.
Record t := mk
  { pomodoro_time_series : list TimeSeriesDataPoint.t;
    task_completion_time_series : list TimeSeriesDataPoint.t;
    category_distribution : list CategoryDataPoint.t;
    priority_distribution : list PriorityDataPoint.t;
    productivity_stats : ProductivityStats.t;
    daily_stats : list DailyStats.t }.
End AnalyticsResponse.

Module TimeRangeSchema.
Record t := mk { start_date : date; end_date : date }.
End TimeRangeSchema.

Module TagSchema.
Record t := mk { id : Z; name : string; color_code : string }.
End TagSchema.

Module CategorySchema.
Record t := mk { id : Z; name : string; color_code : string }.
End CategorySchema.

(** Body of category and tag updates ([CategoryCreateSchema],
    [TagCreateSchema]). *)
Module LabelCreateSchema.
Record t := mk { name : string; color_code : string }.
End LabelCreateSchema.

Module TaskSchema.
Record t := mk
  { id : Z; title : string; description : option string;
    status : string; priority : string; due_date : option date;
    estimated_pomodoros : Z; completed_pomodoros : Z;
    created_at : instant; updated_at : instant;
    category_id : option Z; category_name : option string;
    category_color : option string; tags : list TagSchema.t }.
End TaskSchema.

Module TaskUpdateSchema.
Record t := mk
  { title : option string; description : option string;
    status : option string; priority : option string;
    due_date : option date; estimated_pomodoros : option Z;
    completed_pomodoros : option Z; category_id : option Z;
    tag_ids : option (list Z) }.
End TaskUpdateSchema.

Module UserProfileSchema.
Record t := mk
  { id : Z; username : string; email : string;
    first_name : string; last_name : string; date_joined : instant }.
End UserProfileSchema.

Module UserSettingsSchema.
Record t := mk
  { work_duration : Z; short_break_duration : Z; long_break_duration : Z;
    long_break_interval : Z; notifications_enabled : bool }.
End UserSettingsSchema.

(** Answer of [get_stats]. *)
Module PomodoroStatsSchema.
Record t := mk
  { total_sessions : Z; total_completed : Z; total_minutes : Z;
    work_sessions : Z; short_break_sessions : Z; long_break_sessions : Z;
    completion_rate : number;
    most_productive_day : option date;
    most_focused_task_id : option Z;
    most_focused_task_title : option string }.
End PomodoroStatsSchema.

(** Body of [create_task]. *)
Module TaskCreateSchema.
Record t := mk
  { title : string; description : option string;
    status : string; priority : string;
    due_date : option date; estimated_pomodoros : Z;
    category_id : option Z; tag_ids : list Z }.
End TaskCreateSchema.

(** The completion percentage of the answer:
    [round(num / den * 100, 1)], or the integer [0]. *)
Inductive percentage :=
| PercentZero
| PercentOf (num den : Z).

(** The dictionary that [get_task_analytics] returns. *)
Module TaskAnalytics.
Record t := mk
  { task_id : Z; task_title : string; status : string; priority : string;
    estimated_pomodoros : Z; completed_pomodoros : Z;
    total_focus_minutes : Z; daily_average : number;
    completion_percentage : percentage;
    pomodoro_time_series : list TimeSeriesDataPoint.t }.
End TaskAnalytics.

(** The API object's exception handlers ([api.py]): the framework's own
    handler answers [Http404] with 404, [handle_unhandled_exception]
    answers every other exception with 500. *)
Definition on_exception (e : exn) : Z :=
  match e with
  | Http404 => 404
  | _ => 500
  end.

(** Running one operation of a router: the handler's result, or the
    exception it let escape, becomes the client's response. *)
Definition run_operation {A} (h : M (result A)) : Store -> http A * Store :=
  fun s => match h s with
           | (inr (Body a), s') => (Ok a, s')
           | (inr (Response st), s') => (Error st, s')
           | (inl e, s') => (Error (on_exception e), s')
           end.

Section Handlers.

(** [jwt.decode(token, JWT_SECRET, algorithms=["HS256"])] at the time of
    the request: [None] when it raises a [PyJWTError] (malformed token, bad
    signature, expired), else [Some] of [payload.get("user_id")]. *)
Variable jwt_decode : string -> option (option Z).

(** *** Identity ([api.py], and the helper each router repeats) *)

(** [get_user_id_from_token(authorization)]. *)
Definition get_user_id_from_token (authorization : option string) : option Z :=
  match authorization with
  | Some a =>
      if startswith a "Bearer " then
        match jwt_decode (replace_bearer 0 a) with
        | Some user_id => user_id
        | None => None
        end
      else None
  | None => None
  end.

(** [AuthBearer.authenticate(request, token)]. *)
Definition AuthBearer_authenticate (token : string) : option Z :=
  match jwt_decode token with
  | Some user_id => user_id
  | None => None
  end.

(** [HttpBearer.__call__] of the framework: no header or another scheme is
    no identity; else the text after the scheme is the token. *)
Definition HttpBearer_call (authorization : option string) : option Z :=
  match authorization with
  | None => None
  | Some a =>
      if String.eqb a "" then None
      else let (scheme, token) := split_first a in
           if String.eqb (lower scheme) "bearer" then AuthBearer_authenticate token
           else None
  end.

(** [api.add_router(prefix, router, auth=AuthBearer())]: an operation of
    such a router runs only when the callback returned a truthy identity,
    which becomes [request.auth]; otherwise the answer is 401. *)
Definition protected {A} (authorization : option string)
    (operation : Z -> M (result A)) : Store -> http A * Store :=
  fun s => match HttpBearer_call authorization with
           | Some auth =>
               if truthy (Some auth) then run_operation (operation auth) s
               else (Error 401, s)
           | None => (Error 401, s)
           end.

(** The opening of every handler that reads the header itself:
    [user_id = get_user_id_from_token(authorization)], then
    [if not user_id: return <unauthenticated>]. *)
Definition authenticated {A} (authorization : option string)
    (unauthenticated : M (result A)) (k : Z -> M (result A)) : M (result A) :=
  match get_user_id_from_token authorization with
  | Some user_id => if truthy (Some user_id) then k user_id else unauthenticated
  | None => unauthenticated
  end.

(** *** Session tracker ([routers/pomodoro.py]) *)

(** The dictionary that the session handlers return; [end_time] is the
    value of [session.end_time] of the object at hand. *)
Definition session_schema (x : PomodoroSession.t) (uid : Z) (task : option Task.t)
    (end_time : option datetime) : PomodoroSessionSchema.t :=
  {| PomodoroSessionSchema.id := PomodoroSession.id x;
     PomodoroSessionSchema.user_id := uid;
     PomodoroSessionSchema.task_id := option_map Task.id task;
     PomodoroSessionSchema.task_title := option_map Task.title task;
     PomodoroSessionSchema.start_time := PomodoroSession.start_time x;
     PomodoroSessionSchema.end_time := end_time;
     PomodoroSessionSchema.duration := PomodoroSession.duration x;
     PomodoroSessionSchema.type := PomodoroSession.type x;
     PomodoroSessionSchema.is_completed := PomodoroSession.is_completed x |}.

(** [PomodoroSession.objects.create(...)]: the new row takes the next
    primary key. *)
Definition create_session (user_id : Z) (task_id : option Z) (now : instant)
    (duration : Z) (type : string) : M PomodoroSession.t :=
  fun s =>
    let session :=
      {| PomodoroSession.id := next_session_id s;
         PomodoroSession.user_id := user_id;
         PomodoroSession.task_id := task_id;
         PomodoroSession.start_time := now;
         PomodoroSession.end_time := None;
         PomodoroSession.duration := duration;
         PomodoroSession.type := type;
         PomodoroSession.is_completed := false |} in
    (inr session,
     with_sessions s (pomodoro_sessions s ++ [session]) (next_session_id s + 1)).

Definition owned_task (task_id user_id : Z) (s : Store) : option Task.t :=
  find (fun t => (Task.id t =? task_id) && (Task.user_id t =? user_id)) (tasks s).

Definition owned_session (session_id user_id : Z) (s : Store) : option PomodoroSession.t :=
  find (fun x => (PomodoroSession.id x =? session_id)
                 && (PomodoroSession.user_id x =? user_id))
       (pomodoro_sessions s).

(** [start_session(request, data, authorization)]; [now] is
    [timezone.now()]. *)
Definition start_session (now : instant) (data : SessionCreateSchema.t)
    (authorization : option string) : M (result PomodoroSessionSchema.t) :=
  try_except
    (authenticated authorization (ret (Response 401)) (fun user_id =>
       user <- get_object_or_404 (find_user user_id) ;;
       task <- match SessionCreateSchema.task_id data with
               | Some tid =>
                   if truthy (Some tid) then
                     t <- get_object_or_404 (owned_task tid (User.id user)) ;;
                     ret (Some t)
                   else ret None
               | None => ret None
               end ;;
       session <- create_session (User.id user) (option_map Task.id task) now
                    (SessionCreateSchema.duration data)
                    (SessionCreateSchema.type data) ;;
       ret (Body (session_schema session (User.id user) task None))))
    (fun e => match e with
              | DoesNotExist MUser => 404
              | DoesNotExist MTask => 404
              | _ => 500
              end).

(** The object [session] after [session.end_time = ...] and
    [session.is_completed = ...]. *)
Definition set_completion (x : PomodoroSession.t) (end_time : instant) (c : bool)
  : PomodoroSession.t :=
  {| PomodoroSession.id := PomodoroSession.id x;
     PomodoroSession.user_id := PomodoroSession.user_id x;
     PomodoroSession.task_id := PomodoroSession.task_id x;
     PomodoroSession.start_time := PomodoroSession.start_time x;
     PomodoroSession.end_time := Some end_time;
     PomodoroSession.duration := PomodoroSession.duration x;
     PomodoroSession.type := PomodoroSession.type x;
     PomodoroSession.is_completed := c |}.

(** The object [task] after [task.completed_pomodoros = n]. *)
Definition set_completed_pomodoros (t : Task.t) (n : Z) : Task.t :=
  {| Task.id := Task.id t; Task.title := Task.title t;
     Task.description := Task.description t; Task.status := Task.status t;
     Task.priority := Task.priority t; Task.due_date := Task.due_date t;
     Task.estimated_pomodoros := Task.estimated_pomodoros t;
     Task.completed_pomodoros := n;
     Task.created_at := Task.created_at t; Task.updated_at := Task.updated_at t;
     Task.user_id := Task.user_id t; Task.category_id := Task.category_id t |}.

(** The [except] clauses shared by [complete_session] and
    [delete_session]: [PomodoroSession.DoesNotExist] is answered 404,
    every other exception ([Http404] among them) 500. *)
Definition session_except (e : exn) : Z :=
  match e with
  | DoesNotExist MPomodoroSession => 404
  | _ => 500
  end.

(** [session.is_completed and session.type == "work" and session.task]:
    the linked task when the three hold.  The relation is only read when
    the first two do. *)
Definition completed_work_task (session : PomodoroSession.t) : M (option Task.t) :=
  if PomodoroSession.is_completed session
     && String.eqb (PomodoroSession.type session) "work"
  then related_task session
  else ret None.

(** The end time that [complete_session] assigns to the session: a naive
    [end_time] is made aware in the configured zone, an aware one is
    kept. *)
Definition normalized_end_time (data : SessionUpdateSchema.t) : datetime :=
  match tzinfo (SessionUpdateSchema.end_time data) with
  | None => make_aware (SessionUpdateSchema.end_time data)
  | Some _ => SessionUpdateSchema.end_time data
  end.

(** [complete_session(request, session_id, data, authorization)]; [now]
    is the clock read by [task.save()].  [session.save()] writes the
    instant of the end time; the answer shows the object's own value. *)
Definition complete_session (now : instant) (session_id : Z)
    (data : SessionUpdateSchema.t) (authorization : option string)
  : M (result PomodoroSessionSchema.t) :=
  try_except
    (authenticated authorization (ret (Response 401)) (fun user_id =>
       session <- get_object_or_404 (owned_session session_id user_id) ;;
       let end_time := normalized_end_time data in
       let session :=
         set_completion session (instant_of end_time)
           (SessionUpdateSchema.is_completed data) in
       save_session session ;;;
       linked <- completed_work_task session ;;
       bumped <- match linked with
                 | Some task =>
                     let task :=
                       set_completed_pomodoros task (Task.completed_pomodoros task + 1) in
                     save_task now task ;;; ret (Some task)
                 | None => ret None
                 end ;;
       user <- related_user session ;;
       task <- match bumped with
               | Some task => ret (Some task)
               | None => related_task session
               end ;;
       ret (Body (session_schema session (User.id user) task (Some end_time)))))
    session_except.

(** [delete_session(request, session_id, authorization)]; the body is the
    [success] flag. *)
Definition delete_session (now : instant) (session_id : Z)
    (authorization : option string) : M (result bool) :=
  try_except
    (authenticated authorization (ret (Response 401)) (fun user_id =>
       session <- get_object_or_404 (owned_session session_id user_id) ;;
       linked <- completed_work_task session ;;
       match linked with
       | Some task =>
           if Task.completed_pomodoros task >? 0 then
             save_task now
               (set_completed_pomodoros task (Task.completed_pomodoros task - 1))
           else ret tt
       | None => ret tt
       end ;;;
       delete_session_row session ;;;
       ret (Body true)))
    session_except.

(** *** Analytics aggregator ([routers/analytics.py]) *)

Definition is_work (x : PomodoroSession.t) : bool :=
  String.eqb (PomodoroSession.type x) "work".

Definition is_status_completed (t : Task.t) : bool :=
  String.eqb (Task.status t) "completed".

(** The query [pomodoro_sessions] of [get_analytics]: the user's completed
    sessions that started on a day of the window. *)
Definition window_sessions (s : Store) (user_id : Z) (start_date end_date : date)
  : list PomodoroSession.t :=
  filter (fun x => (PomodoroSession.user_id x =? user_id)
                   && (start_date <=? local_date (PomodoroSession.start_time x))
                   && (local_date (PomodoroSession.start_time x) <=? end_date)
                   && PomodoroSession.is_completed x)
         (pomodoro_sessions s).

(** The query [tasks] of [get_analytics]: the user's tasks created on a
    day of the window. *)
Definition window_tasks (s : Store) (user_id : Z) (start_date end_date : date)
  : list Task.t :=
  filter (fun t => (Task.user_id t =? user_id)
                   && (start_date <=? local_date (Task.created_at t))
                   && (local_date (Task.created_at t) <=? end_date))
         (tasks s).

(** [annotate(day=TruncDate(...)).values("day").annotate(count=Count("id"))
    .order_by("day")] over the days of the rows. *)
Definition day_counts (days : list date) : list (date * Z) :=
  order_by (fun a b => fst a <=? fst b) (group_count Z.eqb days).

(** [next((item["count"] for item in series if item["day"] == d), 0)]. *)
Definition count_on (series : list (date * Z)) (d : date) : Z :=
  match find (fun item => fst item =? d) series with
  | Some item => snd item
  | None => 0
  end.

(** The loop that fills a time series: one point per visited day. *)
Definition fill_series (series : list (date * Z)) (start_date end_date : date)
  : list TimeSeriesDataPoint.t :=
  map (fun d => {| TimeSeriesDataPoint.date := d;
                   TimeSeriesDataPoint.value := count_on series d |})
      (date_window start_date end_date).

(** [has_sessions] of the streak loop. *)
Definition has_sessions (s : Store) (user_id : Z) (date_check : date) : bool :=
  existsb (fun x => (PomodoroSession.user_id x =? user_id)
                    && (local_date (PomodoroSession.start_time x) =? date_check)
                    && is_work x
                    && PomodoroSession.is_completed x)
          (pomodoro_sessions s).

(** The streak loop, [fuel] bounding the iterations of
    [while date_check >= start_date]. *)
Fixpoint streak_loop (s : Store) (user_id : Z) (start_date : date)
    (fuel : nat) (date_check : date) (streak : Z) : Z :=
  match fuel with
  | O => streak
  | S k =>
      if date_check >=? start_date then
        if has_sessions s user_id date_check
        then streak_loop s user_id start_date k (date_check - 1) (streak + 1)
        else streak
      else streak
  end.

(** The loop runs at most once per day of the window. *)
Definition compute_streak (s : Store) (user_id : Z) (start_date end_date : date) : Z :=
  streak_loop s user_id start_date (Z.to_nat (end_date - start_date + 1)) end_date 0.

(** One pass of the daily-statistics loop. *)
Definition daily_entry (sessions : list PomodoroSession.t) (tasks : list Task.t)
    (current_date : date) : list DailyStats.t :=
  let day_sessions :=
    filter (fun x => is_work x
                     && (local_date (PomodoroSession.start_time x) =? current_date))
           sessions in
  let daily_pomodoros := count day_sessions in
  let daily_tasks_completed :=
    count (filter (fun t => is_status_completed t
                            && (local_date (Task.updated_at t) =? current_date))
                  tasks) in
  let daily_duration_seconds := sum_or_0 (map PomodoroSession.duration day_sessions) in
  let daily_focus_minutes := daily_duration_seconds / 60 in
  if (daily_pomodoros >? 0) || (daily_tasks_completed >? 0) then
    [ {| DailyStats.date := current_date;
         DailyStats.pomodoros := daily_pomodoros;
         DailyStats.tasks_completed := daily_tasks_completed;
         DailyStats.focus_minutes := daily_focus_minutes |} ]
  else [].

(** One pass of the loop over [category_counts]. *)
Definition category_point (item : option Z * Z) : M CategoryDataPoint.t :=
  if truthy (fst item) then
    category <- objects_get MCategory
                  (find_category (match fst item with Some c => c | None => 0 end)) ;;
    ret {| CategoryDataPoint.category_id := fst item;
           CategoryDataPoint.category_name := Category.name category;
           CategoryDataPoint.value := snd item;
           CategoryDataPoint.color := Category.color_code category |}
  else
    ret {| CategoryDataPoint.category_id := fst item;
           CategoryDataPoint.category_name := "未分類";
           CategoryDataPoint.value := snd item;
           CategoryDataPoint.color := "#94a3b8" |}.

Fixpoint for_each {A B} (f : A -> M B) (l : list A) : M (list B) :=
  match l with
  | [] => ret []
  | a :: r => b <- f a ;; bs <- for_each f r ;; ret (b :: bs)
  end.

(** [get_analytics(request, days)]; [auth] is [request.auth] and [today]
    is [datetime.now().date()].  The start of the window is computed
    inside the calendar or not at all; the loops then step by one day from
    dates of the window, which stays inside the calendar when the window
    does not touch its first or its last day. *)
Definition get_analytics (today : date) (auth : Z) (days : Z)
  : M (result AnalyticsResponse.t) :=
  user <- get_object_or_404 (find_user auth) ;;
  let end_date := today in
  delta <- timedelta days ;;
  start_date <- date_sub end_date delta ;;
  s <- get_store ;;
  let pomodoro_sessions := window_sessions s (User.id user) start_date end_date in
  let tasks := window_tasks s (User.id user) start_date end_date in
  let pomodoro_time_series :=
    day_counts (map (fun x => local_date (PomodoroSession.start_time x))
                    (filter is_work pomodoro_sessions)) in
  let task_completion_time_series :=
    day_counts (map (fun t => local_date (Task.updated_at t))
                    (filter is_status_completed tasks)) in
  let category_counts :=
    order_by (fun a b => snd b <=? snd a)
             (group_count option_Z_eqb (map Task.category_id tasks)) in
  category_distribution <- for_each category_point category_counts ;;
  let priority_counts :=
    order_by (fun a b => String.leb (fst a) (fst b))
             (group_count String.eqb (map Task.priority tasks)) in
  let priority_distribution :=
    map (fun item => {| PriorityDataPoint.priority := fst item;
                        PriorityDataPoint.value := snd item |})
        priority_counts in
  let total_pomodoros := count (filter is_work pomodoro_sessions) in
  let completed_tasks := count (filter is_status_completed tasks) in
  let total_duration_seconds :=
    sum_or_0 (map PomodoroSession.duration (filter is_work pomodoro_sessions)) in
  let focus_hours := Round total_duration_seconds 3600 1 in
  let total_tasks := count tasks in
  let completion_rate :=
    if total_tasks >? 0 then Round completed_tasks total_tasks 2 else Int 0 in
  if days =? 0 then raise ZeroDivisionError
  else
    let daily_average := Round total_pomodoros days 1 in
    let streak := compute_streak s (User.id user) start_date end_date in
    let daily_stats :=
      flat_map (daily_entry pomodoro_sessions tasks) (date_window start_date end_date) in
    let pomodoro_series := fill_series pomodoro_time_series start_date end_date in
    let task_series := fill_series task_completion_time_series start_date end_date in
    ret (Body
      {| AnalyticsResponse.pomodoro_time_series := pomodoro_series;
         AnalyticsResponse.task_completion_time_series := task_series;
         AnalyticsResponse.category_distribution := category_distribution;
         AnalyticsResponse.priority_distribution := priority_distribution;
         AnalyticsResponse.productivity_stats :=
           {| ProductivityStats.total_pomodoros := total_pomodoros;
              ProductivityStats.completed_tasks := completed_tasks;
              ProductivityStats.focus_hours := focus_hours;
              ProductivityStats.completion_rate := completion_rate;
              ProductivityStats.daily_average := daily_average;
              ProductivityStats.streak := streak |};
         AnalyticsResponse.daily_stats := daily_stats |}).

(** [get_analytics_by_date_range(request, date_range)]. *)
Definition get_analytics_by_date_range (today : date) (auth : Z)
    (date_range : TimeRangeSchema.t) : M (result AnalyticsResponse.t) :=
  let days :=
    TimeRangeSchema.end_date date_range - TimeRangeSchema.start_date date_range + 1 in
  get_analytics today auth days.

(** [PomodoroSession.objects.filter(task=task, type="work",
    is_completed=True)]. *)
Definition task_sessions (s : Store) (task : Task.t) : list PomodoroSession.t :=
  filter (fun x => option_Z_eqb (PomodoroSession.task_id x) (Some (Task.id task))
                   && is_work x
                   && PomodoroSession.is_completed x)
         (pomodoro_sessions s).

(** [sessions.order_by(...).first()]. *)
Definition first_by {A} (leb : A -> A -> bool) (l : list A) : option A :=
  hd_error (order_by leb l).

(** [get_task_analytics(request, task_id)]; [auth] is [request.auth].  The
    days of the average are taken with [start_time.date()], the days of
    the series with [TruncDate]. *)
Definition get_task_analytics (auth : Z) (task_id : Z) : M (result TaskAnalytics.t) :=
  task <- get_object_or_404 (owned_task task_id auth) ;;
  s <- get_store ;;
  let sessions := task_sessions s task in
  let total_pomodoros := count sessions in
  let total_duration_seconds := sum_or_0 (map PomodoroSession.duration sessions) in
  let total_minutes := total_duration_seconds / 60 in
  daily_average <-
    (if total_pomodoros >? 0 then
       match first_by (fun a b => PomodoroSession.start_time a
                                  <=? PomodoroSession.start_time b) sessions,
             first_by (fun a b => PomodoroSession.start_time b
                                  <=? PomodoroSession.start_time a) sessions with
       | Some first_session, Some last_session =>
           let days :=
             utc_date (PomodoroSession.start_time last_session)
             - utc_date (PomodoroSession.start_time first_session) + 1 in
           if days =? 0 then raise ZeroDivisionError
           else ret (Round total_pomodoros days 1)
       | _, _ => ret (Int total_pomodoros)
       end
     else ret (Int 0)) ;;
  let time_series :=
    day_counts (map (fun x => local_date (PomodoroSession.start_time x)) sessions) in
  let pomodoro_series :=
    map (fun item => {| TimeSeriesDataPoint.date := fst item;
                        TimeSeriesDataPoint.value := snd item |})
        time_series in
  ret (Body
    {| TaskAnalytics.task_id := Task.id task;
       TaskAnalytics.task_title := Task.title task;
       TaskAnalytics.status := Task.status task;
       TaskAnalytics.priority := Task.priority task;
       TaskAnalytics.estimated_pomodoros := Task.estimated_pomodoros task;
       TaskAnalytics.completed_pomodoros := Task.completed_pomodoros task;
       TaskAnalytics.total_focus_minutes := total_minutes;
       TaskAnalytics.daily_average := daily_average;
       TaskAnalytics.completion_percentage :=
         if Task.estimated_pomodoros task >? 0
         then PercentOf (Task.completed_pomodoros task) (Task.estimated_pomodoros task)
         else PercentZero;
       TaskAnalytics.pomodoro_time_series := pomodoro_series |}).

(** *** Task catalog ([routers/tasks.py]) *)

(** These handlers answer a missing user id with the pair
    [({"detail": ...}, 401)], body first: the framework reads the first
    component as the status and raises while selecting the response
    schema. *)
Definition unauthenticated_tuple {A} : M (result A) := raise ResponseTupleError.

(** [x if x is not None else y]. *)
Definition supplied {A} (x : option A) (y : A) : A :=
  match x with Some v => v | None => y end.

(** [needle in hay], and the [icontains] lookup on ASCII letters. *)
Fixpoint contains (needle hay : string) : bool :=
  String.prefix needle hay
  || match hay with
     | EmptyString => false
     | String _ r => contains needle r
     end.

Definition icontains (hay needle : string) : bool := contains (lower needle) (lower hay).

Definition related_category (t : Task.t) : M (option Category.t) :=
  match Task.category_id t with
  | None => ret None
  | Some i => c <- objects_get MCategory (find_category i) ;; ret (Some c)
  end.

(** [task.tags.all()]. *)
Definition tags_of (task_id : Z) (s : Store) : list Tag.t :=
  filter (fun g => existsb (fun p => (fst p =? task_id) && (snd p =? Tag.id g))
                           (task_tags s))
         (tags s).

Definition tag_schema (g : Tag.t) : TagSchema.t :=
  {| TagSchema.id := Tag.id g; TagSchema.name := Tag.name g;
     TagSchema.color_code := Tag.color_code g |}.

Definition task_schema (t : Task.t) (category : option Category.t) (tags : list Tag.t)
  : TaskSchema.t :=
  {| TaskSchema.id := Task.id t; TaskSchema.title := Task.title t;
     TaskSchema.description := Task.description t;
     TaskSchema.status := Task.status t; TaskSchema.priority := Task.priority t;
     TaskSchema.due_date := Task.due_date t;
     TaskSchema.estimated_pomodoros := Task.estimated_pomodoros t;
     TaskSchema.completed_pomodoros := Task.completed_pomodoros t;
     TaskSchema.created_at := Task.created_at t;
     TaskSchema.updated_at := Task.updated_at t;
     TaskSchema.category_id := option_map Category.id category;
     TaskSchema.category_name := option_map Category.name category;
     TaskSchema.category_color := option_map Category.color_code category;
     TaskSchema.tags := map tag_schema tags |}.

(** The body every task handler builds from a task object. *)
Definition describe_task (t : Task.t) : M TaskSchema.t :=
  category <- related_category t ;;
  s <- get_store ;;
  ret (task_schema t category (tags_of (Task.id t) s)).

(** Comparison of nullable dates in ascending order; the database of
    [settings.py] (MySQL) puts NULL first. *)
Definition option_date_compare (a b : option date) : comparison :=
  match a, b with
  | None, None => Eq
  | None, Some _ => Lt
  | Some _, None => Gt
  | Some x, Some y => x ?= y
  end.

(** [order_by("-priority", "due_date", "created_at")]: [priority] is a
    character column, compared as text. *)
Definition task_order (a b : Task.t) : bool :=
  match String.compare (Task.priority b) (Task.priority a) with
  | Lt => true
  | Gt => false
  | Eq =>
      match option_date_compare (Task.due_date a) (Task.due_date b) with
      | Lt => true
      | Gt => false
      | Eq => Task.created_at a <=? Task.created_at b
      end
  end.

Definition nonempty (o : option string) : bool :=
  match o with
  | Some x => negb (String.eqb x "")
  | None => false
  end.

(** [list_tasks(request, status, priority, category_id, search,
    authorization)]. *)
Definition list_tasks (status priority : option string) (category_id : option Z)
    (search : option string) (authorization : option string)
  : M (result (list TaskSchema.t)) :=
  authenticated authorization unauthenticated_tuple (fun user_id =>
    s <- get_store ;;
    let query := filter (fun t => Task.user_id t =? user_id) (tasks s) in
    let query :=
      if nonempty status
      then filter (fun t => String.eqb (Task.status t) (supplied status "")) query
      else query in
    let query :=
      if nonempty priority
      then filter (fun t => String.eqb (Task.priority t) (supplied priority "")) query
      else query in
    let query :=
      if truthy category_id
      then filter (fun t => option_Z_eqb (Task.category_id t) category_id) query
      else query in
    let query :=
      if nonempty search
      then filter (fun t => icontains (Task.title t) (supplied search "")
                            || match Task.description t with
                               | Some d => icontains d (supplied search "")
                               | None => false
                               end)
                  query
      else query in
    let tasks := order_by task_order query in
    result <- for_each describe_task tasks ;;
    ret (Body result)).

(** [get_task(request, task_id, authorization)]. *)
Definition get_task (task_id : Z) (authorization : option string)
  : M (result TaskSchema.t) :=
  authenticated authorization unauthenticated_tuple (fun user_id =>
    task <- get_object_or_404 (owned_task task_id user_id) ;;
    body <- describe_task task ;;
    ret (Body body)).

(** The field assignments of [update_task] up to [completed_pomodoros]. *)
Definition update_fields (task : Task.t) (d : TaskUpdateSchema.t) : Task.t :=
  {| Task.id := Task.id task;
     Task.title := supplied (TaskUpdateSchema.title d) (Task.title task);
     Task.description :=
       match TaskUpdateSchema.description d with
       | Some x => Some x
       | None => Task.description task
       end;
     Task.status := supplied (TaskUpdateSchema.status d) (Task.status task);
     Task.priority := supplied (TaskUpdateSchema.priority d) (Task.priority task);
     Task.due_date :=
       match TaskUpdateSchema.due_date d with
       | Some x => Some x
       | None => Task.due_date task
       end;
     Task.estimated_pomodoros :=
       supplied (TaskUpdateSchema.estimated_pomodoros d) (Task.estimated_pomodoros task);
     Task.completed_pomodoros :=
       supplied (TaskUpdateSchema.completed_pomodoros d) (Task.completed_pomodoros task);
     Task.created_at := Task.created_at task; Task.updated_at := Task.updated_at task;
     Task.user_id := Task.user_id task; Task.category_id := Task.category_id task |}.

(** The object [task] after [task.category = ...]. *)
Definition set_category (t : Task.t) (c : option Z) : Task.t :=
  {| Task.id := Task.id t; Task.title := Task.title t;
     Task.description := Task.description t; Task.status := Task.status t;
     Task.priority := Task.priority t; Task.due_date := Task.due_date t;
     Task.estimated_pomodoros := Task.estimated_pomodoros t;
     Task.completed_pomodoros := Task.completed_pomodoros t;
     Task.created_at := Task.created_at t; Task.updated_at := Task.updated_at t;
     Task.user_id := Task.user_id t; Task.category_id := c |}.

Definition owned_category (category_id user_id : Z) (s : Store) : option Category.t :=
  find (fun c => (Category.id c =? category_id) && (Category.user_id c =? user_id))
       (categories s).

Definition owned_tag (tag_id user_id : Z) (s : Store) : option Tag.t :=
  find (fun g => (Tag.id g =? tag_id) && (Tag.user_id g =? user_id)) (tags s).

(** [task.tags.set(Tag.objects.filter(id__in=tag_ids, user_id=user_id))]:
    the rows of the task in the through table become those of the tags
    found; it is written at once. *)
Definition set_tags (task_id : Z) (tag_ids : list Z) (user_id : Z) : M unit :=
  fun s =>
    let found :=
      filter (fun g => existsb (Z.eqb (Tag.id g)) tag_ids && (Tag.user_id g =? user_id))
             (tags s) in
    (inr tt,
     with_task_tags s
       (filter (fun p => negb (fst p =? task_id)) (task_tags s)
        ++ map (fun g => (task_id, Tag.id g)) found)).

(** [update_task(request, task_id, task_data, authorization)]. *)
Definition update_task (now : instant) (task_id : Z) (task_data : TaskUpdateSchema.t)
    (authorization : option string) : M (result TaskSchema.t) :=
  authenticated authorization unauthenticated_tuple (fun user_id =>
    task <- get_object_or_404 (owned_task task_id user_id) ;;
    let task := update_fields task task_data in
    task <- match TaskUpdateSchema.category_id task_data with
            | Some c =>
                if c =? 0 then ret (set_category task None)
                else
                  category <- get_object_or_404 (owned_category c user_id) ;;
                  ret (set_category task (Some (Category.id category)))
            | None => ret task
            end ;;
    match TaskUpdateSchema.tag_ids task_data with
    | Some ids => set_tags (Task.id task) ids user_id
    | None => ret tt
    end ;;;
    save_task now task ;;;
    body <- describe_task (touch now task) ;;
    ret (Body body)).

(** The object [session] after the database nulls its task reference
    ([on_delete=SET_NULL]). *)
Definition null_task (x : PomodoroSession.t) : PomodoroSession.t :=
  {| PomodoroSession.id := PomodoroSession.id x;
     PomodoroSession.user_id := PomodoroSession.user_id x;
     PomodoroSession.task_id := None;
     PomodoroSession.start_time := PomodoroSession.start_time x;
     PomodoroSession.end_time := PomodoroSession.end_time x;
     PomodoroSession.duration := PomodoroSession.duration x;
     PomodoroSession.type := PomodoroSession.type x;
     PomodoroSession.is_completed := PomodoroSession.is_completed x |}.

(** [task.delete()]: the row goes, its rows of the through table go, and
    the sessions that referred to it keep a null reference. *)
Definition delete_task_row (t : Task.t) : M unit :=
  fun s =>
    (inr tt,
     {| users := users s; user_settings := user_settings s;
        categories := categories s; tags := tags s;
        tasks := filter (fun r => negb (Task.id r =? Task.id t)) (tasks s);
        task_tags := filter (fun p => negb (fst p =? Task.id t)) (task_tags s);
        pomodoro_sessions :=
          map (fun x => if option_Z_eqb (PomodoroSession.task_id x) (Some (Task.id t))
                        then null_task x else x)
              (pomodoro_sessions s);
        next_session_id := next_session_id s |}).

(** [delete_task(request, task_id, authorization)]. *)
Definition delete_task (task_id : Z) (authorization : option string) : M (result bool) :=
  authenticated authorization unauthenticated_tuple (fun user_id =>
    task <- get_object_or_404 (owned_task task_id user_id) ;;
    delete_task_row task ;;;
    ret (Body true)).

(** The object [task] after [task.status = "completed"]. *)
Definition set_status_completed (t : Task.t) : Task.t :=
  {| Task.id := Task.id t; Task.title := Task.title t;
     Task.description := Task.description t; Task.status := "completed";
     Task.priority := Task.priority t; Task.due_date := Task.due_date t;
     Task.estimated_pomodoros := Task.estimated_pomodoros t;
     Task.completed_pomodoros := Task.completed_pomodoros t;
     Task.created_at := Task.created_at t; Task.updated_at := Task.updated_at t;
     Task.user_id := Task.user_id t; Task.category_id := Task.category_id t |}.

(** [complete_task(request, task_id, authorization)]. *)
Definition complete_task (now : instant) (task_id : Z) (authorization : option string)
  : M (result bool) :=
  authenticated authorization unauthenticated_tuple (fun user_id =>
    task <- get_object_or_404 (owned_task task_id user_id) ;;
    save_task now (set_status_completed task) ;;;
    ret (Body true)).

Definition category_schema (c : Category.t) : CategorySchema.t :=
  {| CategorySchema.id := Category.id c; CategorySchema.name := Category.name c;
     CategorySchema.color_code := Category.color_code c |}.

(** [list_categories(request, authorization)]. *)
Definition list_categories (authorization : option string)
  : M (result (list CategorySchema.t)) :=
  authenticated authorization unauthenticated_tuple (fun user_id =>
    s <- get_store ;;
    ret (Body (map category_schema
                   (filter (fun c => Category.user_id c =? user_id) (categories s))))).

(** [update_category(request, category_id, data, authorization)]. *)
Definition update_category (category_id : Z) (data : LabelCreateSchema.t)
    (authorization : option string) : M (result CategorySchema.t) :=
  authenticated authorization unauthenticated_tuple (fun user_id =>
    category <- get_object_or_404 (owned_category category_id user_id) ;;
    let category :=
      {| Category.id := Category.id category;
         Category.name := LabelCreateSchema.name data;
         Category.color_code := LabelCreateSchema.color_code data;
         Category.user_id := Category.user_id category |} in
    s <- get_store ;;
    put_store (with_categories s
                 (map (fun r => if Category.id r =? Category.id category
                                then category else r)
                      (categories s))) ;;;
    ret (Body (category_schema category))).

(** [delete_category(request, category_id, authorization)]: the tasks of
    the category are updated in bulk (no [save], so no new [updated_at]),
    then the row goes. *)
Definition delete_category (category_id : Z) (authorization : option string)
  : M (result bool) :=
  authenticated authorization unauthenticated_tuple (fun user_id =>
    category <- get_object_or_404 (owned_category category_id user_id) ;;
    s <- get_store ;;
    put_store
      {| users := users s; user_settings := user_settings s;
         categories :=
           filter (fun r => negb (Category.id r =? Category.id category)) (categories s);
         tags := tags s;
         tasks :=
           map (fun t => if option_Z_eqb (Task.category_id t) (Some (Category.id category))
                         then set_category t None else t)
               (tasks s);
         task_tags := task_tags s; pomodoro_sessions := pomodoro_sessions s;
         next_session_id := next_session_id s |} ;;;
    ret (Body true)).

(** [list_tags(request, authorization)]. *)
Definition list_tags (authorization : option string) : M (result (list TagSchema.t)) :=
  authenticated authorization unauthenticated_tuple (fun user_id =>
    s <- get_store ;;
    ret (Body (map tag_schema (filter (fun g => Tag.user_id g =? user_id) (tags s))))).

(** [update_tag(request, tag_id, data, authorization)]. *)
Definition update_tag (tag_id : Z) (data : LabelCreateSchema.t)
    (authorization : option string) : M (result TagSchema.t) :=
  authenticated authorization unauthenticated_tuple (fun user_id =>
    tag <- get_object_or_404 (owned_tag tag_id user_id) ;;
    let tag :=
      {| Tag.id := Tag.id tag;
         Tag.name := LabelCreateSchema.name data;
         Tag.color_code := LabelCreateSchema.color_code data;
         Tag.user_id := Tag.user_id tag |} in
    s <- get_store ;;
    put_store (with_tags s
                 (map (fun r => if Tag.id r =? Tag.id tag then tag else r) (tags s))) ;;;
    ret (Body (tag_schema tag))).

(** [delete_tag(request, tag_id, authorization)]: the tag is detached
    from every task, then the row goes. *)
Definition delete_tag (tag_id : Z) (authorization : option string) : M (result bool) :=
  authenticated authorization unauthenticated_tuple (fun user_id =>
    tag <- get_object_or_404 (owned_tag tag_id user_id) ;;
    s <- get_store ;;
    put_store
      {| users := users s; user_settings := user_settings s;
         categories := categories s;
         tags := filter (fun r => negb (Tag.id r =? Tag.id tag)) (tags s);
         tasks := tasks s;
         task_tags := filter (fun p => negb (snd p =? Tag.id tag)) (task_tags s);
         pomodoro_sessions := pomodoro_sessions s;
         next_session_id := next_session_id s |} ;;;
    ret (Body true)).

(** [Task.objects.create(...)] of [create_task]: the row takes the key
    [id] that the database assigns, the default [0] of
    [completed_pomodoros], and the time of the call in both time stamps
    ([auto_now_add], [auto_now]). *)
Definition new_task (id : Z) (now : instant) (task_data : TaskCreateSchema.t)
    (user : User.t) (category : option Category.t) : Task.t :=
  {| Task.id := id; Task.title := TaskCreateSchema.title task_data;
     Task.description := TaskCreateSchema.description task_data;
     Task.status := TaskCreateSchema.status task_data;
     Task.priority := TaskCreateSchema.priority task_data;
     Task.due_date := TaskCreateSchema.due_date task_data;
     Task.estimated_pomodoros := TaskCreateSchema.estimated_pomodoros task_data;
     Task.completed_pomodoros := 0;
     Task.created_at := now; Task.updated_at := now;
     Task.user_id := User.id user;
     Task.category_id := option_map Category.id category |}.

Definition insert_task (t : Task.t) : M unit :=
  fun s => (inr tt, with_tasks s (tasks s ++ [t])).

Definition insert_category (c : Category.t) : M unit :=
  fun s => (inr tt, with_categories s (categories s ++ [c])).

Definition insert_tag (g : Tag.t) : M unit :=
  fun s => (inr tt, with_tags s (tags s ++ [g])).

(** [create_task(request, task_data, authorization)]; [id] is the key
    that the database assigns to the new row. *)
Definition create_task (now : instant) (id : Z) (task_data : TaskCreateSchema.t)
    (authorization : option string) : M (result TaskSchema.t) :=
  authenticated authorization unauthenticated_tuple (fun user_id =>
    user <- get_object_or_404 (find_user user_id) ;;
    category <-
      (if truthy (TaskCreateSchema.category_id task_data)
       then
         c <- get_object_or_404
                (owned_category (supplied (TaskCreateSchema.category_id task_data) 0)
                                (User.id user)) ;;
         ret (Some c)
       else ret None) ;;
    let task := new_task id now task_data user category in
    insert_task task ;;;
    match TaskCreateSchema.tag_ids task_data with
    | [] => ret tt
    | _ :: _ => set_tags (Task.id task) (TaskCreateSchema.tag_ids task_data) (User.id user)
    end ;;;
    s <- get_store ;;
    ret (Body (task_schema task category (tags_of (Task.id task) s)))).

(** [create_category(request, data, authorization)]. *)
Definition create_category (id : Z) (data : LabelCreateSchema.t)
    (authorization : option string) : M (result CategorySchema.t) :=
  authenticated authorization unauthenticated_tuple (fun user_id =>
    user <- get_object_or_404 (find_user user_id) ;;
    let category :=
      {| Category.id := id; Category.name := LabelCreateSchema.name data;
         Category.color_code := LabelCreateSchema.color_code data;
         Category.user_id := User.id user |} in
    insert_category category ;;;
    ret (Body (category_schema category))).

(** [create_tag(request, data, authorization)]. *)
Definition create_tag (id : Z) (data : LabelCreateSchema.t)
    (authorization : option string) : M (result TagSchema.t) :=
  authenticated authorization unauthenticated_tuple (fun user_id =>
    user <- get_object_or_404 (find_user user_id) ;;
    let tag :=
      {| Tag.id := id; Tag.name := LabelCreateSchema.name data;
         Tag.color_code := LabelCreateSchema.color_code data;
         Tag.user_id := User.id user |} in
    insert_tag tag ;;;
    ret (Body (tag_schema tag))).

(** [get_history(request, days, task_id, authorization)]; [now] is
    [timezone.now()].  The rows come from the database, so their end
    times are read back in UTC. *)
Definition get_history (now : instant) (days : Z) (task_id : option Z)
    (authorization : option string) : M (result (list PomodoroSessionSchema.t)) :=
  try_except
    (authenticated authorization (ret (Response 401)) (fun user_id =>
       delta <- timedelta days ;;
       start_date <- datetime_sub now delta ;;
       s <- get_store ;;
       let query :=
         order_by (fun a b => PomodoroSession.start_time b <=? PomodoroSession.start_time a)
                  (filter (fun x => (PomodoroSession.user_id x =? user_id)
                                    && (start_date <=? PomodoroSession.start_time x))
                          (pomodoro_sessions s)) in
       let query :=
         if truthy task_id
         then filter (fun x => option_Z_eqb (PomodoroSession.task_id x) task_id) query
         else query in
       result <- for_each (fun session =>
                             user <- related_user session ;;
                             task <- related_task session ;;
                             ret (session_schema session (User.id user) task
                                    (option_map from_database
                                       (PomodoroSession.end_time session))))
                          query ;;
       ret (Body result)))
    (fun _ => 500).

(** [max(items, key=lambda x: x[1])]: the first item with the greatest
    count; [None] stands for the empty dictionary, on which the source
    does not call [max]. *)
Definition max_by_count (items : list (Z * Z)) : option (Z * Z) :=
  match items with
  | [] => None
  | x :: r =>
      Some (fold_left (fun best item => if snd item >? snd best then item else best) r x)
  end.

Definition is_type (type : string) (x : PomodoroSession.t) : bool :=
  String.eqb (PomodoroSession.type x) type.

(** The query [sessions] of [get_stats], in the model's default ordering
    (newest first). *)
Definition stats_sessions (s : Store) (user_id : Z) (start_date : instant)
  : list PomodoroSession.t :=
  order_by (fun a b => PomodoroSession.start_time b <=? PomodoroSession.start_time a)
           (filter (fun x => (PomodoroSession.user_id x =? user_id)
                             && (start_date <=? PomodoroSession.start_time x))
                   (pomodoro_sessions s)).

Definition completed_of (type : string) (sessions : list PomodoroSession.t)
  : list PomodoroSession.t :=
  filter (fun x => is_type type x && PomodoroSession.is_completed x) sessions.

(** [get_stats(request, days, authorization)]; [now] is
    [timezone.now()].  [first_row] is the database's answer to
    [.order_by("-count").first()] on the ranking of the tasks: a row of
    the greatest count, and which one among rows of equal count is the
    database's choice. *)
Definition get_stats (first_row : list (option Z * Z) -> option (option Z * Z))
    (now : instant) (days : Z) (authorization : option string)
  : M (result PomodoroStatsSchema.t) :=
  try_except
    (authenticated authorization (ret (Response 401)) (fun user_id =>
       delta <- timedelta days ;;
       start_date <- datetime_sub now delta ;;
       s <- get_store ;;
       let sessions := stats_sessions s user_id start_date in
       let total_sessions := count sessions in
       let completed := filter PomodoroSession.is_completed sessions in
       let completed_sessions := count completed in
       let total_minutes := sum_or_0 (map PomodoroSession.duration completed) / 60 in
       let work_sessions := count (completed_of "work" sessions) in
       let short_break_sessions := count (completed_of "short_break" sessions) in
       let long_break_sessions := count (completed_of "long_break" sessions) in
       let completion_rate :=
         if total_sessions >? 0 then Round completed_sessions total_sessions 2
         else Int 0 in
       let day_counts :=
         group_count Z.eqb
           (map (fun x => utc_date (PomodoroSession.start_time x))
                (completed_of "work" sessions)) in
       let most_productive_day := option_map fst (max_by_count day_counts) in
       let task_sessions :=
         filter (fun x => is_some (PomodoroSession.task_id x))
                (completed_of "work" sessions) in
       focused <-
         match task_sessions with
         | [] => ret None
         | _ :: _ =>
             match first_row (group_count option_Z_eqb
                                (map PomodoroSession.task_id task_sessions)) with
             | Some (Some task_id, _) =>
                 task <- objects_get MTask (find_task task_id) ;;
                 ret (Some task)
             | Some (None, _) => raise (DoesNotExist MTask)
             | None => ret None
             end
         end ;;
       ret (Body
         {| PomodoroStatsSchema.total_sessions := total_sessions;
            PomodoroStatsSchema.total_completed := completed_sessions;
            PomodoroStatsSchema.total_minutes := total_minutes;
            PomodoroStatsSchema.work_sessions := work_sessions;
            PomodoroStatsSchema.short_break_sessions := short_break_sessions;
            PomodoroStatsSchema.long_break_sessions := long_break_sessions;
            PomodoroStatsSchema.completion_rate := completion_rate;
            PomodoroStatsSchema.most_productive_day := most_productive_day;
            PomodoroStatsSchema.most_focused_task_id := option_map Task.id focused;
            PomodoroStatsSchema.most_focused_task_title :=
              option_map Task.title focused |})))
    (fun _ => 500).

(** *** Profile and settings ([routers/auth.py]); this router is added
    without [auth]. *)

Definition user_profile (u : User.t) : UserProfileSchema.t :=
  {| UserProfileSchema.id := User.id u;
     UserProfileSchema.username := User.username u;
     UserProfileSchema.email := User.email u;
     UserProfileSchema.first_name := User.first_name u;
     UserProfileSchema.last_name := User.last_name u;
     UserProfileSchema.date_joined := User.date_joined u |}.

(** The [except] clauses of the three handlers of this router. *)
Definition user_except (e : exn) : Z :=
  match e with
  | DoesNotExist MUser => 404
  | _ => 500
  end.

(** [get_user(request, user_id, authorization)]: [user_id] is the
    optional query parameter. *)
Definition get_user (user_id : option Z) (authorization : option string)
  : M (result UserProfileSchema.t) :=
  try_except
    (let user_id :=
       match user_id with
       | None => get_user_id_from_token authorization
       | Some _ => user_id
       end in
     match user_id with
     | None => ret (Response 401)
     | Some user_id =>
         user <- objects_get MUser (find_user user_id) ;;
         ret (Body (user_profile user))
     end)
    user_except.

Definition settings_schema (x : UserSetting.t) : UserSettingsSchema.t :=
  {| UserSettingsSchema.work_duration := UserSetting.work_duration x;
     UserSettingsSchema.short_break_duration := UserSetting.short_break_duration x;
     UserSettingsSchema.long_break_duration := UserSetting.long_break_duration x;
     UserSettingsSchema.long_break_interval := UserSetting.long_break_interval x;
     UserSettingsSchema.notifications_enabled := UserSetting.notifications_enabled x |}.

(** [UserSetting.objects.get_or_create(user=user)]. *)
Definition get_or_create_setting (user : User.t) : M UserSetting.t :=
  fun s => match find_setting (User.id user) s with
           | Some x => (inr x, s)
           | None =>
               let x := UserSetting.default (User.id user) in
               (inr x, with_settings s (user_settings s ++ [x]))
           end.

(** [get_user_settings(request, authorization)]. *)
Definition get_user_settings (authorization : option string)
  : M (result UserSettingsSchema.t) :=
  try_except
    (match get_user_id_from_token authorization with
     | None => ret (Response 401)
     | Some user_id =>
         user <- objects_get MUser (find_user user_id) ;;
         settings <- get_or_create_setting user ;;
         ret (Body (settings_schema settings))
     end)
    user_except.

(** [update_user_settings(request, data, authorization)]. *)
Definition update_user_settings (data : UserSettingsSchema.t)
    (authorization : option string) : M (result UserSettingsSchema.t) :=
  try_except
    (match get_user_id_from_token authorization with
     | None => ret (Response 401)
     | Some user_id =>
         user <- objects_get MUser (find_user user_id) ;;
         settings <- get_or_create_setting user ;;
         let settings :=
           {| UserSetting.user_id := UserSetting.user_id settings;
              UserSetting.work_duration := UserSettingsSchema.work_duration data;
              UserSetting.short_break_duration :=
                UserSettingsSchema.short_break_duration data;
              UserSetting.long_break_duration :=
                UserSettingsSchema.long_break_duration data;
              UserSetting.long_break_interval :=
                UserSettingsSchema.long_break_interval data;
              UserSetting.notifications_enabled :=
                UserSettingsSchema.notifications_enabled data |} in
         s <- get_store ;;
         put_store (with_settings s
                      (map (fun r => if UserSetting.user_id r =? UserSetting.user_id settings
                                     then settings else r)
                           (user_settings s))) ;;;
         ret (Body (settings_schema settings))
     end)
    user_except.

(** *** The API object ([api.py]) *)

(** The operations of the routers, by method and path, each with what
    the request carries: the operations of the task, session and analytics
    routers, and of the auth router those that read a token ([register]
    and [login] ask for none).  The [key] of a creating operation is the
    primary key that the database assigns to the new row, and [first_row]
    is the database's choice in the ranking of [get_stats]. *)
Inductive route :=
| GET_auth_user (user_id : option Z)
| GET_auth_settings
| PUT_auth_settings (data : UserSettingsSchema.t)
| GET_tasks (status priority : option string) (category_id : option Z)
            (search : option string)
| GET_task (task_id : Z)
| PUT_task (task_id : Z) (task_data : TaskUpdateSchema.t)
| DELETE_task (task_id : Z)
| POST_task_complete (task_id : Z)
| GET_categories
| PUT_category (category_id : Z) (data : LabelCreateSchema.t)
| DELETE_category (category_id : Z)
| GET_tags
| PUT_tag (tag_id : Z) (data : LabelCreateSchema.t)
| DELETE_tag (tag_id : Z)
| POST_pomodoro_start (data : SessionCreateSchema.t)
| PUT_pomodoro_complete (session_id : Z) (data : SessionUpdateSchema.t)
| GET_pomodoro_history (days : Z) (task_id : option Z)
| DELETE_pomodoro (session_id : Z)
| GET_analytics_dashboard (days : Z)
| POST_analytics_date_range (date_range : TimeRangeSchema.t)
| GET_task_analytics (task_id : Z)
| POST_tasks (key : Z) (task_data : TaskCreateSchema.t)
| POST_categories (key : Z) (data : LabelCreateSchema.t)
| POST_tags (key : Z) (data : LabelCreateSchema.t)
| GET_pomodoro_stats (days : Z)
                     (first_row : list (option Z * Z) -> option (option Z * Z)).

(** The body of a 200 answer, by schema. *)
Inductive body :=
| Profile (b : UserProfileSchema.t)
| Settings (b : UserSettingsSchema.t)
| Tasks (b : list TaskSchema.t)
| OneTask (b : TaskSchema.t)
| Success (b : bool)
| Categories (b : list CategorySchema.t)
| OneCategory (b : CategorySchema.t)
| Tags (b : list TagSchema.t)
| OneTag (b : TagSchema.t)
| Session (b : PomodoroSessionSchema.t)
| Sessions (b : list PomodoroSessionSchema.t)
| Analytics (b : AnalyticsResponse.t)
| TaskAnalysis (b : TaskAnalytics.t)
| Stats (b : PomodoroStatsSchema.t).

Definition as_body {A} (f : A -> body) (h : M (result A)) : M (result body) :=
  fun s => match h s with
           | (inr (Body a), s') => (inr (Body (f a)), s')
           | (inr (Response st), s') => (inr (Response st), s')
           | (inl e, s') => (inl e, s')
           end.

(** The routers that [api.py] adds with [auth=AuthBearer()]: [/tasks],
    [/pomodoro] and [/analytics]; [/auth] is added without. *)
Definition behind_bearer (r : route) : bool :=
  match r with
  | GET_auth_user _ | GET_auth_settings | PUT_auth_settings _ => false
  | _ => true
  end.

(** The handler of a route: [now] and [today] are the clock readings of
    the request, [auth] is [request.auth], [authorization] the header. *)
Definition handler (now : instant) (today : date) (authorization : option string)
    (r : route) (auth : Z) : M (result body) :=
  match r with
  | GET_auth_user user_id => as_body Profile (get_user user_id authorization)
  | GET_auth_settings => as_body Settings (get_user_settings authorization)
  | PUT_auth_settings data => as_body Settings (update_user_settings data authorization)
  | GET_tasks status priority category_id search =>
      as_body Tasks (list_tasks status priority category_id search authorization)
  | GET_task task_id => as_body OneTask (get_task task_id authorization)
  | PUT_task task_id task_data =>
      as_body OneTask (update_task now task_id task_data authorization)
  | DELETE_task task_id => as_body Success (delete_task task_id authorization)
  | POST_task_complete task_id => as_body Success (complete_task now task_id authorization)
  | GET_categories => as_body Categories (list_categories authorization)
  | PUT_category category_id data =>
      as_body OneCategory (update_category category_id data authorization)
  | DELETE_category category_id => as_body Success (delete_category category_id authorization)
  | GET_tags => as_body Tags (list_tags authorization)
  | PUT_tag tag_id data => as_body OneTag (update_tag tag_id data authorization)
  | DELETE_tag tag_id => as_body Success (delete_tag tag_id authorization)
  | POST_pomodoro_start data => as_body Session (start_session now data authorization)
  | PUT_pomodoro_complete session_id data =>
      as_body Session (complete_session now session_id data authorization)
  | GET_pomodoro_history days task_id =>
      as_body Sessions (get_history now days task_id authorization)
  | DELETE_pomodoro session_id => as_body Success (delete_session now session_id authorization)
  | GET_analytics_dashboard days => as_body Analytics (get_analytics today auth days)
  | POST_analytics_date_range date_range =>
      as_body Analytics (get_analytics_by_date_range today auth date_range)
  | GET_task_analytics task_id => as_body TaskAnalysis (get_task_analytics auth task_id)
  | POST_tasks key task_data =>
      as_body OneTask (create_task now key task_data authorization)
  | POST_categories key data =>
      as_body OneCategory (create_category key data authorization)
  | POST_tags key data => as_body OneTag (create_tag key data authorization)
  | GET_pomodoro_stats days first_row =>
      as_body Stats (get_stats first_row now days authorization)
  end.

(** One request served by the API object. *)
Definition api (now : instant) (today : date) (authorization : option string)
    (r : route) : Store -> http body * Store :=
  if behind_bearer r then protected authorization (handler now today authorization r)
  else run_operation (handler now today authorization r 0).

(** *** Sequences of operations on one session *)

(** A client's call on a session: [PUT /pomodoro/{id}/complete] with its
    body, or [DELETE /pomodoro/{id}]; each with the clock of the request. *)
Inductive session_op :=
| Complete (now : instant) (data : SessionUpdateSchema.t)
| Delete (now : instant).

Definition run_session_op (authorization : option string) (session_id : Z)
    (o : session_op) (s : Store) : Store :=
  match o with
  | Complete now data => snd (complete_session now session_id data authorization s)
  | Delete now => snd (delete_session now session_id authorization s)
  end.

Definition run_session_ops (authorization : option string) (session_id : Z)
    (ops : list session_op) (s : Store) : Store :=
  fold_left (fun s o => run_session_op authorization session_id o s) ops s.

End Handlers.

(** The counter of a task as the table holds it. *)
Definition completed_count (task_id : Z) (s : Store) : option Z :=
  option_map Task.completed_pomodoros (find_task task_id s).

(** A computation that leaves the store as it found it. *)
Definition read_only {A} (m : M A) : Prop := forall s, snd (m s) = s.

(** The session [session_id] of the user is a work session linked to the
    task [task_id]; its flag is [b] and the task's counter is [c]. *)
Definition linked (user_id : Z) (s : Store) (session_id task_id : Z) (b : bool) (c : Z)
  : Prop :=
  exists session task,
    owned_session session_id user_id s = Some session
    /\ PomodoroSession.type session = "work"
    /\ PomodoroSession.task_id session = Some task_id
    /\ PomodoroSession.is_completed session = b
    /\ find_task task_id s = Some task
    /\ Task.completed_pomodoros task = c.

(** ** Net completions of a sequence of operations, from the
    specification's words

    The session exists until the first [Delete]; the calls before it are
    the ones that reach it. *)
Fixpoint live_prefix (ops : list session_op) : list session_op :=
  match ops with
  | [] => []
  | Delete _ :: _ => []
  | o :: r => o :: live_prefix r
  end.

Definition deleted (ops : list session_op) : bool :=
  existsb (fun o => match o with Delete _ => true | Complete _ _ => false end) ops.

(** A completion: a [complete] call that marks the session completed. *)
Definition is_completion (o : session_op) : bool :=
  match o with
  | Complete _ data => SessionUpdateSchema.is_completed data
  | Delete _ => false
  end.

Definition completions (ops : list session_op) : Z :=
  count (filter is_completion (live_prefix ops)).

(** Whether the session is completed after the calls [ops], having been
    [b] before: the flag of the last [complete] call. *)
Definition completed_after (b : bool) (ops : list session_op) : bool :=
  fold_left (fun b o => match o with
                        | Complete _ data => SessionUpdateSchema.is_completed data
                        | Delete _ => b
                        end)
            ops b.

(** A matching deletion of a completed session: the sequence deletes the
    session, and the session is completed when it does. *)
Definition deletions_of_completed (ops : list session_op) : Z :=
  if deleted ops && completed_after false (live_prefix ops) then 1 else 0.

Definition net_completions (ops : list session_op) : Z :=
  completions ops - deletions_of_completed ops.

(** ** Sample data *)

(** A verifier that accepts two tokens. *)
Definition sample_jwt_decode (token : string) : option (option Z) :=
  if String.eqb token "token-alice" then Some (Some 1)
  else if String.eqb token "token-bob" then Some (Some 2)
  else None.

Definition alice : User.t :=
  {| User.id := 1; User.username := "alice"; User.email := "alice@example.com";
     User.first_name := "Alice"; User.last_name := "A"; User.date_joined := 0 |}.

Definition bob : User.t :=
  {| User.id := 2; User.username := "bob"; User.email := "bob@example.com";
     User.first_name := "Bob"; User.last_name := "B"; User.date_joined := 0 |}.

Definition sample_task (id : Z) (priority : string) (created_at : instant) : Task.t :=
  {| Task.id := id; Task.title := "Write spec"; Task.description := None;
     Task.status := "pending"; Task.priority := priority; Task.due_date := None;
     Task.estimated_pomodoros := 2; Task.completed_pomodoros := 0;
     Task.created_at := created_at; Task.updated_at := created_at;
     Task.user_id := 1; Task.category_id := None |}.

(** A completed work session of alice that started at noon (Taipei time)
    of day [day]. *)
Definition sample_session (id : Z) (task_id : option Z) (day : date) (completed : bool)
  : PomodoroSession.t :=
  {| PomodoroSession.id := id; PomodoroSession.user_id := 1;
     PomodoroSession.task_id := task_id;
     PomodoroSession.start_time := day * 86400 + 4 * 3600;
     PomodoroSession.end_time := None; PomodoroSession.duration := 1500;
     PomodoroSession.type := "work"; PomodoroSession.is_completed := completed |}.

Definition sample_store (tasks : list Task.t) (sessions : list PomodoroSession.t) : Store :=
  {| users := [alice; bob]; user_settings := []; categories := []; tags := [];
     tasks := tasks; task_tags := []; pomodoro_sessions := sessions;
     next_session_id := 100 |}.

Definition sample_data (completed : bool) : SessionUpdateSchema.t :=
  {| SessionUpdateSchema.end_time := {| wall := 1700000000; tzinfo := None |};
     SessionUpdateSchema.is_completed := completed |}.

(** A task of alice with one open work session linked to it. *)
Definition st0 : Store :=
  sample_store [sample_task 10 "high" 0] [sample_session 5 (Some 10) 100 false].

(** The same after one completion: the session is completed and counted. *)
Definition st1 : Store :=
  sample_store [set_completed_pomodoros (sample_task 10 "high" 0) 1]
               [sample_session 5 (Some 10) 100 true].

Definition alice_header : option string := Some "Bearer token-alice".
Definition bob_header : option string := Some "Bearer token-bob".

(** The category reference of an update passes the ownership check: it
    is absent, the sentinel [0], or a category of the caller. *)
Definition category_accepted (data : TaskUpdateSchema.t) (user_id : Z) (s : Store) : Prop :=
  match TaskUpdateSchema.category_id data with
  | None => True
  | Some c => c = 0 \/ exists category, owned_category c user_id s = Some category
  end.

Definition counter_update (v : Z) : TaskUpdateSchema.t :=
  {| TaskUpdateSchema.title := None; TaskUpdateSchema.description := None;
     TaskUpdateSchema.status := None; TaskUpdateSchema.priority := None;
     TaskUpdateSchema.due_date := None; TaskUpdateSchema.estimated_pomodoros := None;
     TaskUpdateSchema.completed_pomodoros := Some v;
     TaskUpdateSchema.category_id := None; TaskUpdateSchema.tag_ids := None |}.

(** The request carries no token that the verifier accepts: there is no
    [Authorization] header, or [jwt.decode] raises on the token of the
    header, as [HttpBearer] reads it (the text after the first blank) and
    as [get_user_id_from_token] reads it (the header without
    ["Bearer "]). *)
Definition refused (jwt_decode : string -> option (option Z))
    (authorization : option string) : Prop :=
  match authorization with
  | None => True
  | Some a =>
      jwt_decode (snd (split_first a)) = None
      /\ jwt_decode (replace_bearer 0 a) = None
  end.

(** The routes whose handler asks for a token: those behind the bearer
    guard, the two settings routes, and the profile route when no
    [user_id] parameter is given. *)
Definition asks_for_token (r : route) : bool :=
  match r with
  | GET_auth_user (Some _) => false
  | _ => true
  end.

(** The header carries a token of the user [user_id], for the bearer
    guard and for the handlers that read the header themselves. *)
Definition accepted (jwt_decode : string -> option (option Z))
    (authorization : option string) (user_id : Z) : Prop :=
  HttpBearer_call jwt_decode authorization = Some user_id
  /\ get_user_id_from_token jwt_decode authorization = Some user_id
  /\ user_id <> 0.

(** Whether the row that a route addresses by its identifier is a row of
    the user; routes that address no row count as owned. *)
Definition owns (user_id : Z) (s : Store) (r : route) : bool :=
  match r with
  | GET_task i | PUT_task i _ | DELETE_task i | POST_task_complete i =>
      is_some (owned_task i user_id s)
  | PUT_category i _ | DELETE_category i => is_some (owned_category i user_id s)
  | PUT_tag i _ | DELETE_tag i => is_some (owned_tag i user_id s)
  | PUT_pomodoro_complete i _ | DELETE_pomodoro i => is_some (owned_session i user_id s)
  | GET_task_analytics i => is_some (owned_task i user_id s)
  | _ => true
  end.

(** The status that answers a request for a row the user does not own. *)
Definition foreign_status (r : route) : Z :=
  match r with
  | PUT_pomodoro_complete _ _ | DELETE_pomodoro _ => 500
  | _ => 404
  end.

(** Three tasks of alice, one of each priority, created in the order
    high, medium, low, without due dates. *)
Definition priority_store : Store :=
  sample_store [sample_task 1 "high" 0; sample_task 2 "medium" 1; sample_task 3 "low" 2] [].

(** A due date comes before another: a task without one before every
    task with one, and a day before every later day. *)
Definition due_before (a b : option date) : Prop :=
  match a, b with
  | None, Some _ => True
  | Some x, Some y => x < y
  | _, _ => False
  end.

(** Two entries of a listing stand in the order of the model's [Meta]:
    the first has the greater priority, as text; or the same priority and
    the earlier due date; or the same priority and due date and was not
    created later. *)
Definition listed_in_order (a b : TaskSchema.t) : Prop :=
  String.compare (TaskSchema.priority a) (TaskSchema.priority b) = Gt
  \/ (TaskSchema.priority a = TaskSchema.priority b
      /\ (due_before (TaskSchema.due_date a) (TaskSchema.due_date b)
          \/ (TaskSchema.due_date a = TaskSchema.due_date b
              /\ TaskSchema.created_at a <= TaskSchema.created_at b))).

(** A task of alice with a priority, a due date and a creation time. *)
Definition due_task (id : Z) (priority : string) (due_date : option date)
    (created_at : instant) : Task.t :=
  {| Task.id := id; Task.title := "Write spec"; Task.description := None;
     Task.status := "pending"; Task.priority := priority; Task.due_date := due_date;
     Task.estimated_pomodoros := 2; Task.completed_pomodoros := 0;
     Task.created_at := created_at; Task.updated_at := created_at;
     Task.user_id := 1; Task.category_id := None |}.

(** Six tasks of alice: four of medium priority that differ in due date
    and creation time, one of low and one of high priority. *)
Definition ordering_store : Store :=
  sample_store
    [due_task 1 "medium" (Some 120) 5; due_task 2 "medium" None 9;
     due_task 3 "medium" (Some 110) 7; due_task 4 "medium" (Some 110) 3;
     due_task 5 "low" None 1; due_task 6 "high" None 0]
    [].

(** The priorities of a listing, in the order of the listing. *)
Definition listed_priorities (r : http body) : list (Z * string) :=
  match r with
  | Ok (Tasks l) => map (fun t => (TaskSchema.id t, TaskSchema.priority t)) l
  | _ => []
  end.

(** Referential integrity of [Task.category]: a task's category is a row
    of the category table. *)
Definition categories_exist (s : Store) : Prop :=
  forall t, In t (tasks s) ->
  forall c, Task.category_id t = Some c -> exists x, find_category c s = Some x.

(** The window of [days] days that ends on [today] lies inside the
    calendar, away from its first and its last day, so that no date of the
    request is out of range: [timedelta(days=days)] exists, the start
    date [today - days] is a date, and so are the day before it and the day
    after [today]. *)
Definition window_in_calendar (today : date) (days : Z) : Prop :=
  Z.abs days <= timedelta_max_days
  /\ date_min < today - days <= date_max
  /\ date_min <= today < date_max.

(** The span of [days] days that ends at the instant [now] lies inside the
    calendar, a day away from its ends: [timedelta(days=days)] exists and
    [now - timedelta(days=days)] is a datetime. *)
Definition span_in_calendar (now : instant) (days : Z) : Prop :=
  Z.abs days <= timedelta_max_days
  /\ (date_min + 1) * 86400 <= now - days * 86400 < date_max * 86400
  /\ (date_min + 1) * 86400 <= now < date_max * 86400.

(** The user completed a work session that started on the day [d]. *)
Definition completed_work_on (s : Store) (user_id : Z) (d : date) : Prop :=
  exists x,
    In x (pomodoro_sessions s)
    /\ PomodoroSession.user_id x = user_id
    /\ PomodoroSession.type x = "work"
    /\ PomodoroSession.is_completed x = true
    /\ local_date (PomodoroSession.start_time x) = d.

(** The values of a series, in order. *)
Definition series_values (l : list TimeSeriesDataPoint.t) : list Z :=
  map TimeSeriesDataPoint.value l.

(** Alice completed a work session on each of the days 198, 199 and 200,
    and none on day 197. *)
Definition three_day_store : Store :=
  sample_store []
    [sample_session 1 None 198 true; sample_session 2 None 199 true;
     sample_session 3 None 200 true].

(** Alice completed a work session on day 103. *)
Definition past_store : Store := sample_store [] [sample_session 1 None 103 true].

Definition past_week : TimeRangeSchema.t :=
  {| TimeRangeSchema.start_date := 100; TimeRangeSchema.end_date := 106 |}.

(** The number of completed work sessions of a user that started on the
    day [d]. *)
Definition pomodoros_on (s : Store) (user_id : Z) (d : date) : Z :=
  count (filter (fun x => (PomodoroSession.user_id x =? user_id)
                          && (local_date (PomodoroSession.start_time x) =? d)
                          && is_work x
                          && PomodoroSession.is_completed x)
                (pomodoro_sessions s)).

(** The number of tasks of a user, created between [start_date] and
    [end_date], that are completed and were last saved on the day [d]. *)
Definition tasks_completed_on (s : Store) (user_id : Z) (start_date end_date d : date) : Z :=
  count (filter (fun t => (Task.user_id t =? user_id)
                          && (start_date <=? local_date (Task.created_at t))
                          && (local_date (Task.created_at t) <=? end_date)
                          && is_status_completed t
                          && (local_date (Task.updated_at t) =? d))
                (tasks s)).

(** The number of tasks of a user that were created on a day from
    [start_date] to [end_date]: each such row of the task table counts
    one. *)
Definition tasks_created_between (s : Store) (user_id : Z) (start_date end_date : date)
  : Z :=
  fold_right
    (fun t n =>
       if Z.eq_dec (Task.user_id t) user_id then
         if Z_le_dec start_date (local_date (Task.created_at t)) then
           if Z_le_dec (local_date (Task.created_at t)) end_date then n + 1 else n
         else n
       else n)
    0 (tasks s).

(** The state [st1] with the task's counter put back to zero. *)
Definition st1_reset : Store :=
  sample_store [sample_task 10 "high" 0] [sample_session 5 (Some 10) 100 true].

(** Every session has a primary key below the auto-increment counter. *)
Definition session_ids_below (s : Store) : Prop :=
  forall x, In x (pomodoro_sessions s) -> PomodoroSession.id x < next_session_id s.

(** One round of the timer: [POST /pomodoro/start] with [data], then
    [PUT /pomodoro/{id}/complete] with [cdata] on the session that the
    start created. *)
Definition work_round (jwt_decode : string -> option (option Z))
    (authorization : option string) (now : instant)
    (data : SessionCreateSchema.t) (cdata : SessionUpdateSchema.t) (s : Store) : Store :=
  snd (complete_session jwt_decode now (next_session_id s) cdata authorization
         (snd (start_session jwt_decode now data authorization s))).

Fixpoint work_rounds (jwt_decode : string -> option (option Z))
    (authorization : option string) (now : instant)
    (data : SessionCreateSchema.t) (cdata : SessionUpdateSchema.t)
    (n : nat) (s : Store) : Store :=
  match n with
  | O => s
  | S k => work_rounds jwt_decode authorization now data cdata k
             (work_round jwt_decode authorization now data cdata s)
  end.

(** A start request for a 25-minute work session. *)
Definition work_on (task_id : option Z) : SessionCreateSchema.t :=
  {| SessionCreateSchema.task_id := task_id; SessionCreateSchema.type := "work";
     SessionCreateSchema.duration := 1500 |}.

(** The values of a start request fit the columns of the session table
    ([pomodoro/models.py]): [duration] is a [PositiveIntegerField], [type]
    a [CharField] of 15 characters. *)
Definition fits_session_columns (data : SessionCreateSchema.t) : Prop :=
  0 <= SessionCreateSchema.duration data <= 2147483647
  /\ (String.length (SessionCreateSchema.type data) <= 15)%nat.

(** Referential integrity of [PomodoroSession.task]: a session's task is
    a row of the task table. *)
Definition session_tasks_exist (s : Store) : Prop :=
  forall x, In x (pomodoro_sessions s) ->
  forall i, PomodoroSession.task_id x = Some i -> exists t, find_task i s = Some t.

(** The rows that [get_history] selects for a user. *)
Definition in_history (now : instant) (days : Z) (task_id : option Z) (user_id : Z)
    (x : PomodoroSession.t) : bool :=
  (PomodoroSession.user_id x =? user_id)
  && (now - days * 86400 <=? PomodoroSession.start_time x)
  && (if truthy task_id then option_Z_eqb (PomodoroSession.task_id x) task_id else true).


(** The user has a session that started within the [days] days before
    [now]. *)
Definition session_since (s : Store) (user_id : Z) (now : instant) (days : Z) : Prop :=
  exists x,
    In x (pomodoro_sessions s)
    /\ PomodoroSession.user_id x = user_id
    /\ now - days * 86400 <= PomodoroSession.start_time x.

(** The number of sessions of a user that started within the [days] days
    before [now]. *)
Definition sessions_since (s : Store) (user_id : Z) (now : instant) (days : Z) : Z :=
  count (filter (fun x => (PomodoroSession.user_id x =? user_id)
                          && (now - days * 86400 <=? PomodoroSession.start_time x))
                (pomodoro_sessions s)).

(** The number of those that are completed. *)
Definition completed_since (s : Store) (user_id : Z) (now : instant) (days : Z) : Z :=
  count (filter (fun x => (PomodoroSession.user_id x =? user_id)
                          && (now - days * 86400 <=? PomodoroSession.start_time x)
                          && PomodoroSession.is_completed x)
                (pomodoro_sessions s)).

(** The user completed a work session that started within the [days] days
    before [now]. *)
Definition completed_work_since (s : Store) (user_id : Z) (now : instant) (days : Z)
  : Prop :=
  exists x,
    In x (pomodoro_sessions s)
    /\ PomodoroSession.user_id x = user_id
    /\ now - days * 86400 <= PomodoroSession.start_time x
    /\ PomodoroSession.type x = "work"
    /\ PomodoroSession.is_completed x = true.

(** The number of completed work sessions of a user that started within
    the [days] days before [now], on the UTC day [d]. *)
Definition completed_work_since_on (s : Store) (user_id : Z) (now : instant) (days : Z)
    (d : date) : Z :=
  count (filter (fun x => (PomodoroSession.user_id x =? user_id)
                          && (now - days * 86400 <=? PomodoroSession.start_time x)
                          && String.eqb (PomodoroSession.type x) "work"
                          && PomodoroSession.is_completed x
                          && (utc_date (PomodoroSession.start_time x) =? d))
                (pomodoro_sessions s)).

(** What the database guarantees of [.order_by("-count").first()]: no row
    of an empty table, and otherwise a row of the table that no row
    exceeds in count. *)
Definition first_of_ranking (first_row : list (option Z * Z) -> option (option Z * Z))
  : Prop :=
  forall rows,
    match first_row rows with
    | Some r => In r rows /\ forall y, In y rows -> snd y <= snd r
    | None => rows = []
    end.

(** A database that settles ties by the order in which the groups were
    met. *)
Definition first_met (rows : list (option Z * Z)) : option (option Z * Z) :=
  hd_error (order_by (fun a b => snd b <=? snd a) rows).

(** Alice completed two work sessions on day 199 and one on day 200. *)
Definition busy_store : Store :=
  sample_store []
    [sample_session 1 None 199 true; sample_session 2 None 200 true;
     sample_session 3 None 199 true].

(** The values that an update supplies fit the columns of the task table
    ([tasks/models.py]): the two counters are [PositiveIntegerField]s, the
    title, the status and the priority are [CharField]s of 200, 20 and 10
    characters. *)
Definition fits_columns (data : TaskUpdateSchema.t) : Prop :=
  (forall v, TaskUpdateSchema.estimated_pomodoros data = Some v -> 0 <= v <= 2147483647)
  /\ (forall v, TaskUpdateSchema.completed_pomodoros data = Some v -> 0 <= v <= 2147483647)
  /\ (forall x, TaskUpdateSchema.title data = Some x -> (String.length x <= 200)%nat)
  /\ (forall x, TaskUpdateSchema.status data = Some x -> (String.length x <= 20)%nat)
  /\ (forall x, TaskUpdateSchema.priority data = Some x -> (String.length x <= 10)%nat).

(** The category a task has after an update: the one it had when none is
    supplied, none for the sentinel [0], else the one supplied. *)
Definition updated_category (data : TaskUpdateSchema.t) (task : Task.t) : option Z :=
  match TaskUpdateSchema.category_id data with
  | None => Task.category_id task
  | Some c => if c =? 0 then None else Some c
  end.

(** A request that changes only the tags of a task. *)
Definition tags_update (ids : list Z) : TaskUpdateSchema.t :=
  {| TaskUpdateSchema.title := None; TaskUpdateSchema.description := None;
     TaskUpdateSchema.status := None; TaskUpdateSchema.priority := None;
     TaskUpdateSchema.due_date := None; TaskUpdateSchema.estimated_pomodoros := None;
     TaskUpdateSchema.completed_pomodoros := None;
     TaskUpdateSchema.category_id := None; TaskUpdateSchema.tag_ids := Some ids |}.

(** A request that moves a task to a category. *)
Definition category_update (c : Z) : TaskUpdateSchema.t :=
  {| TaskUpdateSchema.title := Some "Moved"; TaskUpdateSchema.description := None;
     TaskUpdateSchema.status := None; TaskUpdateSchema.priority := None;
     TaskUpdateSchema.due_date := None; TaskUpdateSchema.estimated_pomodoros := None;
     TaskUpdateSchema.completed_pomodoros := None;
     TaskUpdateSchema.category_id := Some c; TaskUpdateSchema.tag_ids := None |}.

(** Two tags of alice and one of bob; alice's task 10 carries tag 1. *)
Definition tag_store : Store :=
  {| users := [alice; bob]; user_settings := []; categories := [];
     tags := [ {| Tag.id := 1; Tag.name := "urgent"; Tag.color_code := "#3b82f6";
                  Tag.user_id := 1 |};
               {| Tag.id := 2; Tag.name := "home"; Tag.color_code := "#3b82f6";
                  Tag.user_id := 1 |};
               {| Tag.id := 3; Tag.name := "bob's"; Tag.color_code := "#3b82f6";
                  Tag.user_id := 2 |} ];
     tasks := [sample_task 10 "high" 0]; task_tags := [(10, 1)];
     pomodoro_sessions := []; next_session_id := 1 |}.

(** What a session keeps when the task it refers to is deleted: all but
    the reference. *)
Definition same_session_but_task (x x' : PomodoroSession.t) : Prop :=
  PomodoroSession.id x' = PomodoroSession.id x
  /\ PomodoroSession.user_id x' = PomodoroSession.user_id x
  /\ PomodoroSession.start_time x' = PomodoroSession.start_time x
  /\ PomodoroSession.end_time x' = PomodoroSession.end_time x
  /\ PomodoroSession.duration x' = PomodoroSession.duration x
  /\ PomodoroSession.type x' = PomodoroSession.type x
  /\ PomodoroSession.is_completed x' = PomodoroSession.is_completed x.

(** alice has a category with task 10 in it, task 11 outside it, two tags
    and a session on task 10; bob has a tag. *)
Definition label_store : Store :=
  {| users := [alice; bob]; user_settings := [];
     categories := [ {| Category.id := 5; Category.name := "Work";
                        Category.color_code := "#e53e3e"; Category.user_id := 1 |} ];
     tags := tags tag_store;
     tasks := [set_category (sample_task 10 "high" 0) (Some 5); sample_task 11 "low" 3];
     task_tags := [(10, 1); (10, 2); (11, 1)];
     pomodoro_sessions := [sample_session 5 (Some 10) 100 true];
     next_session_id := 6 |}.


(** The values of a create request fit the columns of the task table. *)
Definition fits_task_columns (task_data : TaskCreateSchema.t) : Prop :=
  0 <= TaskCreateSchema.estimated_pomodoros task_data <= 2147483647
  /\ (String.length (TaskCreateSchema.title task_data) <= 200)%nat
  /\ (String.length (TaskCreateSchema.status task_data) <= 20)%nat
  /\ (String.length (TaskCreateSchema.priority task_data) <= 10)%nat.

(** The category reference of a create request passes the ownership
    check: it is absent, [0], or a category of the caller. *)
Definition category_reference_accepted (task_data : TaskCreateSchema.t) (user_id : Z)
    (s : Store) : Prop :=
  match TaskCreateSchema.category_id task_data with
  | None => True
  | Some c => c = 0 \/ exists category, owned_category c user_id s = Some category
  end.

(** The values of a label request fit the columns of the category table
    ([name] of 100 characters) or of the tag table ([name] of 50), and
    the colour its 20 characters. *)
Definition fits_label_columns (width : nat) (data : LabelCreateSchema.t) : Prop :=
  (String.length (LabelCreateSchema.name data) <= width)%nat
  /\ (String.length (LabelCreateSchema.color_code data) <= 20)%nat.

Definition sample_label : LabelCreateSchema.t :=
  {| LabelCreateSchema.name := "Reading"; LabelCreateSchema.color_code := "#e53e3e" |}.

(** A request for a task in category [c] with the tags [ids]. *)
Definition sample_create (c : option Z) (ids : list Z) : TaskCreateSchema.t :=
  {| TaskCreateSchema.title := "Read paper"; TaskCreateSchema.description := None;
     TaskCreateSchema.status := "pending"; TaskCreateSchema.priority := "medium";
     TaskCreateSchema.due_date := None; TaskCreateSchema.estimated_pomodoros := 3;
     TaskCreateSchema.category_id := c; TaskCreateSchema.tag_ids := ids |}.

(** The text holds no blank. *)
Fixpoint no_blank (s : string) : bool :=
  match s with
  | EmptyString => true
  | String c r => negb (Ascii.eqb c " "%char) && no_blank r
  end.

(** The values of a settings request fit the columns of the settings
    table ([users/models.py]): the four durations are [IntegerField]s. *)
Definition fits_setting_columns (data : UserSettingsSchema.t) : Prop :=
  -2147483648 <= UserSettingsSchema.work_duration data <= 2147483647
  /\ -2147483648 <= UserSettingsSchema.short_break_duration data <= 2147483647
  /\ -2147483648 <= UserSettingsSchema.long_break_duration data <= 2147483647
  /\ -2147483648 <= UserSettingsSchema.long_break_interval data <= 2147483647.

Definition sample_settings : UserSettingsSchema.t :=
  {| UserSettingsSchema.work_duration := 3000;
     UserSettingsSchema.short_break_duration := 600;
     UserSettingsSchema.long_break_duration := 1200;
     UserSettingsSchema.long_break_interval := 3;
     UserSettingsSchema.notifications_enabled := false |}.

(** The number of completed work sessions that are linked to the task
    [task_id]: each such row of the session table counts one. *)
Definition completed_work_of_task (s : Store) (task_id : Z) : Z :=
  fold_right
    (fun x n =>
       match PomodoroSession.task_id x with
       | Some i =>
           if Z.eq_dec i task_id then
             if string_dec (PomodoroSession.type x) "work" then
               if PomodoroSession.is_completed x then n + 1 else n
             else n
           else n
       | None => n
       end)
    0 (pomodoro_sessions s).

(** A session of alice of the given type. *)
Definition typed_session (id : Z) (task_id : option Z) (day : date) (type : string)
    (completed : bool) : PomodoroSession.t :=
  {| PomodoroSession.id := id; PomodoroSession.user_id := 1;
     PomodoroSession.task_id := task_id;
     PomodoroSession.start_time := day * 86400 + 4 * 3600;
     PomodoroSession.end_time := None; PomodoroSession.duration := 1500;
     PomodoroSession.type := type; PomodoroSession.is_completed := completed |}.

(** Two completed work sessions on task 10, two days apart; between them
    a work session on task 10 that was not completed, a completed break on
    task 10 and a completed work session on task 11. *)
Definition two_session_store : Store :=
  sample_store [sample_task 10 "high" 0; sample_task 11 "low" 1]
    [typed_session 1 (Some 10) 100 "work" true;
     typed_session 3 (Some 10) 101 "work" false;
     typed_session 4 (Some 10) 101 "short_break" true;
     typed_session 5 (Some 11) 101 "work" true;
     typed_session 2 (Some 10) 102 "work" true].

(** * Proofs *)

(** ** Lookups after a write *)

Lemma find_replace_hit {A} (p same : A -> bool) (x y : A) (l : list A) :
  find p l = Some y -> same y = true -> p x = true ->
  find p (map (fun r => if same r then x else r) l) = Some x.
Proof.
  intros Hfind Hsame Hpx.
  induction l as [|a l IH]; simpl in *; [discriminate|].
  destruct (same a) eqn:Ha.
  - now rewrite Hpx.
  - destruct (p a) eqn:Hpa.
    + inversion Hfind; subst. congruence.
    + auto.
Qed.

Lemma find_replace_miss {A} (p same : A -> bool) (x : A) (l : list A) :
  (forall r, same r = true -> p r = false) -> p x = false ->
  find p (map (fun r => if same r then x else r) l) = find p l.
Proof.
  intros Hsame Hpx.
  induction l as [|a l IH]; simpl; [reflexivity|].
  destruct (same a) eqn:Ha.
  - rewrite Hpx, (Hsame a Ha). exact IH.
  - destruct (p a); [reflexivity | exact IH].
Qed.

Lemma find_filter_gone {A} (p same : A -> bool) (l : list A) :
  (forall r, p r = true -> same r = true) ->
  find p (filter (fun r => negb (same r)) l) = None.
Proof.
  intros Hp.
  induction l as [|a l IH]; simpl; [reflexivity|].
  destruct (same a) eqn:Ha; simpl; [exact IH|].
  destruct (p a) eqn:Hpa; [|exact IH].
  rewrite (Hp a Hpa) in Ha. discriminate.
Qed.

Lemma find_some_holds {A} (p : A -> bool) (l : list A) (x : A) :
  find p l = Some x -> p x = true.
Proof. intros H. now apply find_some in H. Qed.

Lemma snd_try_except {A} (body : M (result A)) (h : exn -> Z) (s : Store) :
  snd (try_except body h s) = snd (body s).
Proof.
  unfold try_except. destruct (body s) as [[e|r] s']; reflexivity.
Qed.

Lemma snd_bind {A B} (m : M A) (k : A -> M B) (s : Store) :
  snd (bind m k s)
  = match fst (m s) with
    | inl _ => snd (m s)
    | inr a => snd (k a (snd (m s)))
    end.
Proof. unfold bind. destruct (m s) as [[e|a] s']; reflexivity. Qed.

Lemma fst_bind {A B} (m : M A) (k : A -> M B) (s : Store) :
  fst (bind m k s)
  = match fst (m s) with
    | inl e => inl e
    | inr a => fst (k a (snd (m s)))
    end.
Proof. unfold bind. destruct (m s) as [[e|a] s']; reflexivity. Qed.

Lemma fst_try_except {A} (body : M (result A)) (h : exn -> Z) (s : Store) :
  fst (try_except body h s)
  = match fst (body s) with
    | inl e => inr (Response (h e))
    | inr r => inr r
    end.
Proof. unfold try_except. destruct (body s) as [[e|r] s']; reflexivity. Qed.

Lemma read_only_ret {A} (a : A) : read_only (ret a).
Proof. intros s. reflexivity. Qed.

Lemma read_only_bind {A B} (m : M A) (k : A -> M B) :
  read_only m -> (forall a, read_only (k a)) -> read_only (bind m k).
Proof.
  intros Hm Hk s. unfold bind. specialize (Hm s).
  destruct (m s) as [[e|a] s']; simpl in Hm; subst; [reflexivity | apply Hk].
Qed.

Lemma read_only_objects_get {A} (m : model_name) (lookup : Store -> option A) :
  read_only (objects_get m lookup).
Proof. intros s. unfold objects_get. destruct (lookup s); reflexivity. Qed.

Lemma read_only_get_object_or_404 {A} (lookup : Store -> option A) :
  read_only (get_object_or_404 lookup).
Proof. intros s. unfold get_object_or_404. destruct (lookup s); reflexivity. Qed.

Lemma read_only_related_task x : read_only (related_task x).
Proof.
  unfold related_task. destruct (PomodoroSession.task_id x).
  - apply read_only_bind; [apply read_only_objects_get | intros; apply read_only_ret].
  - apply read_only_ret.
Qed.

Lemma read_only_related_user x : read_only (related_user x).
Proof. apply read_only_objects_get. Qed.

Lemma read_only_completed_work_task x : read_only (completed_work_task x).
Proof.
  unfold completed_work_task.
  destruct (PomodoroSession.is_completed x && _)%bool;
    [apply read_only_related_task | apply read_only_ret].
Qed.

Lemma read_only_try_except {A} (body : M (result A)) (h : exn -> Z) :
  read_only body -> read_only (try_except body h).
Proof. intros H s. rewrite snd_try_except. apply H. Qed.

Ltac solve_read_only :=
  repeat first
    [ apply read_only_ret
    | apply read_only_related_user
    | apply read_only_related_task
    | apply read_only_completed_work_task
    | apply read_only_objects_get
    | apply read_only_get_object_or_404
    | apply read_only_try_except
    | apply read_only_bind; [|intros]
    | match goal with
      | |- read_only (match ?x with _ => _ end) => destruct x
      | |- read_only (if ?x then _ else _) => destruct x
      end ].

(** Closes [snd (m s) = s] for a computation built from reads. *)
Ltac store_unchanged :=
  match goal with
  | |- snd (?m ?s) = ?s => cut (read_only m); [intros Hr; apply Hr | solve_read_only]
  end.

Section SessionProofs.

Variable jwt_decode : string -> option (option Z).
Variable authorization : option string.
Variable user_id : Z.
Hypothesis token_accepted :
  get_user_id_from_token jwt_decode authorization = Some user_id.
Hypothesis user_id_truthy : user_id <> 0.

Lemma authenticated_identity {A} (unauthenticated : M (result A)) (k : Z -> M (result A)) :
  authenticated jwt_decode authorization unauthenticated k = k user_id.
Proof.
  unfold authenticated. rewrite token_accepted. simpl.
  destruct (Z.eqb_spec user_id 0); [contradiction | reflexivity].
Qed.

Lemma owned_session_fields session_id s session :
  owned_session session_id user_id s = Some session ->
  PomodoroSession.id session = session_id /\ PomodoroSession.user_id session = user_id.
Proof.
  intros H. apply find_some_holds in H.
  apply andb_true_iff in H. destruct H as [H1 H2].
  split; now apply Z.eqb_eq.
Qed.

Lemma find_task_id task_id s task :
  find_task task_id s = Some task -> Task.id task = task_id.
Proof. intros H. apply find_some_holds in H. now apply Z.eqb_eq. Qed.

Lemma complete_session_store now session_id data s session :
  owned_session session_id user_id s = Some session ->
  let session' :=
    set_completion session (instant_of (normalized_end_time data))
      (SessionUpdateSchema.is_completed data) in
  let s1 := snd (save_session session' s) in
  snd (complete_session jwt_decode now session_id data authorization s)
  = match fst (completed_work_task session' s1) with
    | inr (Some task) =>
        snd (save_task now
               (set_completed_pomodoros task (Task.completed_pomodoros task + 1)) s1)
    | _ => s1
    end.
Proof.
  intros Hown session' s1.
  unfold complete_session. rewrite snd_try_except, authenticated_identity.
  unfold bind at 1. unfold get_object_or_404. rewrite Hown.
  fold (normalized_end_time data). fold session'.
  unfold bind at 1. unfold save_session at 1.
  change (with_sessions s _ _) with s1.
  unfold bind at 1.
  pose proof (read_only_completed_work_task session' s1) as Hro.
  destruct (completed_work_task session' s1) as [[e|found] s2]; simpl in Hro; subst s2;
    [reflexivity|].
  simpl fst.
  destruct found as [task|].
  - rewrite snd_bind. rewrite snd_bind. simpl fst. simpl snd. cbv iota beta.
    store_unchanged.
  - rewrite snd_bind. simpl fst. simpl snd. cbv iota beta. store_unchanged.
Qed.

Lemma delete_session_store now session_id s session :
  owned_session session_id user_id s = Some session ->
  snd (delete_session jwt_decode now session_id authorization s)
  = match fst (completed_work_task session s) with
    | inl _ => s
    | inr (Some task) =>
        snd (delete_session_row session
               (if Task.completed_pomodoros task >? 0
                then snd (save_task now
                            (set_completed_pomodoros task
                               (Task.completed_pomodoros task - 1)) s)
                else s))
    | inr None => snd (delete_session_row session s)
    end.
Proof.
  intros Hown.
  unfold delete_session. rewrite snd_try_except, authenticated_identity.
  unfold bind at 1. unfold get_object_or_404. rewrite Hown.
  unfold bind at 1.
  pose proof (read_only_completed_work_task session s) as Hro.
  destruct (completed_work_task session s) as [[e|found] s2]; simpl in Hro; subst s2;
    [reflexivity|].
  simpl fst.
  destruct found as [task|].
  - destruct (Task.completed_pomodoros task >? 0); reflexivity.
  - reflexivity.
Qed.

Lemma session_gone_complete now session_id data s :
  owned_session session_id user_id s = None ->
  complete_session jwt_decode now session_id data authorization s
  = (inr (Response 500), s).
Proof.
  intros Hgone. unfold complete_session. rewrite authenticated_identity.
  unfold try_except, bind, get_object_or_404. now rewrite Hgone.
Qed.

Lemma session_gone_delete now session_id s :
  owned_session session_id user_id s = None ->
  delete_session jwt_decode now session_id authorization s
  = (inr (Response 500), s).
Proof.
  intros Hgone. unfold delete_session. rewrite authenticated_identity.
  unfold try_except, bind, get_object_or_404. now rewrite Hgone.
Qed.

Lemma linked_work_task s session_id task_id b c session :
  linked user_id s session_id task_id b c ->
  owned_session session_id user_id s = Some session ->
  exists task,
    find_task task_id s = Some task /\ Task.completed_pomodoros task = c
    /\ PomodoroSession.type session = "work"
    /\ PomodoroSession.task_id session = Some task_id
    /\ PomodoroSession.is_completed session = b.
Proof.
  intros (x & task & Hx & Hty & Htid & Hb & Ht & Hc) Hown.
  rewrite Hown in Hx. inversion Hx; subst x. eauto 10.
Qed.

Lemma completed_work_task_linked x s task_id task :
  PomodoroSession.type x = "work" ->
  PomodoroSession.task_id x = Some task_id ->
  find_task task_id s = Some task ->
  completed_work_task x s
  = (inr (if PomodoroSession.is_completed x then Some task else None), s).
Proof.
  intros Hty Htid Ht. unfold completed_work_task. rewrite Hty.
  destruct (PomodoroSession.is_completed x); [|reflexivity].
  change (true && ("work" =? "work")%string)%bool with true. cbv iota.
  unfold related_task. rewrite Htid. unfold bind, objects_get, ret. now rewrite Ht.
Qed.

Lemma find_task_saved now task_id s task task' :
  find_task task_id s = Some task ->
  Task.id task' = Task.id task ->
  find_task task_id (snd (save_task now task' s)) = Some (touch now task').
Proof.
  intros Ht Hid. unfold find_task. simpl.
  apply find_replace_hit with (same := fun r => Task.id r =? Task.id task') (y := task).
  - exact Ht.
  - rewrite Hid. apply Z.eqb_refl.
  - simpl. rewrite Hid. apply Z.eqb_eq. now apply find_task_id in Ht.
Qed.

Lemma owned_session_saved session_id s session session' :
  owned_session session_id user_id s = Some session ->
  PomodoroSession.id session' = PomodoroSession.id session ->
  PomodoroSession.user_id session' = PomodoroSession.user_id session ->
  owned_session session_id user_id (snd (save_session session' s)) = Some session'.
Proof.
  intros Hown Hid Huid. destruct (owned_session_fields _ _ _ Hown) as [Hi Hu].
  unfold owned_session. simpl.
  apply find_replace_hit
    with (same := fun r => PomodoroSession.id r =? PomodoroSession.id session')
         (y := session).
  - exact Hown.
  - rewrite Hid. apply Z.eqb_refl.
  - rewrite Hid, Huid, Hi, Hu, !Z.eqb_refl. reflexivity.
Qed.

Lemma complete_session_linked now session_id task_id data s b c :
  linked user_id s session_id task_id b c ->
  linked user_id (snd (complete_session jwt_decode now session_id data authorization s))
         session_id task_id (SessionUpdateSchema.is_completed data)
         (if SessionUpdateSchema.is_completed data then c + 1 else c).
Proof.
  intros Hl. destruct Hl as (session & task & Hown & Hty & Htid & Hb & Ht & Hc).
  rewrite (complete_session_store now session_id data s session Hown).
  set (session' := set_completion session (instant_of (normalized_end_time data))
                     (SessionUpdateSchema.is_completed data)).
  assert (Hown' : owned_session session_id user_id (snd (save_session session' s))
                  = Some session')
    by (now apply owned_session_saved with (session := session)).
  assert (Ht' : find_task task_id (snd (save_session session' s)) = Some task)
    by exact Ht.
  rewrite (completed_work_task_linked session' _ task_id task Hty Htid Ht').
  simpl fst. change (PomodoroSession.is_completed session')
    with (SessionUpdateSchema.is_completed data).
  destruct (SessionUpdateSchema.is_completed data).
  - exists session',
      (touch now (set_completed_pomodoros task (Task.completed_pomodoros task + 1))).
    repeat split; try assumption.
    + now apply find_task_saved with (task := task).
    + simpl. now rewrite Hc.
  - exists session', task. repeat split; assumption.
Qed.

Lemma delete_session_linked now session_id task_id s b c :
  linked user_id s session_id task_id b c ->
  let s' := snd (delete_session jwt_decode now session_id authorization s) in
  owned_session session_id user_id s' = None
  /\ completed_count task_id s' = Some (if b && (c >? 0) then c - 1 else c).
Proof.
  intros Hl s'. destruct Hl as (session & task & Hown & Hty & Htid & Hb & Ht & Hc).
  subst s'. rewrite (delete_session_store now session_id s session Hown).
  rewrite (completed_work_task_linked session s task_id task Hty Htid Ht).
  simpl fst. rewrite Hb.
  assert (Hgone : forall s0,
    owned_session session_id user_id (snd (delete_session_row session s0)) = None).
  { intros s0. unfold owned_session. simpl.
    apply find_filter_gone
      with (same := fun r => PomodoroSession.id r =? PomodoroSession.id session).
    intros r Hr. apply andb_true_iff in Hr. destruct Hr as [Hr _].
    destruct (owned_session_fields _ _ _ Hown) as [Hi _].
    rewrite Hi. exact Hr. }
  assert (Hkeep : forall s0,
    completed_count task_id (snd (delete_session_row session s0))
    = completed_count task_id s0) by reflexivity.
  destruct b; cbv iota; simpl andb.
  - rewrite Hc. destruct (c >? 0) eqn:Hpos.
    + split; [apply Hgone|].
      rewrite Hkeep. unfold completed_count.
      rewrite (find_task_saved now task_id s task) by (assumption || reflexivity).
      reflexivity.
    + split; [apply Hgone|].
      rewrite Hkeep. unfold completed_count. rewrite Ht. simpl. now rewrite Hc.
  - split; [apply Hgone|].
    rewrite Hkeep. unfold completed_count. rewrite Ht. simpl. now rewrite Hc.
Qed.

Lemma find_user_after_complete now session_id data s i :
  find_user i (snd (complete_session jwt_decode now session_id data authorization s))
  = find_user i s.
Proof.
  destruct (owned_session session_id user_id s) as [session|] eqn:Hown.
  - rewrite (complete_session_store now session_id data s session Hown).
    destruct (fst (completed_work_task _ _)) as [e|[t|]]; reflexivity.
  - now rewrite session_gone_complete.
Qed.

Lemma complete_session_body now session_id task_id data s b c u :
  linked user_id s session_id task_id b c ->
  find_user user_id s = Some u ->
  exists body,
    fst (complete_session jwt_decode now session_id data authorization s)
    = inr (Body body)
    /\ PomodoroSessionSchema.id body = session_id
    /\ PomodoroSessionSchema.task_id body = Some task_id
    /\ PomodoroSessionSchema.end_time body = Some (normalized_end_time data)
    /\ PomodoroSessionSchema.is_completed body = SessionUpdateSchema.is_completed data.
Proof.
  intros (session & task & Hown & Hty & Htid & Hb & Ht & Hc) Hu.
  destruct (owned_session_fields _ _ _ Hown) as [Hid Huid].
  unfold complete_session. rewrite fst_try_except, authenticated_identity.
  rewrite fst_bind. unfold get_object_or_404 at 1 2. rewrite Hown. simpl fst. simpl snd.
  cbv iota beta. fold (normalized_end_time data).
  set (session' := set_completion session (instant_of (normalized_end_time data))
                     (SessionUpdateSchema.is_completed data)).
  rewrite fst_bind. simpl fst at 1. cbv iota beta.
  set (s1 := snd (save_session session' s)).
  assert (Ht1 : find_task task_id s1 = Some task) by exact Ht.
  assert (Hty' : PomodoroSession.type session' = "work") by exact Hty.
  assert (Htid' : PomodoroSession.task_id session' = Some task_id) by exact Htid.
  assert (Hrt : forall s0 t0, find_task task_id s0 = Some t0 ->
                related_task session' s0 = (inr (Some t0), s0)).
  { intros s0 t0 H0. unfold related_task. rewrite Htid'.
    unfold bind, objects_get, ret. now rewrite H0. }
  assert (Hru : forall s0, find_user user_id s0 = Some u ->
                related_user session' s0 = (inr u, s0)).
  { intros s0 H0. unfold related_user, objects_get.
    change (PomodoroSession.user_id session') with (PomodoroSession.user_id session).
    rewrite Huid. now rewrite H0. }
  rewrite fst_bind.
  rewrite (completed_work_task_linked session' s1 task_id task Hty' Htid' Ht1).
  simpl fst. simpl snd. cbv iota beta.
  change (PomodoroSession.is_completed session')
    with (SessionUpdateSchema.is_completed data).
  destruct (SessionUpdateSchema.is_completed data) eqn:Hf.
  - rewrite fst_bind. rewrite fst_bind. simpl fst. simpl snd. cbv iota beta.
    rewrite fst_bind. rewrite Hru by exact Hu. simpl fst. simpl snd. cbv iota beta.
    eexists. split; [reflexivity|]. simpl.
    repeat split; try assumption. now apply find_task_id in Ht; rewrite Ht.
  - rewrite fst_bind. simpl fst. simpl snd. cbv iota beta.
    rewrite fst_bind. rewrite Hru by exact Hu. simpl fst. simpl snd. cbv iota beta.
    rewrite fst_bind. rewrite (Hrt s1 task Ht1). simpl fst. simpl snd. cbv iota beta.
    eexists. split; [reflexivity|]. simpl.
    repeat split; try assumption. now apply find_task_id in Ht; rewrite Ht.
Qed.

Lemma run_session_ops_gone session_id ops s :
  owned_session session_id user_id s = None ->
  run_session_ops jwt_decode authorization session_id ops s = s.
Proof.
  intros Hgone. induction ops as [|o ops IH]; [reflexivity|].
  unfold run_session_ops in *. simpl.
  assert (Hstep : run_session_op jwt_decode authorization session_id o s = s).
  { destruct o; simpl;
      [rewrite session_gone_complete | rewrite session_gone_delete]; auto. }
  rewrite Hstep. exact IH.
Qed.

Lemma completions_cons_complete now data ops :
  completions (Complete now data :: ops)
  = (if SessionUpdateSchema.is_completed data then 1 else 0) + completions ops.
Proof.
  unfold completions, count. simpl.
  destruct (SessionUpdateSchema.is_completed data); cbn [List.length];
    rewrite ?Nat2Z.inj_succ; lia.
Qed.

(** The counter after any sequence of calls, from any state of the
    session: a completed session has been counted at least once. *)
Lemma counter_after_ops session_id task_id ops :
  forall s b c,
    linked user_id s session_id task_id b c ->
    (b = true -> 1 <= c) -> 0 <= c ->
    let final :=
      c + completions ops
      - (if deleted ops && completed_after b (live_prefix ops) then 1 else 0) in
    completed_count task_id (run_session_ops jwt_decode authorization session_id ops s)
    = Some final
    /\ 0 <= final.
Proof.
  induction ops as [|o ops IH]; intros s b c Hl Hb Hc.
  - simpl. unfold completions, count. simpl.
    destruct Hl as (session & task & _ & _ & _ & _ & Ht & Hcount).
    unfold completed_count. rewrite Ht. simpl. rewrite Hcount.
    split; [f_equal; lia | lia].
  - destruct o as [now data | now].
    + pose proof (complete_session_linked now session_id task_id data s b c Hl) as Hl'.
      specialize (IH _ _ _ Hl').
      rewrite completions_cons_complete.
      change (run_session_ops jwt_decode authorization session_id
                (Complete now data :: ops) s)
        with (run_session_ops jwt_decode authorization session_id ops
                (snd (complete_session jwt_decode now session_id data authorization s))).
      change (deleted (Complete now data :: ops)) with (deleted ops).
      change (completed_after b (live_prefix (Complete now data :: ops)))
        with (completed_after (SessionUpdateSchema.is_completed data) (live_prefix ops)).
      destruct (SessionUpdateSchema.is_completed data).
      * destruct IH as [IH1 IH2]; [lia | lia |].
        rewrite IH1. split; [f_equal; lia | lia].
      * destruct IH as [IH1 IH2]; [discriminate | lia |].
        rewrite IH1. split; [f_equal; lia | lia].
    + destruct (delete_session_linked now session_id task_id s b c Hl) as [Hgone Hcount].
      change (run_session_ops jwt_decode authorization session_id (Delete now :: ops) s)
        with (run_session_ops jwt_decode authorization session_id ops
                (snd (delete_session jwt_decode now session_id authorization s))).
      rewrite run_session_ops_gone by exact Hgone.
      rewrite Hcount.
      change (deleted (Delete now :: ops)) with true.
      change (live_prefix (Delete now :: ops)) with (@nil session_op).
      unfold completions, count. simpl.
      destruct b; simpl.
      * specialize (Hb eq_refl).
        destruct (Z.gtb_spec c 0); [|lia]. split; [f_equal; lia | lia].
      * split; [f_equal; lia | lia].
Qed.



(** The answer of a complete call that marks the session not completed
    shows the end time as an aware datetime: the reading of the request,
    in the zone of the request or, for a naive reading, in the configured
    zone. *)
Lemma complete_false_answer now session_id data s session u :
  owned_session session_id user_id s = Some session ->
  SessionUpdateSchema.is_completed data = false ->
  find_user user_id s = Some u ->
  (forall i, PomodoroSession.task_id session = Some i ->
             exists t, find_task i s = Some t) ->
  exists body,
    fst (complete_session jwt_decode now session_id data authorization s)
    = inr (Body body)
    /\ PomodoroSessionSchema.end_time body = Some (normalized_end_time data)
    /\ PomodoroSessionSchema.is_completed body = false.
Proof.
  intros Hown Hf Hu Hfk.
  destruct (owned_session_fields _ _ _ Hown) as [Hid Huid].
  unfold complete_session. rewrite fst_try_except, authenticated_identity.
  rewrite fst_bind. unfold get_object_or_404 at 1 2. rewrite Hown. simpl fst. simpl snd.
  cbv iota beta. fold (normalized_end_time data). rewrite Hf.
  set (session' := set_completion session (instant_of (normalized_end_time data)) false).
  rewrite fst_bind. simpl fst at 1. cbv iota beta.
  set (s1 := snd (save_session session' s)).
  rewrite fst_bind. unfold completed_work_task at 1 2. simpl fst. simpl snd.
  cbv iota beta.
  rewrite fst_bind. simpl fst. simpl snd. cbv iota beta.
  rewrite fst_bind. unfold related_user at 1 2, objects_get.
  change (PomodoroSession.user_id session') with (PomodoroSession.user_id session).
  rewrite Huid.
  change (find_user user_id s1) with (find_user user_id s). rewrite Hu.
  simpl fst. simpl snd. cbv iota beta.
  rewrite fst_bind. unfold related_task.
  change (PomodoroSession.task_id session') with (PomodoroSession.task_id session).
  destruct (PomodoroSession.task_id session) as [i|] eqn:Hi.
  - destruct (Hfk i eq_refl) as [t0 Ht0].
    unfold bind, objects_get. change (find_task i s1) with (find_task i s).
    rewrite Ht0. simpl. eexists. repeat split.
  - simpl. eexists. repeat split.
Qed.


End SessionProofs.

Lemma linked_st0 : linked 1 st0 5 10 false 0.
Proof.
  exists (sample_session 5 (Some 10) 100 false), (sample_task 10 "high" 0).
  repeat split; reflexivity.
Defined.


Lemma linked_st1 : linked 1 st1 5 10 true 1.
Proof.
  exists (sample_session 5 (Some 10) 100 true),
         (set_completed_pomodoros (sample_task 10 "high" 0) 1).
  repeat split; reflexivity.
Defined.



Lemma find_weaken {A} (p q : A -> bool) (l : list A) (x : A) :
  find (fun r => p r && q r) l = Some x -> exists y, find p l = Some y.
Proof.
  intros H. apply find_some in H. destruct H as [Hin Hpq].
  apply andb_true_iff in Hpq. destruct Hpq as [Hp _].
  destruct (find p l) as [y|] eqn:Hf; [eauto|].
  apply (find_none _ _ Hf) in Hin. congruence.
Qed.

Section TaskProofs.

Variable jwt_decode : string -> option (option Z).
Variable authorization : option string.
Variable user_id : Z.
Hypothesis token_accepted :
  get_user_id_from_token jwt_decode authorization = Some user_id.
Hypothesis user_id_truthy : user_id <> 0.

Lemma owned_task_found task_id s task :
  owned_task task_id user_id s = Some task ->
  Task.id task = task_id /\ exists y, find_task task_id s = Some y.
Proof.
  intros H. split.
  - apply find_some_holds in H. apply andb_true_iff in H. now apply Z.eqb_eq.
  - exact (find_weaken _ _ _ _ H).
Qed.

Lemma get_object_or_404_found {A} (lookup : Store -> option A) s a :
  lookup s = Some a -> get_object_or_404 lookup s = (inr a, s).
Proof. intros H. unfold get_object_or_404. now rewrite H. Qed.

Lemma read_only_related_category t : read_only (related_category t).
Proof.
  unfold related_category. destruct (Task.category_id t).
  - apply read_only_bind; [apply read_only_objects_get | intros; apply read_only_ret].
  - apply read_only_ret.
Qed.

Lemma read_only_describe_task t : read_only (describe_task t).
Proof.
  unfold describe_task. apply read_only_bind; [apply read_only_related_category|].
  intros c. apply read_only_bind; [intros s; reflexivity|].
  intros s0. apply read_only_ret.
Qed.

(** The category step of [update_task] when the reference is accepted:
    the category the task ends with is a row of the table, or the one the
    task had. *)
Lemma update_task_category_step data s task :
  category_accepted data user_id s ->
  exists c,
    (match TaskUpdateSchema.category_id data with
     | Some c =>
         if c =? 0 then ret (set_category (update_fields task data) None)
         else
           category <- get_object_or_404 (owned_category c user_id) ;;
           ret (set_category (update_fields task data) (Some (Category.id category)))
     | None => ret (update_fields task data)
     end) s
    = (inr (set_category (update_fields task data) c), s)
    /\ forall i, c = Some i ->
         (exists x, find_category i s = Some x) \/ Task.category_id task = Some i.
Proof.
  unfold category_accepted. intros Hcat.
  destruct (TaskUpdateSchema.category_id data) as [c|].
  - destruct (Z.eqb_spec c 0) as [E|E].
    + exists None. split; [reflexivity | discriminate].
    + destruct Hcat as [Hc|[category Hc]]; [contradiction|].
      exists (Some (Category.id category)). split.
      * unfold bind. now rewrite (get_object_or_404_found _ _ _ Hc).
      * intros i Hi. inversion Hi; subst i. left.
        pose proof (find_some_holds _ _ _ Hc) as Hp.
        apply andb_true_iff in Hp. destruct Hp as [Hp _]. apply Z.eqb_eq in Hp.
        rewrite Hp. exact (find_weaken _ _ _ _ Hc).
  - exists (Task.category_id task). split.
    + unfold ret. destruct task; reflexivity.
    + intros i Hi. now right.
Qed.

Lemma describe_task_body t s :
  (forall i, Task.category_id t = Some i -> exists x, find_category i s = Some x) ->
  exists body,
    describe_task t s = (inr body, s)
    /\ TaskSchema.id body = Task.id t
    /\ TaskSchema.completed_pomodoros body = Task.completed_pomodoros t.
Proof.
  intros Hfk. unfold describe_task, related_category.
  destruct (Task.category_id t) as [i|].
  - destruct (Hfk i eq_refl) as [x Hx].
    unfold bind, objects_get, get_store, ret. rewrite Hx.
    eexists. split; [reflexivity|]. split; reflexivity.
  - unfold bind, get_store, ret. eexists. split; [reflexivity|]. split; reflexivity.
Qed.

Lemma update_task_store now task_id data s task v :
  owned_task task_id user_id s = Some task ->
  TaskUpdateSchema.completed_pomodoros data = Some v ->
  category_accepted data user_id s ->
  exists task2 l,
    snd (update_task jwt_decode now task_id data authorization s)
    = snd (save_task now task2 (with_task_tags s l))
    /\ Task.id task2 = task_id
    /\ Task.completed_pomodoros task2 = v.
Proof.
  intros Hown Hv Hcat.
  destruct (owned_task_found _ _ _ Hown) as [Hid _].
  unfold update_task.
  rewrite (authenticated_identity jwt_decode authorization user_id) by assumption.
  rewrite snd_bind, (get_object_or_404_found _ _ _ Hown). simpl fst. simpl snd.
  cbv iota beta.
  destruct (update_task_category_step data s task Hcat) as [c [Hc _]].
  rewrite snd_bind, Hc. simpl fst. simpl snd. cbv iota beta.
  set (task2 := set_category (update_fields task data) c).
  rewrite snd_bind.
  assert (Htags : exists l,
    (match TaskUpdateSchema.tag_ids data with
     | Some ids => set_tags (Task.id task2) ids user_id
     | None => ret tt
     end) s = (inr tt, with_task_tags s l)).
  { destruct (TaskUpdateSchema.tag_ids data).
    - eexists. reflexivity.
    - exists (task_tags s). now destruct s. }
  destruct Htags as [l Htags]. rewrite Htags. simpl fst. simpl snd. cbv iota beta.
  rewrite snd_bind. simpl fst. simpl snd. cbv iota beta.
  rewrite snd_bind.
  pose proof (read_only_describe_task (touch now task2)) as Hro.
  exists task2, l. split; [|split; [exact Hid | simpl; now rewrite Hv]].
  match goal with
  | |- context [describe_task (touch now task2) ?st] =>
      rewrite (Hro st); destruct (fst (describe_task (touch now task2) st))
  end; reflexivity.
Qed.

Lemma update_task_body now task_id data s task v :
  owned_task task_id user_id s = Some task ->
  TaskUpdateSchema.completed_pomodoros data = Some v ->
  category_accepted data user_id s ->
  (forall i, Task.category_id task = Some i -> exists x, find_category i s = Some x) ->
  exists body,
    fst (update_task jwt_decode now task_id data authorization s) = inr (Body body)
    /\ TaskSchema.id body = task_id
    /\ TaskSchema.completed_pomodoros body = v.
Proof.
  intros Hown Hv Hcat Hfk.
  destruct (owned_task_found _ _ _ Hown) as [Hid _].
  unfold update_task.
  rewrite (authenticated_identity jwt_decode authorization user_id) by assumption.
  rewrite fst_bind, (get_object_or_404_found _ _ _ Hown). simpl fst. simpl snd.
  cbv iota beta.
  destruct (update_task_category_step data s task Hcat) as [c [Hc Hcfk]].
  rewrite fst_bind, Hc. simpl fst. simpl snd. cbv iota beta.
  set (task2 := set_category (update_fields task data) c).
  rewrite fst_bind.
  assert (Htags : exists l,
    (match TaskUpdateSchema.tag_ids data with
     | Some ids => set_tags (Task.id task2) ids user_id
     | None => ret tt
     end) s = (inr tt, with_task_tags s l)).
  { destruct (TaskUpdateSchema.tag_ids data).
    - eexists. reflexivity.
    - exists (task_tags s). now destruct s. }
  destruct Htags as [l Htags]. rewrite Htags. simpl fst. simpl snd. cbv iota beta.
  rewrite fst_bind. simpl fst. simpl snd. cbv iota beta.
  rewrite fst_bind.
  match goal with
  | |- context [describe_task (touch now task2) ?st] =>
      destruct (describe_task_body (touch now task2) st) as (body & Hb & Hbid & Hbc)
  end.
  { intros i Hi. change (c = Some i) in Hi.
    destruct (Hcfk i Hi) as [Hx|Hx]; [exact Hx | exact (Hfk i Hx)]. }
  rewrite Hb. simpl fst. simpl snd. cbv iota beta.
  exists body. split; [reflexivity|]. split.
  - rewrite Hbid. exact Hid.
  - rewrite Hbc. simpl. now rewrite Hv.
Qed.

(** C9. The task-update operation accepts [completed_pomodoros]; when
    the field is supplied and the values of the request fit the columns of
    the task table (for the counter: from 0 to 2147483647), the call
    answers 200 with that value and the task's row holds it afterwards,
    whatever the counter was and whatever sessions exist: the session
    table is neither consulted nor changed. *)
Theorem update_task_writes_counter now task_id data s task v :
  owned_task task_id user_id s = Some task ->
  TaskUpdateSchema.completed_pomodoros data = Some v ->
  fits_columns data ->
  category_accepted data user_id s ->
  (forall i, Task.category_id task = Some i -> exists x, find_category i s = Some x) ->
  let r := update_task jwt_decode now task_id data authorization s in
  (exists body, fst r = inr (Body body)
                /\ TaskSchema.id body = task_id
                /\ TaskSchema.completed_pomodoros body = v)
  /\ completed_count task_id (snd r) = Some v
  /\ pomodoro_sessions (snd r) = pomodoro_sessions s.
Proof.
  intros Hown Hv _ Hcat Hfk r. subst r. split; [|split].
  - exact (update_task_body now task_id data s task v Hown Hv Hcat Hfk).
  - destruct (update_task_store now task_id data s task v Hown Hv Hcat)
      as (task2 & l & Hs & Hid & Hc).
    destruct (owned_task_found _ _ _ Hown) as [_ [y Hy]].
    rewrite Hs. unfold completed_count.
    rewrite (find_task_saved now task_id (with_task_tags s l) y task2 Hy)
      by (now apply find_task_id in Hy; rewrite Hy).
    simpl. now rewrite Hc.
  - destruct (update_task_store now task_id data s task v Hown Hv Hcat)
      as (task2 & l & Hs & _).
    rewrite Hs. reflexivity.
Qed.

End TaskProofs.

Lemma update_task_writes_counter_witness :
  completed_count 10
    (snd (update_task sample_jwt_decode 9 10 (counter_update 42) alice_header st0))
  = Some 42.
Proof.
  pose proof (update_task_writes_counter sample_jwt_decode alice_header 1
                eq_refl ltac:(discriminate) 9 10 (counter_update 42) st0
                (sample_task 10 "high" 0) 42 eq_refl eq_refl
                ltac:(unfold fits_columns; repeat apply conj; intros x E;
                      inversion E; simpl; lia)
                I ltac:(intros i Hi; discriminate Hi)) as H.
  cbv zeta in H. destruct H as (_ & H & _). exact H.
Defined.

Section AuthProofs.

Variable jwt_decode : string -> option (option Z).

Lemma refused_HttpBearer authorization :
  refused jwt_decode authorization ->
  HttpBearer_call jwt_decode authorization = None.
Proof.
  unfold refused, HttpBearer_call. destruct authorization as [a|]; [|reflexivity].
  intros [H _]. destruct (a =? "")%string; [reflexivity|].
  destruct (split_first a) as [scheme token]. simpl in H.
  destruct (lower scheme =? "bearer")%string; [|reflexivity].
  unfold AuthBearer_authenticate. now rewrite H.
Qed.

Lemma refused_get_user_id authorization :
  refused jwt_decode authorization ->
  get_user_id_from_token jwt_decode authorization = None.
Proof.
  unfold refused, get_user_id_from_token. destruct authorization as [a|]; [|reflexivity].
  intros [_ H]. destruct (startswith a "Bearer "); [|reflexivity]. now rewrite H.
Qed.

(** C7, as amended. A request without an accepted token is answered 401
    and leaves the store untouched on every route behind the bearer guard
    (tasks, pomodoro, analytics), on [GET] and [PUT /auth/settings], and
    on [GET /auth/user] when no [user_id] parameter is given.  (The
    profile route with a [user_id] parameter is left out: it does not ask
    for a token.) *)
Theorem unauthenticated_is_401 now today authorization r s :
  refused jwt_decode authorization ->
  asks_for_token r = true ->
  api jwt_decode now today authorization r s = (Error 401, s).
Proof.
  intros Href Hr. unfold api.
  destruct (behind_bearer r) eqn:Hb.
  - unfold protected. now rewrite (refused_HttpBearer _ Href).
  - destruct r; try discriminate Hb; unfold handler, run_operation, as_body.
    + destruct user_id; [discriminate Hr|].
      unfold get_user, try_except. now rewrite (refused_get_user_id _ Href).
    + unfold get_user_settings, try_except. now rewrite (refused_get_user_id _ Href).
    + unfold update_user_settings, try_except.
      now rewrite (refused_get_user_id _ Href).
Qed.

(** With a [user_id] parameter the profile route does not read the
    header. *)
Lemma get_user_ignores_header now today authorization authorization' i s :
  api jwt_decode now today authorization (GET_auth_user (Some i)) s
  = api jwt_decode now today authorization' (GET_auth_user (Some i)) s.
Proof. reflexivity. Qed.

End AuthProofs.

Lemma unauthenticated_is_401_witness :
  api sample_jwt_decode 0 0 (Some "Bearer expired") (DELETE_task 10) st0 = (Error 401, st0).
Proof.
  apply (unauthenticated_is_401 sample_jwt_decode 0 0 (Some "Bearer expired")
           (DELETE_task 10) st0).
  - split; reflexivity.
  - reflexivity.
Defined.

(** With no header at all, [GET /auth/user?user_id=2] answers 200 with
    the profile of user 2. *)
Lemma profile_without_token :
  refused sample_jwt_decode None
  /\ fst (api sample_jwt_decode 0 0 None (GET_auth_user (Some 2)) st0)
     = Ok (Profile (user_profile bob))
  /\ fst (api sample_jwt_decode 0 0 None (GET_auth_user (Some 2)) st0) <> Error 401.
Proof. split; [exact I | split; [reflexivity | discriminate]]. Qed.

Section IsolationProofs.

Variable jwt_decode : string -> option (option Z).

Lemma is_some_false {A} (o : option A) : is_some o = false -> o = None.
Proof. destruct o; [discriminate | reflexivity]. Qed.

Lemma protected_accepted {A} authorization user_id (operation : Z -> M (result A)) s :
  accepted jwt_decode authorization user_id ->
  protected jwt_decode authorization operation s = run_operation (operation user_id) s.
Proof.
  intros (H & _ & Hnz). unfold protected. rewrite H. simpl.
  destruct (Z.eqb_spec user_id 0); [contradiction | reflexivity].
Qed.

Lemma api_behind_bearer now today authorization r s :
  behind_bearer r = true ->
  api jwt_decode now today authorization r s
  = protected jwt_decode authorization (handler jwt_decode now today authorization r) s.
Proof. intros H. unfold api. now rewrite H. Qed.

(** C5, on the code. A request for a task, category, tag or session that
    is not a row of the requesting user changes nothing and shows nothing
    of the row; it is answered 404 on the task, category and tag routes,
    and 500 on the complete and delete routes of the session tracker,
    whose handlers catch the not-found exception with their last
    [except] clause. *)
Theorem foreign_row_untouched now today authorization user_id r s :
  accepted jwt_decode authorization user_id ->
  owns user_id s r = false ->
  api jwt_decode now today authorization r s = (Error (foreign_status r), s).
Proof.
  intros Hacc Hown. pose proof Hacc as (_ & Htok & Hnz).
  destruct r; try discriminate Hown; simpl in Hown; apply is_some_false in Hown;
    rewrite api_behind_bearer by reflexivity;
    rewrite (protected_accepted _ user_id) by exact Hacc;
    unfold run_operation, handler, as_body.
  - unfold get_task.
    rewrite (authenticated_identity jwt_decode authorization user_id) by assumption.
    unfold bind, get_object_or_404. now rewrite Hown.
  - unfold update_task.
    rewrite (authenticated_identity jwt_decode authorization user_id) by assumption.
    unfold bind, get_object_or_404. now rewrite Hown.
  - unfold delete_task.
    rewrite (authenticated_identity jwt_decode authorization user_id) by assumption.
    unfold bind, get_object_or_404. now rewrite Hown.
  - unfold complete_task.
    rewrite (authenticated_identity jwt_decode authorization user_id) by assumption.
    unfold bind, get_object_or_404. now rewrite Hown.
  - unfold update_category.
    rewrite (authenticated_identity jwt_decode authorization user_id) by assumption.
    unfold bind, get_object_or_404. now rewrite Hown.
  - unfold delete_category.
    rewrite (authenticated_identity jwt_decode authorization user_id) by assumption.
    unfold bind, get_object_or_404. now rewrite Hown.
  - unfold update_tag.
    rewrite (authenticated_identity jwt_decode authorization user_id) by assumption.
    unfold bind, get_object_or_404. now rewrite Hown.
  - unfold delete_tag.
    rewrite (authenticated_identity jwt_decode authorization user_id) by assumption.
    unfold bind, get_object_or_404. now rewrite Hown.
  - now rewrite (session_gone_complete jwt_decode authorization user_id Htok Hnz).
  - now rewrite (session_gone_delete jwt_decode authorization user_id Htok Hnz).
  - unfold get_task_analytics, bind, get_object_or_404. now rewrite Hown.
Qed.

End IsolationProofs.

Lemma bob_accepted : accepted sample_jwt_decode bob_header 2.
Proof. repeat split; discriminate. Defined.

Lemma foreign_row_untouched_witness :
  api sample_jwt_decode 7 200 bob_header (PUT_pomodoro_complete 5 (sample_data true)) st0
  = (Error 500, st0).
Proof.
  apply (foreign_row_untouched sample_jwt_decode 7 200 bob_header 2
           (PUT_pomodoro_complete 5 (sample_data true)) st0 bob_accepted eq_refl).
Defined.

(** Bob asks for alice's task and is answered 404; he asks to complete
    alice's session and is answered 500. *)
Lemma foreign_session_is_500 :
  fst (api sample_jwt_decode 7 200 bob_header (GET_task 10) st0) = Error 404
  /\ api sample_jwt_decode 7 200 bob_header (PUT_pomodoro_complete 5 (sample_data true)) st0
     = (Error 500, st0)
  /\ api sample_jwt_decode 7 200 bob_header (DELETE_pomodoro 5) st0 = (Error 500, st0).
Proof. repeat split. Qed.

(** The comparison of [order_by("-priority", ...)] puts a task of
    priority ["medium"] or ["low"] before a task of priority ["high"],
    whatever their dates. *)
Lemma task_order_text a b :
  Task.priority b = "high" ->
  Task.priority a = "medium" \/ Task.priority a = "low" ->
  task_order a b = true /\ task_order b a = false.
Proof.
  intros Hb [Ha|Ha]; unfold task_order; rewrite Ha, Hb; split; reflexivity.
Qed.

(** C4, on the code. The listing of alice's three tasks comes medium,
    low, high: the priority column is text and is sorted as text. *)
Theorem list_tasks_sorts_priority_as_text :
  listed_priorities
    (fst (api sample_jwt_decode 0 0 alice_header (GET_tasks None None None None)
            priority_store))
  = [(2, "medium"); (3, "low"); (1, "high")].
Proof. reflexivity. Qed.

(** ** Queries *)

Lemma in_insert_sorted {A} (leb : A -> A -> bool) (a x : A) (l : list A) :
  In x (insert_sorted leb a l) <-> x = a \/ In x l.
Proof.
  induction l as [|y l IH]; simpl.
  - intuition congruence.
  - destruct (leb a y); simpl; [intuition congruence|].
    rewrite IH. intuition congruence.
Qed.

Lemma in_order_by {A} (leb : A -> A -> bool) (x : A) (l : list A) :
  In x (order_by leb l) <-> In x l.
Proof.
  unfold order_by. induction l as [|y l IH]; simpl; [tauto|].
  rewrite in_insert_sorted, IH. intuition congruence.
Qed.

Lemma bump_keys {K} (eqb : K -> K -> bool) (key k : K) (groups : list (K * Z)) :
  In k (map fst (bump eqb key groups)) -> k = key \/ In k (map fst groups).
Proof.
  induction groups as [|[k' c] r IH]; simpl.
  - intuition congruence.
  - destruct (eqb key k'); simpl; intuition.
Qed.

Lemma fold_bump_keys {K} (eqb : K -> K -> bool) (keys : list K) :
  forall (groups : list (K * Z)) (k : K),
    In k (map fst (fold_left (fun g x => bump eqb x g) keys groups)) ->
    In k keys \/ In k (map fst groups).
Proof.
  induction keys as [|x keys IH]; intros groups k H; simpl in *; [now right|].
  apply IH in H. destruct H as [H|H]; [tauto|].
  apply bump_keys in H. intuition.
Qed.

Lemma group_count_keys {K} (eqb : K -> K -> bool) (keys : list K) (k : K) (c : Z) :
  In (k, c) (group_count eqb keys) -> In k keys.
Proof.
  intros H. unfold group_count in H.
  apply (in_map fst) in H. simpl in H.
  apply fold_bump_keys in H. simpl in H. tauto.
Qed.

Lemma for_each_total {A B} (f : A -> M B) (l : list A) (s : Store) :
  (forall a, In a l -> exists b, f a s = (inr b, s)) ->
  exists bs, for_each f l s = (inr bs, s).
Proof.
  induction l as [|a l IH]; intros H; simpl.
  - eexists. reflexivity.
  - destruct (H a (or_introl eq_refl)) as [b Hb].
    destruct IH as [bs Hbs]; [intros x Hx; apply H; now right|].
    unfold bind. rewrite Hb, Hbs. eexists. reflexivity.
Qed.

Lemma category_point_total s item :
  (forall c, fst item = Some c -> exists x, find_category c s = Some x) ->
  exists b, category_point item s = (inr b, s).
Proof.
  intros H. unfold category_point. destruct (truthy (fst item)) eqn:Ht.
  - destruct (fst item) as [c|] eqn:Hc; [|discriminate].
    destruct (H c eq_refl) as [x Hx].
    unfold bind, objects_get. rewrite Hx. eexists. reflexivity.
  - eexists. reflexivity.
Qed.

Lemma length_dates_from d n : List.length (dates_from d n) = n.
Proof. revert d. induction n; intros d; simpl; [reflexivity | now rewrite IHn]. Qed.

Lemma length_fill_series series start_date end_date :
  List.length (fill_series series start_date end_date)
  = Z.to_nat (end_date - start_date + 1).
Proof. unfold fill_series, date_window. now rewrite length_map, length_dates_from. Qed.

(** ** The dashboard *)

(** [get_analytics] answers with a body whenever the user exists, the
    window is not of zero days and the categories of the tasks exist; the
    body's series, total, average and streak are the expressions of the
    source. *)
Lemma timedelta_in_calendar today days s :
  window_in_calendar today days -> timedelta days s = (inr days, s).
Proof.
  intros (H & _). unfold timedelta.
  destruct (Z.leb_spec (Z.abs days) timedelta_max_days); [reflexivity|lia].
Qed.

Lemma date_sub_in_calendar today days s :
  window_in_calendar today days -> date_sub today days s = (inr (today - days), s).
Proof.
  intros (_ & H & _). unfold date_sub.
  destruct (Z.leb_spec date_min (today - days)); [|lia].
  destruct (Z.leb_spec (today - days) date_max); [reflexivity|lia].
Qed.

Ltac in_calendar :=
  unfold window_in_calendar, timedelta_max_days, date_min, date_max; lia.

Lemma get_analytics_returns today auth days s user :
  find_user auth s = Some user ->
  days <> 0 ->
  window_in_calendar today days ->
  categories_exist s ->
  exists b,
    get_analytics today auth days s = (inr (Body b), s)
    /\ AnalyticsResponse.pomodoro_time_series b
       = fill_series
           (day_counts
              (map (fun x => local_date (PomodoroSession.start_time x))
                   (filter is_work
                      (window_sessions s (User.id user) (today - days) today))))
           (today - days) today
    /\ AnalyticsResponse.task_completion_time_series b
       = fill_series
           (day_counts
              (map (fun t => local_date (Task.updated_at t))
                   (filter is_status_completed
                      (window_tasks s (User.id user) (today - days) today))))
           (today - days) today
    /\ ProductivityStats.total_pomodoros (AnalyticsResponse.productivity_stats b)
       = count (filter is_work (window_sessions s (User.id user) (today - days) today))
    /\ ProductivityStats.daily_average (AnalyticsResponse.productivity_stats b)
       = Round (count (filter is_work
                         (window_sessions s (User.id user) (today - days) today)))
               days 1
    /\ ProductivityStats.streak (AnalyticsResponse.productivity_stats b)
       = compute_streak s (User.id user) (today - days) today.
Proof.
  intros Hu Hd Hcal Hfk. unfold get_analytics.
  unfold bind at 1. rewrite (get_object_or_404_found _ _ _ Hu).
  unfold bind at 1. rewrite (timedelta_in_calendar today days s Hcal).
  unfold bind at 1. rewrite (date_sub_in_calendar today days s Hcal).
  unfold bind at 1. unfold get_store at 1.
  unfold bind at 1.
  match goal with
  | |- context [for_each category_point ?items s] =>
      destruct (for_each_total category_point items s) as [cd Hcd]
  end.
  { intros [k c] Hin. apply category_point_total. simpl. intros i Hi. subst k.
    apply in_order_by in Hin. apply group_count_keys in Hin.
    apply in_map_iff in Hin. destruct Hin as (t & Ht & Hin).
    apply filter_In in Hin. destruct Hin as [Hin _].
    exact (Hfk t Hin i Ht). }
  rewrite Hcd.
  destruct (Z.eqb_spec days 0) as [E|_]; [contradiction|].
  eexists. split; [reflexivity|]. simpl. repeat split.
Qed.

Lemma dates_fill_series series start_date end_date :
  map TimeSeriesDataPoint.date (fill_series series start_date end_date)
  = date_window start_date end_date.
Proof.
  unfold fill_series. rewrite map_map. simpl. apply map_id.
Qed.

(** C3, on the code. For a window parameter of [days] (not zero, and
    with the window inside the calendar) the dashboard answers with two
    series that hold one entry for each day from [today - days] to
    [today], both included: [days + 1] entries, not [days]. *)
Theorem dashboard_series_span_days_plus_one today auth days s user :
  find_user auth s = Some user ->
  days <> 0 ->
  window_in_calendar today days ->
  categories_exist s ->
  exists b,
    get_analytics today auth days s = (inr (Body b), s)
    /\ map TimeSeriesDataPoint.date (AnalyticsResponse.pomodoro_time_series b)
       = date_window (today - days) today
    /\ map TimeSeriesDataPoint.date (AnalyticsResponse.task_completion_time_series b)
       = date_window (today - days) today
    /\ List.length (AnalyticsResponse.pomodoro_time_series b) = Z.to_nat (days + 1)
    /\ List.length (AnalyticsResponse.task_completion_time_series b) = Z.to_nat (days + 1).
Proof.
  intros Hu Hd Hcal Hfk.
  destruct (get_analytics_returns today auth days s user Hu Hd Hcal Hfk)
    as (b & Hb & Hp & Ht & _).
  exists b. rewrite Hp, Ht, !dates_fill_series, !length_fill_series.
  replace (today - (today - days) + 1) with (days + 1) by lia.
  repeat split; assumption || reflexivity.
Qed.

Lemma idle_categories_exist : categories_exist (sample_store [] []).
Proof. intros t []. Defined.

Lemma dashboard_series_span_days_plus_one_witness :
  exists b,
    get_analytics 200 1 7 (sample_store [] []) = (inr (Body b), sample_store [] [])
    /\ List.length (AnalyticsResponse.pomodoro_time_series b) = 8%nat
    /\ List.length (AnalyticsResponse.task_completion_time_series b) = 8%nat.
Proof.
  destruct (dashboard_series_span_days_plus_one 200 1 7 (sample_store [] []) alice
              eq_refl ltac:(discriminate) ltac:(in_calendar) idle_categories_exist)
    as (b & Hb & _ & _ & Hp & Ht).
  exists b. repeat split; assumption.
Defined.

(** [days = 7] with no sessions and no tasks: both series have eight
    entries, all zero; the total is 0, the average is the rounding of
    [0 / 7] and the streak is 0. *)
Lemma dashboard_idle_week :
  exists b,
    fst (api sample_jwt_decode 0 200 alice_header (GET_analytics_dashboard 7)
           (sample_store [] []))
    = Ok (Analytics b)
    /\ series_values (AnalyticsResponse.pomodoro_time_series b) = [0; 0; 0; 0; 0; 0; 0; 0]
    /\ series_values (AnalyticsResponse.task_completion_time_series b)
       = [0; 0; 0; 0; 0; 0; 0; 0]
    /\ ProductivityStats.total_pomodoros (AnalyticsResponse.productivity_stats b) = 0
    /\ ProductivityStats.daily_average (AnalyticsResponse.productivity_stats b)
       = Round 0 7 1
    /\ ProductivityStats.streak (AnalyticsResponse.productivity_stats b) = 0.
Proof. eexists. repeat split. Qed.

(** ** The streak *)

(** The streak loop counts the days with a completed work session from
    [date_check] backward, and stops at the first day without one or when
    the days down to [start_date] are used up. *)
Lemma streak_loop_spec s user_id start_date fuel :
  forall date_check streak,
    Z.of_nat fuel = date_check - start_date + 1 ->
    let k := streak_loop s user_id start_date fuel date_check streak - streak in
    0 <= k <= Z.of_nat fuel
    /\ (forall i, 0 <= i < k -> has_sessions s user_id (date_check - i) = true)
    /\ (k < Z.of_nat fuel -> has_sessions s user_id (date_check - k) = false).
Proof.
  induction fuel as [|fuel IH]; intros date_check streak Hfuel k.
  - subst k. simpl. rewrite Z.sub_diag. repeat split; lia.
  - subst k. cbn [streak_loop].
    rewrite Nat2Z.inj_succ in *.
    destruct (Z.geb_spec date_check start_date) as [_|Hlt]; [|lia].
    destruct (has_sessions s user_id date_check) eqn:Hhas.
    + specialize (IH (date_check - 1) (streak + 1) ltac:(lia)).
      cbv zeta in IH. destruct IH as (Hk & Hall & Hstop).
      set (r := streak_loop s user_id start_date fuel (date_check - 1) (streak + 1)) in *.
      repeat split; try lia.
      * intros i Hi. destruct (Z.eq_dec i 0) as [->|Hne].
        -- now rewrite Z.sub_0_r.
        -- replace (date_check - i) with (date_check - 1 - (i - 1)) by lia.
           apply Hall. lia.
      * intros Hlt.
        replace (date_check - (r - streak)) with (date_check - 1 - (r - (streak + 1)))
          by lia.
        apply Hstop. lia.
    + rewrite Z.sub_diag. repeat split; try lia.
      intros _. now rewrite Z.sub_0_r.
Qed.

Lemma has_sessions_iff s user_id d :
  has_sessions s user_id d = true <-> completed_work_on s user_id d.
Proof.
  unfold has_sessions, completed_work_on, is_work. rewrite existsb_exists. split.
  - intros (x & Hin & H).
    apply andb_true_iff in H. destruct H as [H Hc].
    apply andb_true_iff in H. destruct H as [H Hw].
    apply andb_true_iff in H. destruct H as [Hu Hd].
    exists x. repeat split; try assumption.
    + now apply Z.eqb_eq.
    + now apply String.eqb_eq.
    + now apply Z.eqb_eq.
  - intros (x & Hin & Hu & Hw & Hc & Hd). exists x. split; [exact Hin|].
    rewrite Hu, Hw, Hc, Hd, !Z.eqb_refl. reflexivity.
Qed.

Lemma compute_streak_spec s user_id today days :
  let k := compute_streak s user_id (today - days) today in
  0 <= k
  /\ (forall i, 0 <= i < k ->
        today - days <= today - i /\ completed_work_on s user_id (today - i))
  /\ (today - k < today - days \/ ~ completed_work_on s user_id (today - k)).
Proof.
  intros k. subst k. unfold compute_streak.
  replace (today - (today - days) + 1) with (days + 1) by lia.
  destruct (Z_le_gt_dec 0 (days + 1)) as [Hd|Hd].
  - pose proof (streak_loop_spec s user_id (today - days)
                  (Z.to_nat (days + 1)) today 0) as H.
    rewrite Z2Nat.id in H by lia. specialize (H ltac:(lia)). cbv zeta in H.
    rewrite Z.sub_0_r in H. destruct H as (H1 & H2 & H3).
    split; [lia|]. split.
    + intros i Hi. split; [lia|]. apply has_sessions_iff. now apply H2.
    + set (k := streak_loop s user_id (today - days) (Z.to_nat (days + 1)) today 0) in *.
      destruct (Z_lt_le_dec k (days + 1)) as [Hlt|Hge]; [right|left; lia].
      intros Hw. apply has_sessions_iff in Hw. rewrite (H3 Hlt) in Hw. discriminate.
  - destruct (days + 1) eqn:E; try lia. simpl. repeat split; lia.
Qed.

(** C6, as amended. The dashboard's streak is the number of consecutive
    days, counted backward from the window's end date [today] and never
    past the window's first day (the start date that the handler computes),
    that each hold a completed work session of the user: every day counted
    lies in the window and holds one, and the count stops at the first day
    that holds none or once the first day of the window is counted.  So
    completed work sessions on [today], [today - 1] and [today - 2] but
    not on [today - 3] give 3 when the window reaches back to
    [today - 2]. *)
Theorem streak_counts_days_within_window today auth days s user :
  find_user auth s = Some user ->
  days <> 0 ->
  window_in_calendar today days ->
  categories_exist s ->
  exists b,
    get_analytics today auth days s = (inr (Body b), s)
    /\ let k := ProductivityStats.streak (AnalyticsResponse.productivity_stats b) in
       let window_start := today - days in
       0 <= k
       /\ (forall i, 0 <= i < k ->
             window_start <= today - i
             /\ completed_work_on s (User.id user) (today - i))
       /\ (today - k < window_start \/ ~ completed_work_on s (User.id user) (today - k))
       /\ (window_start <= today - 2 ->
           completed_work_on s (User.id user) today ->
           completed_work_on s (User.id user) (today - 1) ->
           completed_work_on s (User.id user) (today - 2) ->
           ~ completed_work_on s (User.id user) (today - 3) ->
           k = 3).
Proof.
  intros Hu Hd Hcal Hfk.
  destruct (get_analytics_returns today auth days s user Hu Hd Hcal Hfk)
    as (b & Hb & _ & _ & _ & _ & Hs).
  exists b. split; [exact Hb|]. cbv zeta. rewrite Hs.
  destruct (compute_streak_spec s (User.id user) today days) as (Hk & Hall & Hstop).
  set (k := compute_streak s (User.id user) (today - days) today) in *.
  split; [exact Hk|]. split; [exact Hall|]. split; [exact Hstop|].
  intros Hw D0 D1 D2 D3.
  assert (Hge : 3 <= k).
  { destruct (Z_lt_le_dec k 3) as [Hlt|]; [|assumption].
    destruct Hstop as [Hout|Hnone]; [lia|].
    assert (Hcases : k = 0 \/ k = 1 \/ k = 2) by lia.
    destruct Hcases as [E|[E|E]]; rewrite E in Hnone;
      rewrite ?Z.sub_0_r in Hnone; contradiction. }
  destruct (Z_le_gt_dec k 3) as [|Hgt]; [lia|].
  destruct (Hall 3 ltac:(lia)) as [_ H3]. contradiction.
Qed.

Lemma three_day_categories_exist : categories_exist three_day_store.
Proof. intros t []. Defined.

Lemma three_day_work d :
  In d [198; 199; 200] -> completed_work_on three_day_store 1 d.
Proof.
  intros Hd. apply has_sessions_iff.
  destruct Hd as [<-|[<-|[<-|[]]]]; reflexivity.
Qed.

Lemma three_day_idle : ~ completed_work_on three_day_store 1 197.
Proof. intros H. apply has_sessions_iff in H. discriminate H. Qed.

Lemma streak_counts_days_within_window_witness :
  exists b,
    get_analytics 200 1 7 three_day_store = (inr (Body b), three_day_store)
    /\ ProductivityStats.streak (AnalyticsResponse.productivity_stats b) = 3.
Proof.
  destruct (streak_counts_days_within_window 200 1 7 three_day_store alice
              eq_refl ltac:(discriminate) ltac:(in_calendar) three_day_categories_exist)
    as (b & Hb & H).
  exists b. split; [exact Hb|].
  cbv zeta in H. destruct H as (_ & _ & _ & H).
  apply H; [lia | | | | exact three_day_idle]; apply three_day_work; simpl; tauto.
Defined.

(** With [days = 1] and today 200, completed work sessions on the days
    200, 199 and 198 but not 197 give a streak of 2, not 3. *)
Lemma streak_stops_at_window_start :
  completed_work_on three_day_store 1 200
  /\ completed_work_on three_day_store 1 199
  /\ completed_work_on three_day_store 1 198
  /\ ~ completed_work_on three_day_store 1 197
  /\ exists b,
       fst (api sample_jwt_decode 0 200 alice_header (GET_analytics_dashboard 1)
              three_day_store)
       = Ok (Analytics b)
       /\ ProductivityStats.streak (AnalyticsResponse.productivity_stats b) = 2
       /\ ProductivityStats.streak (AnalyticsResponse.productivity_stats b) <> 3.
Proof.
  split; [apply three_day_work; simpl; tauto|].
  split; [apply three_day_work; simpl; tauto|].
  split; [apply three_day_work; simpl; tauto|].
  split; [exact three_day_idle|].
  eexists. split; [reflexivity|]. split; [reflexivity | discriminate].
Qed.

(** ** The date-range operation *)

(** The answer depends on the length of the range and on today's date,
    not on where the range lies. *)
Lemma date_range_is_trailing_window today auth date_range :
  get_analytics_by_date_range today auth date_range
  = get_analytics today auth
      (TimeRangeSchema.end_date date_range - TimeRangeSchema.start_date date_range + 1).
Proof. reflexivity. Qed.

(** C8, on the code. Asked on day 500 for the range from day 100 to day
    106, in which alice completed one work session, the date-range
    operation answers with the days 493 to 500 and a total of 0: it
    computes over the window that ends today. *)
Theorem date_range_computes_trailing_window :
  exists b,
    fst (api sample_jwt_decode 0 500 alice_header (POST_analytics_date_range past_week)
           past_store)
    = Ok (Analytics b)
    /\ map TimeSeriesDataPoint.date (AnalyticsResponse.pomodoro_time_series b)
       = [493; 494; 495; 496; 497; 498; 499; 500]
    /\ map TimeSeriesDataPoint.date (AnalyticsResponse.task_completion_time_series b)
       = [493; 494; 495; 496; 497; 498; 499; 500]
    /\ ProductivityStats.total_pomodoros (AnalyticsResponse.productivity_stats b) = 0
    /\ AnalyticsResponse.daily_stats b = [].
Proof. eexists. repeat split. Qed.

(** ** The task listing *)

Lemma permutation_insert_sorted {A} (leb : A -> A -> bool) (a : A) (l : list A) :
  Permutation (insert_sorted leb a l) (a :: l).
Proof.
  induction l as [|y l IH]; simpl; [apply Permutation_refl|].
  destruct (leb a y); [apply Permutation_refl|].
  eapply perm_trans; [apply perm_skip, IH | apply perm_swap].
Qed.

Lemma permutation_order_by {A} (leb : A -> A -> bool) (l : list A) :
  Permutation (order_by leb l) l.
Proof.
  unfold order_by. induction l as [|y l IH]; simpl; [apply perm_nil|].
  eapply perm_trans; [apply permutation_insert_sorted | apply perm_skip, IH].
Qed.

Lemma sorted_insert_sorted {A} (leb : A -> A -> bool) (a : A) (l : list A) :
  (forall x y, leb x y = false -> leb y x = true) ->
  Sorted (fun x y => leb x y = true) l ->
  Sorted (fun x y => leb x y = true) (insert_sorted leb a l).
Proof.
  intros Htotal Hs. induction Hs as [|y l Hs IH Hhd]; simpl.
  - repeat constructor.
  - destruct (leb a y) eqn:Hay.
    + constructor; [constructor; assumption | constructor; exact Hay].
    + constructor; [exact IH|].
      destruct l as [|z l]; simpl.
      * constructor. now apply Htotal.
      * destruct (leb a z); constructor; [now apply Htotal | now inversion Hhd].
Qed.

Lemma sorted_order_by {A} (leb : A -> A -> bool) (l : list A) :
  (forall x y, leb x y = false -> leb y x = true) ->
  Sorted (fun x y => leb x y = true) (order_by leb l).
Proof.
  intros Htotal. unfold order_by. induction l as [|y l IH]; simpl.
  - constructor.
  - now apply sorted_insert_sorted.
Qed.

Lemma option_date_compare_antisym a b :
  option_date_compare b a = CompOpp (option_date_compare a b).
Proof.
  destruct a, b; simpl; try reflexivity. apply Z.compare_antisym.
Qed.

(** Of two tasks, one may come before the other. *)
Lemma task_order_total a b : task_order a b = false -> task_order b a = true.
Proof.
  unfold task_order.
  rewrite (String.compare_antisym (Task.priority a) (Task.priority b)).
  rewrite (option_date_compare_antisym (Task.due_date a) (Task.due_date b)).
  destruct (String.compare (Task.priority b) (Task.priority a)); simpl;
    try discriminate; try reflexivity.
  destruct (option_date_compare (Task.due_date a) (Task.due_date b)); simpl;
    try discriminate; try reflexivity.
  intros H. apply Z.leb_gt in H. apply Z.leb_le. lia.
Qed.

Lemma strongly_sorted_order_by {A} (key : A -> Z) (l : list A) :
  StronglySorted (fun a b => key b <= key a)
                 (order_by (fun a b => key b <=? key a) l).
Proof.
  apply Sorted_StronglySorted.
  - intros a b c Hab Hbc. lia.
  - assert (H : Sorted (fun x y => (key y <=? key x) = true)
                       (order_by (fun a b => key b <=? key a) l)).
    { apply sorted_order_by. intros x y Hxy. apply Z.leb_gt in Hxy. apply Z.leb_le. lia. }
    induction H as [|a r Hs IH Hhd]; constructor; [exact IH|].
    destruct Hhd; constructor. now apply Z.leb_le.
Qed.

Lemma strongly_sorted_filter {A} (R : A -> A -> Prop) (p : A -> bool) (l : list A) :
  StronglySorted R l -> StronglySorted R (filter p l).
Proof.
  induction 1 as [|a l Hs IH Hall]; simpl; [constructor|].
  destruct (p a); [|exact IH].
  constructor; [exact IH|].
  apply Forall_forall. intros x Hx. apply filter_In in Hx.
  rewrite Forall_forall in Hall. apply Hall. tauto.
Qed.

Lemma strongly_sorted_map {A B} (R : B -> B -> Prop) (f : A -> B) (l : list A) :
  StronglySorted (fun a b => R (f a) (f b)) l -> StronglySorted R (map f l).
Proof.
  induction 1 as [|a l Hs IH Hall]; simpl; constructor; [exact IH|].
  apply Forall_forall. intros y Hy. apply in_map_iff in Hy.
  destruct Hy as (x & <- & Hx). rewrite Forall_forall in Hall. now apply Hall.
Qed.

Lemma for_each_map {A B} (f : A -> M B) (g : A -> B) (l : list A) (s : Store) :
  (forall a, In a l -> f a s = (inr (g a), s)) ->
  for_each f l s = (inr (map g l), s).
Proof.
  induction l as [|a l IH]; intros H; simpl; [reflexivity|].
  unfold bind. rewrite (H a (or_introl eq_refl)), IH; [reflexivity|].
  intros x Hx. apply H. now right.
Qed.

Section ListProofs.

Variable jwt_decode : string -> option (option Z).
Variable authorization : option string.
Variable user_id : Z.
Hypothesis token_accepted :
  get_user_id_from_token jwt_decode authorization = Some user_id.
Hypothesis user_id_truthy : user_id <> 0.

Lemma string_compare_gt_trans a b c :
  String.compare a b = Gt -> String.compare b c = Gt -> String.compare a c = Gt.
Proof.
  intros Hab Hbc.
  assert (Hba : String.compare b a = Lt)
    by (rewrite String.compare_antisym, Hab; reflexivity).
  assert (Hcb : String.compare c b = Lt)
    by (rewrite String.compare_antisym, Hbc; reflexivity).
  apply String_as_OT.cmp_lt in Hba, Hcb.
  pose proof (String_as_OT.lt_trans _ _ _ Hcb Hba) as Hca.
  apply String_as_OT.cmp_lt in Hca.
  rewrite String.compare_antisym. unfold String_as_OT.cmp in Hca. now rewrite Hca.
Qed.

Lemma due_before_trans a b c : due_before a b -> due_before b c -> due_before a c.
Proof.
  destruct a, b, c; simpl; try tauto; lia.
Qed.

Lemma listed_in_order_trans a b c :
  listed_in_order a b -> listed_in_order b c -> listed_in_order a c.
Proof.
  unfold listed_in_order.
  intros [Hab|[Pab Hab]] [Hbc|[Pbc Hbc]].
  - left. exact (string_compare_gt_trans _ _ _ Hab Hbc).
  - left. now rewrite <- Pbc.
  - left. now rewrite Pab.
  - right. split; [congruence|].
    destruct Hab as [Dab|[Dab Cab]], Hbc as [Dbc|[Dbc Cbc]].
    + left. exact (due_before_trans _ _ _ Dab Dbc).
    + left. now rewrite <- Dbc.
    + left. now rewrite Dab.
    + right. split; [congruence | lia].
Qed.

(** What [task_order] decides is the order of the listing. *)
Lemma task_order_listed a b ca cb ga gb :
  task_order a b = true ->
  listed_in_order (task_schema a ca ga) (task_schema b cb gb).
Proof.
  unfold task_order, listed_in_order. cbn [task_schema TaskSchema.priority
    TaskSchema.due_date TaskSchema.created_at].
  rewrite (String.compare_antisym (Task.priority b) (Task.priority a)).
  destruct (String.compare (Task.priority a) (Task.priority b)) eqn:Hp; simpl;
    try discriminate.
  - intros H. right. split; [now apply String.compare_eq_iff|].
    destruct (Task.due_date a) as [x|], (Task.due_date b) as [y|]; simpl in *;
      try discriminate.
    + destruct (Z.compare_spec x y) as [E|L|G]; try discriminate.
      * right. split; [now subst | now apply Z.leb_le].
      * now left.
    + now left.
    + right. split; [reflexivity | now apply Z.leb_le].
  - intros _. now left.
Qed.

(** X1. Without filters, the listing holds the tasks of the requesting
    user and no other, each once, and every entry stands before every
    later one in the order of the model: by the text of the priority
    descending, then by the due date ascending with the tasks without one
    first, then by the creation time ascending. *)
Theorem list_tasks_all_in_task_order s :
  categories_exist s ->
  exists l rows,
    list_tasks jwt_decode None None None None authorization s = (inr (Body l), s)
    /\ Permutation rows (filter (fun t => Task.user_id t =? user_id) (tasks s))
    /\ map TaskSchema.id l = map Task.id rows
    /\ map TaskSchema.priority l = map Task.priority rows
    /\ map TaskSchema.due_date l = map Task.due_date rows
    /\ map TaskSchema.created_at l = map Task.created_at rows
    /\ StronglySorted listed_in_order l.
Proof.
  intros Hfk.
  set (rows := order_by task_order (filter (fun t => Task.user_id t =? user_id) (tasks s))).
  set (category_of := fun t : Task.t =>
                        match Task.category_id t with
                        | Some i => find_category i s
                        | None => None
                        end).
  set (schema := fun t => task_schema t (category_of t) (tags_of (Task.id t) s)).
  unfold list_tasks.
  rewrite (authenticated_identity jwt_decode authorization user_id) by assumption.
  unfold bind at 1. unfold get_store at 1. simpl nonempty. simpl truthy. cbv iota.
  fold rows.
  unfold bind. rewrite (for_each_map describe_task schema rows s).
  2:{ intros t Ht.
      apply (Permutation_in _ (permutation_order_by task_order _)) in Ht.
      apply filter_In in Ht. destruct Ht as [Ht _].
      unfold describe_task, related_category, schema, category_of.
      destruct (Task.category_id t) as [i|] eqn:Hi; [|reflexivity].
      destruct (Hfk t Ht i Hi) as [x Hx].
      unfold bind, objects_get, get_store, ret. now rewrite Hx. }
  exists (map schema rows), rows. split; [reflexivity|].
  split; [apply permutation_order_by|].
  rewrite !map_map. cbn [schema task_schema TaskSchema.id TaskSchema.priority
                         TaskSchema.due_date TaskSchema.created_at].
  repeat (split; [reflexivity|]).
  apply strongly_sorted_map.
  apply Sorted_StronglySorted.
  - intros a b c. apply listed_in_order_trans.
  - assert (H : Sorted (fun a b => task_order a b = true) rows)
      by (apply sorted_order_by; exact task_order_total).
    induction H as [|a r Hs IH Hhd]; constructor; [exact IH|].
    destruct Hhd; constructor. now apply task_order_listed.
Qed.

End ListProofs.

Lemma ordering_store_categories_exist : categories_exist ordering_store.
Proof.
  intros t Ht c Hc. simpl in Ht.
  destruct Ht as [<-|[<-|[<-|[<-|[<-|[<-|[]]]]]]]; discriminate Hc.
Defined.

Lemma list_tasks_all_in_task_order_witness :
  exists l,
    list_tasks sample_jwt_decode None None None None alice_header ordering_store
    = (inr (Body l), ordering_store)
    /\ map TaskSchema.id l = [2; 4; 3; 1; 5; 6]
    /\ StronglySorted listed_in_order l.
Proof.
  destruct (list_tasks_all_in_task_order sample_jwt_decode alice_header 1
              eq_refl ltac:(discriminate) ordering_store
              ordering_store_categories_exist)
    as (l & rows & Hl & _ & _ & _ & _ & _ & Hs).
  exists l. split; [exact Hl|]. split; [|exact Hs].
  inversion Hl. reflexivity.
Defined.

(** ** Grouping and counting *)

Lemma count_on_bump (x d : Z) (groups : list (date * Z)) :
  count_on (bump Z.eqb x groups) d
  = count_on groups d + (if x =? d then 1 else 0).
Proof.
  unfold count_on. induction groups as [|[k c] r IH]; simpl.
  - destruct (x =? d); reflexivity.
  - destruct (Z.eqb_spec x k) as [->|Hxk]; simpl.
    + destruct (k =? d); simpl; lia.
    + destruct (Z.eqb_spec k d) as [->|Hkd]; simpl.
      * destruct (Z.eqb_spec x d); [contradiction | lia].
      * exact IH.
Qed.

Lemma count_cons {A} (a : A) (l : list A) : count (a :: l) = 1 + count l.
Proof. unfold count. cbn [List.length]. lia. Qed.

Lemma count_on_fold_bump (l : list Z) (d : Z) :
  forall groups,
    count_on (fold_left (fun g x => bump Z.eqb x g) l groups) d
    = count_on groups d + count (filter (fun x => x =? d) l).
Proof.
  induction l as [|x l IH]; intros groups; simpl.
  - unfold count. simpl. lia.
  - rewrite IH, count_on_bump.
    destruct (x =? d); [rewrite count_cons|]; lia.
Qed.

Lemma count_on_group_count (l : list Z) (d : Z) :
  count_on (group_count Z.eqb l) d = count (filter (fun x => x =? d) l).
Proof. unfold group_count. now rewrite count_on_fold_bump. Qed.

Lemma nodup_bump (x : Z) (groups : list (Z * Z)) :
  NoDup (map fst groups) -> NoDup (map fst (bump Z.eqb x groups)).
Proof.
  induction groups as [|[k c] r IH]; simpl; intros H.
  - repeat constructor. intros [].
  - inversion H as [|? ? Hnotin Hr]; subst.
    destruct (Z.eqb_spec x k) as [->|Hxk]; simpl.
    + constructor; assumption.
    + constructor; [|now apply IH].
      intros Hin. apply bump_keys in Hin. destruct Hin; [congruence | contradiction].
Qed.

Lemma nodup_group_count (l : list Z) : NoDup (map fst (group_count Z.eqb l)).
Proof.
  unfold group_count.
  assert (H : forall groups, NoDup (map fst groups) ->
                NoDup (map fst (fold_left (fun g x => bump Z.eqb x g) l groups))).
  { induction l as [|x l IH]; intros groups Hg; simpl; [exact Hg|].
    apply IH. now apply nodup_bump. }
  apply H. constructor.
Qed.

Lemma count_on_in (l : list (Z * Z)) (d c : Z) :
  NoDup (map fst l) -> In (d, c) l -> count_on l d = c.
Proof.
  unfold count_on. induction l as [|[k v] r IH]; simpl; intros Hnd Hin; [contradiction|].
  inversion Hnd as [|? ? Hnotin Hr]; subst.
  destruct Hin as [E|Hin].
  - inversion E; subst. now rewrite Z.eqb_refl.
  - destruct (Z.eqb_spec k d) as [->|Hkd]; simpl.
    + exfalso. apply Hnotin. now apply (in_map fst) in Hin.
    + now apply IH.
Qed.

Lemma count_on_not_in (l : list (Z * Z)) (d : Z) :
  ~ In d (map fst l) -> count_on l d = 0.
Proof.
  unfold count_on. induction l as [|[k v] r IH]; simpl; intros Hnotin; [reflexivity|].
  destruct (Z.eqb_spec k d) as [->|Hkd]; [tauto|]. apply IH. tauto.
Qed.

Lemma count_on_permutation (l l' : list (Z * Z)) (d : Z) :
  NoDup (map fst l) -> Permutation l l' -> count_on l d = count_on l' d.
Proof.
  intros Hnd Hp.
  assert (Hnd' : NoDup (map fst l'))
    by (eapply Permutation_NoDup; [apply Permutation_map, Hp | exact Hnd]).
  destruct (in_dec Z.eq_dec d (map fst l)) as [Hin|Hnotin].
  - apply in_map_iff in Hin. destruct Hin as ([k c] & Hk & Hin). simpl in Hk. subst k.
    rewrite (count_on_in l d c Hnd Hin).
    symmetry. apply count_on_in; [exact Hnd'|]. eapply Permutation_in; eauto.
  - rewrite (count_on_not_in l d Hnotin). symmetry. apply count_on_not_in.
    intros Hin. apply Hnotin.
    eapply Permutation_in; [apply Permutation_sym, Permutation_map, Hp | exact Hin].
Qed.

(** The count that a time series shows for a day is the number of rows
    of that day; no row, no group, and the default 0. *)
Lemma count_on_day_counts (l : list date) (d : date) :
  count_on (day_counts l) d = count (filter (fun x => x =? d) l).
Proof.
  unfold day_counts. rewrite <- count_on_group_count.
  symmetry. apply count_on_permutation; [apply nodup_group_count|].
  apply Permutation_sym, permutation_order_by.
Qed.

Lemma filter_filter {A} (p q : A -> bool) (l : list A) :
  filter p (filter q l) = filter (fun x => q x && p x) l.
Proof.
  induction l as [|a l IH]; simpl; [reflexivity|].
  destruct (q a); simpl; [destruct (p a)|]; now rewrite IH.
Qed.

Lemma filter_map_eq {A} (f : A -> Z) (d : Z) (l : list A) :
  filter (fun x => x =? d) (map f l) = map f (filter (fun a => f a =? d) l).
Proof.
  induction l as [|a l IH]; simpl; [reflexivity|].
  destruct (f a =? d); simpl; now rewrite IH.
Qed.

Lemma count_map {A B} (f : A -> B) (l : list A) : count (map f l) = count l.
Proof. unfold count. now rewrite length_map. Qed.

Lemma in_dates_from d n x : In x (dates_from d n) -> d <= x < d + Z.of_nat n.
Proof.
  revert d. induction n as [|n IH]; intros d; simpl; [tauto|].
  intros [<-|H]; [lia|]. apply IH in H. lia.
Qed.

Lemma in_date_window start_date end_date d :
  In d (date_window start_date end_date) -> start_date <= d <= end_date.
Proof.
  unfold date_window. intros H. apply in_dates_from in H.
  destruct (Z_le_gt_dec 0 (end_date - start_date + 1)) as [Hle|Hgt].
  - rewrite Z2Nat.id in H by exact Hle. lia.
  - destruct (end_date - start_date + 1) eqn:E; simpl in H; lia.
Qed.

(** A point of the series of pomodoros shows the number of completed
    work sessions of its day. *)
Lemma pomodoro_point_value s user_id start_date end_date d :
  start_date <= d <= end_date ->
  count_on
    (day_counts
       (map (fun x => local_date (PomodoroSession.start_time x))
            (filter is_work (window_sessions s user_id start_date end_date))))
    d
  = pomodoros_on s user_id d.
Proof.
  intros Hd. rewrite count_on_day_counts, filter_map_eq, count_map.
  unfold window_sessions, pomodoros_on. rewrite !filter_filter. f_equal.
  apply filter_ext. intros x.
  destruct (Z.eqb_spec (local_date (PomodoroSession.start_time x)) d) as [->|];
    [|now rewrite !andb_false_r].
  replace (start_date <=? d) with true by (symmetry; apply Z.leb_le; lia).
  replace (d <=? end_date) with true by (symmetry; apply Z.leb_le; lia).
  rewrite !andb_true_r.
  destruct (PomodoroSession.user_id x =? user_id), (is_work x),
    (PomodoroSession.is_completed x); reflexivity.
Qed.

(** A point of the series of completed tasks shows the number of
    completed tasks, among those created in the window, last saved on its
    day. *)
Lemma task_point_value s user_id start_date end_date d :
  count_on
    (day_counts
       (map (fun t => local_date (Task.updated_at t))
            (filter is_status_completed (window_tasks s user_id start_date end_date))))
    d
  = tasks_completed_on s user_id start_date end_date d.
Proof.
  rewrite count_on_day_counts, filter_map_eq, count_map.
  unfold window_tasks, tasks_completed_on. rewrite !filter_filter. f_equal.
  apply filter_ext. intros t. now rewrite andb_assoc.
Qed.

(** X2. The dashboard's series are zero-filled counts (for a window
    inside the calendar): the point of a day shows the number of the
    user's completed work sessions that started on it, respectively of the
    completed tasks last saved on it. *)
Theorem dashboard_series_values today auth days s user :
  find_user auth s = Some user ->
  days <> 0 ->
  window_in_calendar today days ->
  categories_exist s ->
  exists b,
    get_analytics today auth days s = (inr (Body b), s)
    /\ (forall p, In p (AnalyticsResponse.pomodoro_time_series b) ->
          TimeSeriesDataPoint.value p
          = pomodoros_on s (User.id user) (TimeSeriesDataPoint.date p))
    /\ (forall p, In p (AnalyticsResponse.task_completion_time_series b) ->
          TimeSeriesDataPoint.value p
          = tasks_completed_on s (User.id user) (today - days) today
              (TimeSeriesDataPoint.date p)).
Proof.
  intros Hu Hd Hcal Hfk.
  destruct (get_analytics_returns today auth days s user Hu Hd Hcal Hfk)
    as (b & Hb & Hp & Ht & _).
  exists b. split; [exact Hb|]. rewrite Hp, Ht. unfold fill_series. split.
  - intros p Hin. apply in_map_iff in Hin. destruct Hin as (d & <- & Hin). simpl.
    apply pomodoro_point_value. now apply in_date_window.
  - intros p Hin. apply in_map_iff in Hin. destruct Hin as (d & <- & Hin). simpl.
    apply task_point_value.
Qed.

Lemma dashboard_series_values_witness :
  exists b,
    get_analytics 200 1 7 three_day_store = (inr (Body b), three_day_store)
    /\ forall p, In p (AnalyticsResponse.pomodoro_time_series b) ->
         TimeSeriesDataPoint.value p
         = pomodoros_on three_day_store 1 (TimeSeriesDataPoint.date p).
Proof.
  destruct (dashboard_series_values 200 1 7 three_day_store alice
              eq_refl ltac:(discriminate) ltac:(in_calendar) three_day_categories_exist)
    as (b & Hb & Hp & _).
  exists b. split; [exact Hb | exact Hp].
Defined.

(** ** Deleting a session, and the settings *)

Section MoreSessionProofs.

Variable jwt_decode : string -> option (option Z).
Variable authorization : option string.
Variable user_id : Z.
Hypothesis token_accepted :
  get_user_id_from_token jwt_decode authorization = Some user_id.
Hypothesis user_id_truthy : user_id <> 0.

(** X3. Deleting a completed work session linked to a task removes the
    session and takes one off the task's counter, but not below zero. *)
Theorem delete_completed_session_floors_at_zero now session_id task_id s c :
  linked user_id s session_id task_id true c ->
  0 <= c ->
  let s' := snd (delete_session jwt_decode now session_id authorization s) in
  owned_session session_id user_id s' = None
  /\ completed_count task_id s' = Some (Z.max 0 (c - 1)).
Proof.
  intros Hl Hc s'.
  destruct (delete_session_linked jwt_decode authorization user_id token_accepted
              user_id_truthy now session_id task_id s true c Hl) as [Hgone Hcount].
  split; [exact Hgone|]. subst s'. rewrite Hcount. simpl andb.
  destruct (Z.gtb_spec c 0); f_equal; lia.
Qed.

(** X4. The first read of the settings of a user who has none creates
    the row and answers with the defaults: 1500, 300 and 900 seconds, a
    long break every 4 sessions, notifications on. *)
Theorem first_settings_read_creates_defaults s user :
  find_user user_id s = Some user ->
  find_setting (User.id user) s = None ->
  get_user_settings jwt_decode authorization s
  = (inr (Body {| UserSettingsSchema.work_duration := 1500;
                  UserSettingsSchema.short_break_duration := 300;
                  UserSettingsSchema.long_break_duration := 900;
                  UserSettingsSchema.long_break_interval := 4;
                  UserSettingsSchema.notifications_enabled := true |}),
     with_settings s (user_settings s ++ [UserSetting.default (User.id user)])).
Proof.
  intros Hu Hs. unfold get_user_settings. rewrite token_accepted.
  unfold try_except, bind, objects_get, get_or_create_setting.
  rewrite Hu, Hs. reflexivity.
Qed.

End MoreSessionProofs.

Lemma linked_st1_reset : linked 1 st1_reset 5 10 true 0.
Proof.
  exists (sample_session 5 (Some 10) 100 true), (sample_task 10 "high" 0).
  repeat split; reflexivity.
Defined.

Lemma delete_completed_session_floors_at_zero_witness :
  completed_count 10 (snd (delete_session sample_jwt_decode 9 5 alice_header st1_reset))
  = Some 0.
Proof.
  pose proof (delete_completed_session_floors_at_zero sample_jwt_decode alice_header 1
                eq_refl ltac:(discriminate) 9 5 10 st1_reset 0 linked_st1_reset
                ltac:(lia)) as H.
  cbv zeta in H. destruct H as [_ H]. exact H.
Defined.

Lemma first_settings_read_creates_defaults_witness :
  fst (get_user_settings sample_jwt_decode alice_header st0)
  = inr (Body {| UserSettingsSchema.work_duration := 1500;
                 UserSettingsSchema.short_break_duration := 300;
                 UserSettingsSchema.long_break_duration := 900;
                 UserSettingsSchema.long_break_interval := 4;
                 UserSettingsSchema.notifications_enabled := true |}).
Proof.
  rewrite (first_settings_read_creates_defaults sample_jwt_decode alice_header 1
             eq_refl st0 alice eq_refl eq_refl).
  reflexivity.
Defined.

(** ** Starting a session *)

Section StartProofs.

Variable jwt_decode : string -> option (option Z).
Variable authorization : option string.
Variable user_id : Z.
Hypothesis token_accepted :
  get_user_id_from_token jwt_decode authorization = Some user_id.
Hypothesis user_id_truthy : user_id <> 0.

Lemma find_user_id i s user : find_user i s = Some user -> User.id user = i.
Proof. intros H. apply find_some_holds in H. now apply Z.eqb_eq. Qed.

(** The session that [start_session] creates. *)
Lemma start_session_created now data s user task :
  find_user user_id s = Some user ->
  match SessionCreateSchema.task_id data with
  | Some tid =>
      if tid =? 0 then task = None
      else exists t, owned_task tid user_id s = Some t /\ task = Some t
  | None => task = None
  end ->
  let session :=
    {| PomodoroSession.id := next_session_id s;
       PomodoroSession.user_id := user_id;
       PomodoroSession.task_id := option_map Task.id task;
       PomodoroSession.start_time := now;
       PomodoroSession.end_time := None;
       PomodoroSession.duration := SessionCreateSchema.duration data;
       PomodoroSession.type := SessionCreateSchema.type data;
       PomodoroSession.is_completed := false |} in
  start_session jwt_decode now data authorization s
  = (inr (Body (session_schema session user_id task None)),
     with_sessions s (pomodoro_sessions s ++ [session]) (next_session_id s + 1)).
Proof.
  intros Hu Htask session. pose proof (find_user_id _ _ _ Hu) as Hid.
  unfold start_session.
  rewrite (authenticated_identity jwt_decode authorization user_id) by assumption.
  unfold try_except, bind. rewrite (get_object_or_404_found _ _ _ Hu). rewrite Hid.
  destruct (SessionCreateSchema.task_id data) as [tid|].
  - unfold truthy. destruct (Z.eqb_spec tid 0) as [E|E]; cbn [negb]; cbv iota beta.
    + subst task. reflexivity.
    + destruct Htask as (t & Ht & ->).
      rewrite (get_object_or_404_found _ _ _ Ht). reflexivity.
  - subst task. reflexivity.
Qed.

Lemma find_app_fresh {A} (p : A -> bool) (l : list A) (x : A) :
  (forall y, In y l -> p y = false) -> p x = true -> find p (l ++ [x]) = Some x.
Proof.
  intros Hl Hx. induction l as [|a l IH]; simpl.
  - now rewrite Hx.
  - rewrite (Hl a (or_introl eq_refl)). apply IH. intros y Hy. apply Hl. now right.
Qed.

Lemma find_none_all {A} (p : A -> bool) (l : list A) :
  (forall y, In y l -> p y = false) -> find p l = None.
Proof.
  intros H. induction l as [|a l IH]; simpl; [reflexivity|].
  rewrite (H a (or_introl eq_refl)). apply IH. intros y Hy. apply H. now right.
Qed.

Lemma owned_task_of_first task_id s t :
  find_task task_id s = Some t -> Task.user_id t = user_id ->
  owned_task task_id user_id s = Some t.
Proof.
  unfold find_task, owned_task. intros Hf Hu.
  induction (tasks s) as [|a l IH]; simpl in *; [discriminate|].
  destruct (Task.id a =? task_id) eqn:Ha; simpl.
  - inversion Hf; subst a. now rewrite Hu, Z.eqb_refl.
  - now apply IH.
Qed.

(** What one round of start and complete keeps, and what it adds. *)
Lemma work_round_step now data cdata s user task_id t :
  find_user user_id s = Some user ->
  find_task task_id s = Some t ->
  Task.user_id t = user_id ->
  task_id <> 0 ->
  session_ids_below s ->
  SessionCreateSchema.type data = "work" ->
  SessionCreateSchema.task_id data = Some task_id ->
  SessionUpdateSchema.is_completed cdata = true ->
  let s' := work_round jwt_decode authorization now data cdata s in
  find_user user_id s' = Some user
  /\ session_ids_below s'
  /\ exists t',
       find_task task_id s' = Some t'
       /\ Task.user_id t' = user_id
       /\ Task.completed_pomodoros t' = Task.completed_pomodoros t + 1.
Proof.
  intros Hu Ht Htu Hnz Hbelow Hty Htid Hc s'. subst s'. unfold work_round.
  pose proof (owned_task_of_first _ _ _ Ht Htu) as Hown.
  rewrite (start_session_created now data s user (Some t) Hu).
  2:{ rewrite Htid. destruct (Z.eqb_spec task_id 0); [contradiction|]. eauto. }
  cbn [snd].
  set (session := {| PomodoroSession.id := next_session_id s;
                     PomodoroSession.user_id := user_id;
                     PomodoroSession.task_id := option_map Task.id (Some t);
                     PomodoroSession.start_time := now;
                     PomodoroSession.end_time := None;
                     PomodoroSession.duration := SessionCreateSchema.duration data;
                     PomodoroSession.type := SessionCreateSchema.type data;
                     PomodoroSession.is_completed := false |}).
  set (s1 := with_sessions s (pomodoro_sessions s ++ [session]) (next_session_id s + 1)).
  assert (Hl : linked user_id s1 (next_session_id s) task_id false
                 (Task.completed_pomodoros t)).
  { exists session, t. repeat split; try assumption.
    - unfold owned_session. simpl. apply find_app_fresh.
      + intros y Hy. apply Hbelow in Hy.
        destruct (Z.eqb_spec (PomodoroSession.id y) (next_session_id s)); [lia|reflexivity].
      + simpl. now rewrite !Z.eqb_refl.
    - simpl. f_equal. now apply find_task_id in Ht. }
  pose proof (complete_session_linked jwt_decode authorization user_id token_accepted
                user_id_truthy now (next_session_id s) task_id cdata s1 false _ Hl) as Hl'.
  rewrite Hc in Hl'.
  split; [|split].
  - rewrite (find_user_after_complete jwt_decode authorization user_id token_accepted
               user_id_truthy). exact Hu.
  - destruct (owned_session (next_session_id s) user_id s1) as [x|] eqn:Hx.
    + rewrite (complete_session_store jwt_decode authorization user_id token_accepted
                 user_id_truthy now (next_session_id s) cdata s1 x Hx).
      assert (Hin : forall st y,
        In y (pomodoro_sessions (snd (save_session st s1))) ->
        PomodoroSession.id y < next_session_id s + 1).
      { intros st y Hy. simpl in Hy. apply in_map_iff in Hy.
        destruct Hy as (z & Hz & Hin).
        assert (Hzid : PomodoroSession.id z < next_session_id s + 1).
        { apply in_app_or in Hin. destruct Hin as [Hin|[<-|[]]].
          - apply Hbelow in Hin. lia.
          - simpl. lia. }
        destruct (Z.eqb_spec (PomodoroSession.id z) (PomodoroSession.id st)) as [E|E];
          subst y; [rewrite <- E|]; exact Hzid. }
      destruct (fst (completed_work_task _ _)) as [e|[tk|]]; intros y Hy;
        apply (Hin _ y Hy).
    + destruct Hl as (x & _ & Hx' & _). congruence.
  - destruct Hl as (x & t0 & Hx & Hxty & Hxtid & _ & Ht0 & _).
    assert (t0 = t) by (change (find_task task_id s1) with (find_task task_id s) in Ht0;
                        congruence). subst t0.
    rewrite (complete_session_store jwt_decode authorization user_id token_accepted
               user_id_truthy now (next_session_id s) cdata s1 x Hx).
    set (x' := set_completion x (instant_of (normalized_end_time cdata))
                 (SessionUpdateSchema.is_completed cdata)).
    assert (Ht1 : find_task task_id (snd (save_session x' s1)) = Some t) by exact Ht.
    rewrite (completed_work_task_linked x' _ task_id t Hxty Hxtid Ht1).
    change (PomodoroSession.is_completed x') with (SessionUpdateSchema.is_completed cdata).
    rewrite Hc. cbn [fst].
    eexists. split; [|split].
    + apply (find_task_saved now task_id _ t); [exact Ht1 | reflexivity].
    + exact Htu.
    + reflexivity.
Qed.


(** X6. A started session (type and duration fitting their columns) can
    be found again: the answer carries the new
    session's key, the session is open (not completed, no end time), it
    is a session of the caller and of nobody else, and the sessions that
    existed are still there. *)
Theorem start_session_opens_session now data s user :
  fits_session_columns data ->
  find_user user_id s = Some user ->
  SessionCreateSchema.task_id data = None ->
  session_ids_below s ->
  exists body s',
    start_session jwt_decode now data authorization s = (inr (Body body), s')
    /\ PomodoroSessionSchema.id body = next_session_id s
    /\ PomodoroSessionSchema.is_completed body = false
    /\ PomodoroSessionSchema.end_time body = None
    /\ (exists x, owned_session (PomodoroSessionSchema.id body) user_id s' = Some x
                  /\ PomodoroSession.is_completed x = false
                  /\ PomodoroSession.start_time x = now
                  /\ PomodoroSession.type x = SessionCreateSchema.type data)
    /\ (forall other, other <> user_id ->
          owned_session (PomodoroSessionSchema.id body) other s' = None)
    /\ (forall x, In x (pomodoro_sessions s) -> In x (pomodoro_sessions s'))
    /\ tasks s' = tasks s.
Proof.
  intros _ Hu Htid Hbelow.
  rewrite (start_session_created now data s user None Hu) by (now rewrite Htid).
  eexists. eexists. split; [reflexivity|]. cbn [session_schema PomodoroSessionSchema.id
    PomodoroSessionSchema.is_completed PomodoroSessionSchema.end_time PomodoroSession.id
    PomodoroSession.is_completed PomodoroSession.end_time].
  assert (Hfresh : forall y, In y (pomodoro_sessions s) ->
                     (PomodoroSession.id y =? next_session_id s) = false).
  { intros y Hy. apply Hbelow in Hy. apply Z.eqb_neq. lia. }
  repeat split.
  - eexists. split.
    + unfold owned_session. simpl. apply find_app_fresh.
      * intros y Hy. now rewrite (Hfresh y Hy).
      * simpl. now rewrite !Z.eqb_refl.
    + repeat split.
  - intros other Hother. unfold owned_session. simpl.
    apply find_none_all. intros y Hy. apply in_app_or in Hy.
    destruct Hy as [Hy|[<-|[]]].
    + now rewrite (Hfresh y Hy).
    + simpl. rewrite Z.eqb_refl. simpl. apply Z.eqb_neq. congruence.
  - intros x Hx. simpl. apply in_or_app. now left.
Qed.

(** X7. A start that names a task which is not a task of the caller
    creates nothing: the store is left as it was and the answer is 500
    (the not-found exception is caught by the last [except] clause); the
    reference [0] is read as no task at all, and the start, its values
    fitting the columns of the session table, answers with a session
    without a task. *)
Theorem start_session_checks_task now data s user task_id :
  find_user user_id s = Some user ->
  SessionCreateSchema.task_id data = Some task_id ->
  owned_task task_id user_id s = None ->
  (task_id <> 0 ->
   start_session jwt_decode now data authorization s = (inr (Response 500), s))
  /\ (task_id = 0 ->
      fits_session_columns data ->
      exists body s',
        start_session jwt_decode now data authorization s = (inr (Body body), s')
        /\ PomodoroSessionSchema.task_id body = None).
Proof.
  intros Hu Htid Hown. pose proof (find_user_id _ _ _ Hu) as Hid. split.
  - intros Hnz. unfold start_session.
    rewrite (authenticated_identity jwt_decode authorization user_id) by assumption.
    unfold try_except, bind. rewrite (get_object_or_404_found _ _ _ Hu), Hid, Htid.
    unfold truthy. destruct (Z.eqb_spec task_id 0); [contradiction|].
    cbn [negb]. cbv iota beta. unfold get_object_or_404. now rewrite Hown.
  - intros -> _.
    rewrite (start_session_created now data s user None Hu) by (now rewrite Htid).
    eexists. eexists. split; reflexivity.
Qed.

End StartProofs.

Lemma st0_session_ids_below : session_ids_below st0.
Proof. intros x [<-|[]]. simpl. lia. Defined.


Lemma start_session_opens_session_witness :
  exists body s',
    start_session sample_jwt_decode 7 (work_on None) alice_header st0
    = (inr (Body body), s')
    /\ PomodoroSessionSchema.id body = 100.
Proof.
  destruct (start_session_opens_session sample_jwt_decode alice_header 1 eq_refl
              ltac:(discriminate) 7 (work_on None) st0 alice
              ltac:(split; simpl; lia) eq_refl eq_refl
              st0_session_ids_below) as (body & s' & H & Hid & _).
  exists body, s'. split; [exact H | exact Hid].
Defined.

Lemma start_session_checks_task_witness :
  start_session sample_jwt_decode 7 (work_on (Some 10)) bob_header st0
  = (inr (Response 500), st0).
Proof.
  apply (start_session_checks_task sample_jwt_decode bob_header 2 eq_refl
           ltac:(discriminate) 7 (work_on (Some 10)) st0 bob 10 eq_refl eq_refl eq_refl).
  discriminate.
Defined.

(** ** The history *)

Lemma timedelta_of_span now days s :
  span_in_calendar now days -> timedelta days s = (inr days, s).
Proof.
  intros (H & _). unfold timedelta.
  destruct (Z.leb_spec (Z.abs days) timedelta_max_days); [reflexivity|lia].
Qed.

Lemma datetime_sub_of_span now days s :
  span_in_calendar now days -> datetime_sub now days s = (inr (now - days * 86400), s).
Proof.
  intros (_ & H & _). unfold datetime_sub. unfold date_min, date_max in *.
  destruct (Z.leb_spec (-719162 * 86400) (now - days * 86400)); [|lia].
  destruct (Z.ltb_spec (now - days * 86400) ((2932896 + 1) * 86400)); [reflexivity|lia].
Qed.

Ltac in_span :=
  unfold span_in_calendar, timedelta_max_days, date_min, date_max; lia.

Section HistoryProofs.

Variable jwt_decode : string -> option (option Z).
Variable authorization : option string.
Variable user_id : Z.
Hypothesis token_accepted :
  get_user_id_from_token jwt_decode authorization = Some user_id.
Hypothesis user_id_truthy : user_id <> 0.

(** X8. For a span of [days] days that lies inside the calendar, the
    history holds the caller's sessions and no others: exactly those that
    started within the last [days] days (and, when a task is named, are
    linked to it), newest first; the store is not changed. *)
Theorem get_history_own_recent_newest_first now days task_id s user :
  find_user user_id s = Some user ->
  session_tasks_exist s ->
  span_in_calendar now days ->
  exists l,
    get_history jwt_decode now days task_id authorization s = (inr (Body l), s)
    /\ (forall b, In b l ->
          PomodoroSessionSchema.user_id b = user_id
          /\ now - days * 86400 <= PomodoroSessionSchema.start_time b
          /\ (truthy task_id = true -> PomodoroSessionSchema.task_id b = task_id))
    /\ (forall x, In x (pomodoro_sessions s) ->
          in_history now days task_id user_id x = true ->
          In (PomodoroSession.id x) (map PomodoroSessionSchema.id l))
    /\ StronglySorted
         (fun a b => PomodoroSessionSchema.start_time b <= PomodoroSessionSchema.start_time a)
         l.
Proof.
  intros Hu Hfk Hcal. pose proof (find_user_id _ _ _ Hu) as Hid.
  unfold get_history.
  rewrite (authenticated_identity jwt_decode authorization user_id) by assumption.
  unfold try_except.
  unfold bind at 1. rewrite (timedelta_of_span now days s Hcal).
  unfold bind at 1. rewrite (datetime_sub_of_span now days s Hcal).
  unfold bind at 1. unfold get_store at 1.
  set (recent := order_by
         (fun a b => PomodoroSession.start_time b <=? PomodoroSession.start_time a)
         (filter (fun x => (PomodoroSession.user_id x =? user_id)
                           && (now - days * 86400 <=? PomodoroSession.start_time x))
                 (pomodoro_sessions s))).
  set (rows := if truthy task_id
               then filter (fun x => option_Z_eqb (PomodoroSession.task_id x) task_id) recent
               else recent).
  assert (Hrows : forall x, In x rows <->
                    In x (pomodoro_sessions s) /\ in_history now days task_id user_id x = true).
  { intros x. unfold rows, in_history. destruct (truthy task_id).
    - rewrite filter_In. unfold recent. rewrite in_order_by, filter_In.
      rewrite !andb_true_iff. tauto.
    - unfold recent. rewrite in_order_by, filter_In. rewrite !andb_true_iff. tauto. }
  set (task_of := fun x : PomodoroSession.t =>
                    match PomodoroSession.task_id x with
                    | Some i => find_task i s
                    | None => None
                    end).
  unfold bind at 1.
  rewrite (for_each_map _ (fun x => session_schema x (User.id user) (task_of x)
                                     (option_map from_database (PomodoroSession.end_time x)))
             rows s).
  2:{ intros x Hx. apply Hrows in Hx. destruct Hx as [Hin Hh].
      unfold in_history in Hh. rewrite !andb_true_iff in Hh.
      destruct Hh as [[Hxu _] _]. apply Z.eqb_eq in Hxu.
      unfold bind, related_user, related_task, objects_get, task_of. rewrite Hxu, Hu.
      destruct (PomodoroSession.task_id x) as [i|] eqn:Hi; [|reflexivity].
      destruct (Hfk x Hin i Hi) as [t Ht]. unfold bind, objects_get. now rewrite Ht. }
  eexists. split; [reflexivity|]. split; [|split].
  - intros b Hb. apply in_map_iff in Hb. destruct Hb as (x & <- & Hx).
    apply Hrows in Hx. destruct Hx as [Hin Hh].
    unfold in_history in Hh. rewrite !andb_true_iff in Hh.
    destruct Hh as [[Hxu Hxs] Hxt]. simpl. repeat split.
    + exact Hid.
    + now apply Z.leb_le.
    + intros Htr. rewrite Htr in Hxt. unfold task_of.
      destruct (PomodoroSession.task_id x) as [i|] eqn:Hi;
        destruct task_id as [j|]; simpl in Hxt; try discriminate.
      apply Z.eqb_eq in Hxt. subst j.
      destruct (Hfk x Hin i Hi) as [t Ht]. rewrite Ht. simpl.
      f_equal. now apply find_task_id in Ht.
  - intros x Hin Hh. rewrite map_map. simpl.
    apply in_map_iff. exists x. split; [reflexivity|]. apply Hrows. tauto.
  - apply strongly_sorted_map. simpl.
    assert (Hrecent : StronglySorted
              (fun a b => PomodoroSession.start_time b <= PomodoroSession.start_time a)
              recent) by apply strongly_sorted_order_by.
    unfold rows. destruct (truthy task_id); [now apply strongly_sorted_filter|exact Hrecent].
Qed.

End HistoryProofs.

Lemma st0_session_tasks_exist : session_tasks_exist st0.
Proof.
  intros x [<-|[]] i Hi. inversion Hi; subst i. eexists. reflexivity.
Defined.

Lemma get_history_own_recent_newest_first_witness :
  exists l,
    get_history sample_jwt_decode (101 * 86400) 7 None alice_header st0 = (inr (Body l), st0)
    /\ In 5 (map PomodoroSessionSchema.id l).
Proof.
  destruct (get_history_own_recent_newest_first sample_jwt_decode alice_header 1 eq_refl
              ltac:(discriminate) (101 * 86400) 7 None st0 alice eq_refl
              st0_session_tasks_exist ltac:(in_span)) as (l & Hl & _ & Hin & _).
  exists l. split; [exact Hl|].
  apply (Hin (sample_session 5 (Some 10) 100 false)); [now left | reflexivity].
Defined.

(** ** Session statistics *)

Lemma count_nonneg {A} (l : list A) : 0 <= count l.
Proof. unfold count. lia. Qed.

Lemma count_filter_le {A} (p : A -> bool) (l : list A) : count (filter p l) <= count l.
Proof.
  induction l as [|a l IH]; simpl; [lia|].
  destruct (p a); rewrite ?count_cons; lia.
Qed.

Lemma count_nil_iff {A} (l : list A) : count l = 0 <-> l = [].
Proof.
  split; [|intros ->; reflexivity].
  destruct l; [reflexivity|]. rewrite count_cons. pose proof (count_nonneg l). lia.
Qed.

(** The three session types count disjoint sets of completed sessions. *)
Lemma completed_types_le (l : list PomodoroSession.t) :
  count (completed_of "work" l) + count (completed_of "short_break" l)
  + count (completed_of "long_break" l)
  <= count (filter PomodoroSession.is_completed l).
Proof.
  unfold completed_of, is_type. induction l as [|a l IH]; simpl; [reflexivity|].
  destruct (PomodoroSession.is_completed a); rewrite ?andb_false_r, ?andb_true_r;
    [|exact IH].
  destruct (String.eqb_spec (PomodoroSession.type a) "work") as [E1|E1],
           (String.eqb_spec (PomodoroSession.type a) "short_break") as [E2|E2],
           (String.eqb_spec (PomodoroSession.type a) "long_break") as [E3|E3];
    try (exfalso; congruence); rewrite ?count_cons; lia.
Qed.

Lemma fold_max_by_count (r : list (Z * Z)) :
  forall x,
    let m := fold_left (fun best item => if snd item >? snd best then item else best) r x in
    (m = x \/ In m r) /\ snd x <= snd m /\ (forall y, In y r -> snd y <= snd m).
Proof.
  induction r as [|a r IH]; intros x; simpl.
  - repeat split; [now left | lia | tauto].
  - destruct (Z.gtb_spec (snd a) (snd x)) as [Hgt|Hle].
    + destruct (IH a) as (Hin & Hge & Hall). repeat split.
      * destruct Hin as [->|Hin]; right; [now left | now right].
      * lia.
      * intros y [<-|Hy]; [exact Hge | now apply Hall].
    + destruct (IH x) as (Hin & Hge & Hall). repeat split.
      * destruct Hin as [->|Hin]; [now left | right; now right].
      * exact Hge.
      * intros y [<-|Hy]; [lia | now apply Hall].
Qed.

Lemma max_by_count_spec (items : list (Z * Z)) :
  match max_by_count items with
  | None => items = []
  | Some m => In m items /\ forall y, In y items -> snd y <= snd m
  end.
Proof.
  destruct items as [|x r]; simpl; [reflexivity|].
  destruct (fold_max_by_count r x) as (Hin & Hge & Hall). split.
  - destruct Hin as [->|Hin]; [now left | now right].
  - intros y [<-|Hy]; [exact Hge | now apply Hall].
Qed.

Lemma group_count_nil_iff (l : list Z) : group_count Z.eqb l = [] <-> l = [].
Proof.
  split; [|intros ->; reflexivity].
  destruct l as [|x l]; [reflexivity|]. intros H. exfalso.
  assert (Hc : count_on (group_count Z.eqb (x :: l)) x = 0) by (now rewrite H).
  rewrite count_on_group_count in Hc. simpl in Hc. rewrite Z.eqb_refl, count_cons in Hc.
  pose proof (count_nonneg (filter (fun y => y =? x) l)). lia.
Qed.

Lemma count_filter_permutation {A} (p : A -> bool) (l l' : list A) :
  Permutation l l' -> count (filter p l) = count (filter p l').
Proof.
  induction 1 as [|x l l' _ IH|x y l|l l' l'' _ IH1 _ IH2]; simpl.
  - reflexivity.
  - destruct (p x); rewrite ?count_cons; lia.
  - destruct (p x), (p y); rewrite ?count_cons; lia.
  - lia.
Qed.

Lemma filter_ext_in_list {A} (p q : A -> bool) (l : list A) :
  (forall x, p x = q x) -> filter p l = filter q l.
Proof. intros H. induction l as [|a l IH]; simpl; [reflexivity|]. now rewrite H, IH. Qed.

Lemma first_met_of_ranking : first_of_ranking first_met.
Proof.
  intros rows. unfold first_met.
  pose proof (permutation_order_by (fun a b : option Z * Z => snd b <=? snd a) rows) as Hp.
  pose proof (strongly_sorted_order_by (A := option Z * Z) snd rows) as Hs.
  destruct (order_by (fun a b : option Z * Z => snd b <=? snd a) rows) as [|r l]; simpl.
  - apply Permutation_nil. now apply Permutation_sym.
  - split.
    + apply (Permutation_in r Hp). now left.
    + intros y Hy. apply (Permutation_in y (Permutation_sym Hp)) in Hy.
      inversion Hs as [|? ? _ Hall]; subst.
      destruct Hy as [<-|Hy]; [lia|].
      rewrite Forall_forall in Hall. now apply Hall.
Defined.

Section StatsProofs.

Variable jwt_decode : string -> option (option Z).
Variable authorization : option string.
Variable user_id : Z.
Hypothesis token_accepted :
  get_user_id_from_token jwt_decode authorization = Some user_id.
Hypothesis user_id_truthy : user_id <> 0.

Lemma in_stats_sessions s start_date x :
  In x (stats_sessions s user_id start_date) -> In x (pomodoro_sessions s).
Proof.
  unfold stats_sessions. rewrite in_order_by, filter_In. tauto.
Qed.

(** [get_stats] answers with a body when the span lies in the calendar,
    the tasks of the sessions exist and the database returns a row of the
    ranking; its fields are the expressions of the source. *)
Lemma get_stats_returns first_row now days s :
  session_tasks_exist s ->
  span_in_calendar now days ->
  first_of_ranking first_row ->
  let sessions := stats_sessions s user_id (now - days * 86400) in
  exists b,
    get_stats jwt_decode first_row now days authorization s = (inr (Body b), s)
    /\ PomodoroStatsSchema.total_sessions b = count sessions
    /\ PomodoroStatsSchema.total_completed b
       = count (filter PomodoroSession.is_completed sessions)
    /\ PomodoroStatsSchema.total_minutes b
       = sum_or_0 (map PomodoroSession.duration
                       (filter PomodoroSession.is_completed sessions)) / 60
    /\ PomodoroStatsSchema.work_sessions b = count (completed_of "work" sessions)
    /\ PomodoroStatsSchema.short_break_sessions b
       = count (completed_of "short_break" sessions)
    /\ PomodoroStatsSchema.long_break_sessions b
       = count (completed_of "long_break" sessions)
    /\ PomodoroStatsSchema.completion_rate b
       = (if count sessions >? 0
          then Round (count (filter PomodoroSession.is_completed sessions))
                     (count sessions) 2
          else Int 0)
    /\ PomodoroStatsSchema.most_productive_day b
       = option_map fst
           (max_by_count
              (group_count Z.eqb
                 (map (fun x => utc_date (PomodoroSession.start_time x))
                      (completed_of "work" sessions)))).
Proof.
  intros Hfk Hcal Hfirst sessions. unfold get_stats.
  rewrite (authenticated_identity jwt_decode authorization user_id) by assumption.
  unfold try_except.
  unfold bind at 1. rewrite (timedelta_of_span now days s Hcal).
  unfold bind at 1. rewrite (datetime_sub_of_span now days s Hcal).
  unfold bind at 1. unfold get_store at 1. fold sessions.
  unfold bind at 1.
  destruct (filter (fun x => is_some (PomodoroSession.task_id x))
                   (completed_of "work" sessions)) as [|x0 linked] eqn:Hl.
  - eexists. split; [reflexivity|]. repeat split.
  - pose proof (Hfirst (group_count option_Z_eqb
                          (map PomodoroSession.task_id (x0 :: linked)))) as Hrow.
    destruct (first_row (group_count option_Z_eqb
                           (map PomodoroSession.task_id (x0 :: linked))))
      as [[key c]|].
    + destruct Hrow as [Hin _].
      apply group_count_keys in Hin.
      apply in_map_iff in Hin. destruct Hin as (x & Hx & Hin).
      rewrite <- Hl in Hin.
      apply filter_In in Hin. destruct Hin as [Hin Hsome].
      apply filter_In in Hin. destruct Hin as [Hin _].
      apply in_stats_sessions in Hin.
      destruct key as [tid|].
      * destruct (Hfk x Hin tid Hx) as [t0 Ht0].
        unfold bind, objects_get. rewrite Ht0.
        eexists. split; [reflexivity|]. repeat split.
      * rewrite Hx in Hsome. discriminate Hsome.
    + eexists. split; [reflexivity|]. repeat split.
Qed.

Lemma count_stats_sessions (p : PomodoroSession.t -> bool) s start_date :
  count (filter p (stats_sessions s user_id start_date))
  = count (filter (fun x => (PomodoroSession.user_id x =? user_id)
                            && (start_date <=? PomodoroSession.start_time x)
                            && p x)
                  (pomodoro_sessions s)).
Proof.
  unfold stats_sessions.
  rewrite (count_filter_permutation p _ _ (permutation_order_by _ _)).
  now rewrite filter_filter.
Qed.

Lemma count_all_stats_sessions s start_date :
  count (stats_sessions s user_id start_date)
  = count (filter (fun x => (PomodoroSession.user_id x =? user_id)
                            && (start_date <=? PomodoroSession.start_time x))
                  (pomodoro_sessions s)).
Proof.
  unfold stats_sessions, count.
  now rewrite (Permutation_length (permutation_order_by _ _)).
Qed.

Lemma sessions_since_zero s now days :
  ~ session_since s user_id now days <-> sessions_since s user_id now days = 0.
Proof.
  unfold session_since, sessions_since. rewrite count_nil_iff. split.
  - intros Hno.
    destruct (filter _ (pomodoro_sessions s)) as [|x l] eqn:E; [reflexivity|].
    exfalso. apply Hno.
    assert (Hx : In x (x :: l)) by (now left). rewrite <- E in Hx.
    apply filter_In in Hx. destruct Hx as [Hin Hp].
    apply andb_true_iff in Hp. destruct Hp as [Hu Ht].
    exists x. split; [exact Hin|]. split; [now apply Z.eqb_eq | now apply Z.leb_le].
  - intros E (x & Hin & Hu & Ht).
    assert (Hx : In x (filter
                         (fun x => (PomodoroSession.user_id x =? user_id)
                                   && (now - days * 86400 <=? PomodoroSession.start_time x))
                         (pomodoro_sessions s))).
    { apply filter_In. split; [exact Hin|]. apply andb_true_iff.
      split; [now apply Z.eqb_eq | now apply Z.leb_le]. }
    rewrite E in Hx. contradiction.
Qed.

(** X9. For a span of [days] days inside the calendar, the statistics
    count the caller's sessions that started in the span: their number,
    and the number of the completed ones, which is at most the former and
    at least the sum of the three per-type counts; the completion rate is
    the integer 0, not a division, when the caller has no session in the
    span, and the quotient of the two numbers otherwise. *)
Theorem get_stats_counts_are_consistent first_row now days s :
  session_tasks_exist s ->
  span_in_calendar now days ->
  first_of_ranking first_row ->
  exists b,
    get_stats jwt_decode first_row now days authorization s = (inr (Body b), s)
    /\ PomodoroStatsSchema.total_sessions b = sessions_since s user_id now days
    /\ PomodoroStatsSchema.total_completed b = completed_since s user_id now days
    /\ 0 <= PomodoroStatsSchema.total_completed b <= PomodoroStatsSchema.total_sessions b
    /\ PomodoroStatsSchema.work_sessions b + PomodoroStatsSchema.short_break_sessions b
       + PomodoroStatsSchema.long_break_sessions b
       <= PomodoroStatsSchema.total_completed b
    /\ (~ session_since s user_id now days ->
        PomodoroStatsSchema.completion_rate b = Int 0
        /\ PomodoroStatsSchema.total_minutes b = 0
        /\ PomodoroStatsSchema.most_productive_day b = None)
    /\ (session_since s user_id now days ->
        PomodoroStatsSchema.completion_rate b
        = Round (completed_since s user_id now days) (sessions_since s user_id now days) 2).
Proof.
  intros Hfk Hcal Hfirst.
  destruct (get_stats_returns first_row now days s Hfk Hcal Hfirst)
    as (b & Hb & Ht & Hc & Hm & Hw & Hs & Hl & Hr & Hd).
  exists b. split; [exact Hb|].
  rewrite Ht, Hc, Hm, Hw, Hs, Hl, Hr, Hd.
  set (sessions := stats_sessions s user_id (now - days * 86400)).
  assert (Hall : count sessions = sessions_since s user_id now days)
    by apply count_all_stats_sessions.
  assert (Hdone : count (filter PomodoroSession.is_completed sessions)
                  = completed_since s user_id now days)
    by apply count_stats_sessions.
  split; [exact Hall|]. split; [exact Hdone|].
  split; [split; [apply count_nonneg | apply count_filter_le]|].
  split; [apply completed_types_le|]. split.
  - intros Hno. apply sessions_since_zero in Hno. rewrite <- Hall in Hno.
    apply count_nil_iff in Hno. rewrite Hno. repeat split.
  - intros Hsome. rewrite Hdone, Hall.
    destruct (Z.gtb_spec (sessions_since s user_id now days) 0); [reflexivity|].
    exfalso. apply (proj2 (sessions_since_zero s now days)); [|exact Hsome].
    pose proof (count_nonneg sessions). lia.
Qed.

Lemma completed_work_since_on_counts s now days d :
  completed_work_since_on s user_id now days d
  = count (filter (fun x => utc_date (PomodoroSession.start_time x) =? d)
                  (completed_of "work" (stats_sessions s user_id (now - days * 86400)))).
Proof.
  unfold completed_work_since_on, completed_of, is_type.
  rewrite filter_filter, count_stats_sessions. f_equal.
  apply filter_ext_in_list. intros x.
  destruct (PomodoroSession.user_id x =? user_id),
           (now - days * 86400 <=? PomodoroSession.start_time x),
           (String.eqb (PomodoroSession.type x) "work"),
           (PomodoroSession.is_completed x),
           (utc_date (PomodoroSession.start_time x) =? d); reflexivity.
Qed.

Lemma completed_work_since_iff s now days :
  completed_work_since s user_id now days
  <-> completed_of "work" (stats_sessions s user_id (now - days * 86400)) <> [].
Proof.
  unfold completed_work_since, completed_of, is_type, stats_sessions. split.
  - intros (x & Hin & Hu & Ht & Hw & Hc) E.
    assert (Hx : In x (filter (fun x => String.eqb (PomodoroSession.type x) "work"
                                        && PomodoroSession.is_completed x)
                         (order_by
                            (fun a b => PomodoroSession.start_time b
                                        <=? PomodoroSession.start_time a)
                            (filter (fun x => (PomodoroSession.user_id x =? user_id)
                                              && (now - days * 86400
                                                  <=? PomodoroSession.start_time x))
                                    (pomodoro_sessions s))))).
    { apply filter_In. split.
      - apply in_order_by. apply filter_In. split; [exact Hin|].
        apply andb_true_iff. split; [now apply Z.eqb_eq | now apply Z.leb_le].
      - apply andb_true_iff. split; [now apply String.eqb_eq | exact Hc]. }
    rewrite E in Hx. contradiction.
  - intros Hne.
    destruct (filter _ (order_by _ _)) as [|x l] eqn:E; [contradiction|].
    assert (Hx : In x (x :: l)) by (now left). rewrite <- E in Hx.
    apply filter_In in Hx. destruct Hx as [Hin Hp].
    apply in_order_by in Hin. apply filter_In in Hin. destruct Hin as [Hin Hq].
    apply andb_true_iff in Hp, Hq. destruct Hp as [Hw Hc], Hq as [Hu Ht].
    exists x. split; [exact Hin|].
    split; [now apply Z.eqb_eq|]. split; [now apply Z.leb_le|].
    split; [now apply String.eqb_eq | exact Hc].
Qed.

(** X10. For a span of [days] days inside the calendar, the most
    productive day is a day of greatest count: it is reported exactly when
    the caller completed a work session that started in the span, and then
    the caller completed at least one such session on that UTC day and on
    no day more. *)
Theorem get_stats_most_productive_day_is_greatest first_row now days s :
  session_tasks_exist s ->
  span_in_calendar now days ->
  first_of_ranking first_row ->
  exists b,
    get_stats jwt_decode first_row now days authorization s = (inr (Body b), s)
    /\ (PomodoroStatsSchema.most_productive_day b = None
        <-> ~ completed_work_since s user_id now days)
    /\ forall d, PomodoroStatsSchema.most_productive_day b = Some d ->
         1 <= completed_work_since_on s user_id now days d
         /\ forall d', completed_work_since_on s user_id now days d'
                       <= completed_work_since_on s user_id now days d.
Proof.
  intros Hfk Hcal Hfirst.
  destruct (get_stats_returns first_row now days s Hfk Hcal Hfirst)
    as (b & Hb & _ & _ & _ & _ & _ & _ & _ & Hd).
  exists b. split; [exact Hb|]. rewrite Hd.
  rewrite completed_work_since_iff.
  set (work := completed_of "work" (stats_sessions s user_id (now - days * 86400))).
  set (days_of := map (fun x => utc_date (PomodoroSession.start_time x)) work).
  assert (Hon : forall d, completed_work_since_on s user_id now days d
                          = count_on (group_count Z.eqb days_of) d).
  { intros d. rewrite completed_work_since_on_counts. fold work.
    rewrite count_on_group_count. unfold days_of.
    now rewrite filter_map_eq, count_map. }
  pose proof (max_by_count_spec (group_count Z.eqb days_of)) as Hmax.
  destruct (max_by_count (group_count Z.eqb days_of)) as [[d c]|] eqn:Hm; simpl.
  - destruct Hmax as [Hin Hall].
    assert (Hc : count_on (group_count Z.eqb days_of) d = c)
      by (apply count_on_in; [apply nodup_group_count | exact Hin]).
    assert (Hpos : 1 <= c).
    { rewrite <- Hc, count_on_group_count.
      assert (Hd' : In d days_of)
        by (apply (group_count_keys Z.eqb days_of d c); exact Hin).
      clear - Hd'. induction days_of as [|a l IH]; [contradiction|]. simpl.
      destruct (Z.eqb_spec a d) as [E|E].
      - rewrite count_cons. pose proof (count_nonneg (filter (fun x => x =? d) l)). lia.
      - destruct Hd' as [E'|Hd']; [contradiction | now apply IH]. }
    split.
    + split; [discriminate|]. intros H0. exfalso. apply H0. intros E.
      unfold days_of in Hin. rewrite E in Hin. contradiction.
    + intros d0 Hd0. inversion Hd0; subst d0. rewrite !Hon, Hc. split; [exact Hpos|].
      intros d'. rewrite Hon.
      destruct (in_dec Z.eq_dec d' (map fst (group_count Z.eqb days_of))) as [Hi|Hni].
      * apply in_map_iff in Hi. destruct Hi as ([k c'] & Hk & Hi). simpl in Hk. subst k.
        rewrite (count_on_in _ d' c' (nodup_group_count days_of) Hi).
        exact (Hall _ Hi).
      * rewrite (count_on_not_in _ d' Hni). lia.
  - apply group_count_nil_iff in Hmax. split.
    + split; [|reflexivity]. intros _ Hne. apply Hne.
      unfold days_of in Hmax. now apply map_eq_nil in Hmax.
    + intros d Hd0. discriminate Hd0.
Qed.

End StatsProofs.

Lemma busy_session_tasks_exist : session_tasks_exist busy_store.
Proof. intros x [<-|[<-|[<-|[]]]] i Hi; discriminate Hi. Defined.

Lemma get_stats_counts_are_consistent_witness :
  exists b,
    get_stats sample_jwt_decode first_met (201 * 86400) 30 alice_header busy_store
    = (inr (Body b), busy_store)
    /\ PomodoroStatsSchema.total_sessions b = 3
    /\ PomodoroStatsSchema.total_completed b = 3.
Proof.
  destruct (get_stats_counts_are_consistent sample_jwt_decode alice_header 1 eq_refl
              ltac:(discriminate) first_met (201 * 86400) 30 busy_store
              busy_session_tasks_exist ltac:(in_span) first_met_of_ranking)
    as (b & Hb & Ht & Hc & _).
  exists b. split; [exact Hb|]. split; [exact Ht | exact Hc].
Defined.

Lemma get_stats_most_productive_day_is_greatest_witness :
  exists b,
    get_stats sample_jwt_decode first_met (201 * 86400) 30 alice_header busy_store
    = (inr (Body b), busy_store)
    /\ forall d, PomodoroStatsSchema.most_productive_day b = Some d ->
         completed_work_since_on busy_store 1 (201 * 86400) 30 200
         <= completed_work_since_on busy_store 1 (201 * 86400) 30 d.
Proof.
  destruct (get_stats_most_productive_day_is_greatest sample_jwt_decode alice_header 1
              eq_refl ltac:(discriminate) first_met (201 * 86400) 30 busy_store
              busy_session_tasks_exist ltac:(in_span) first_met_of_ranking)
    as (b & Hb & _ & H).
  exists b. split; [exact Hb|]. intros d Hd. exact (proj2 (H d Hd) 200).
Defined.

(** ** Updating a task *)

Lemma find_other_key_saved now j s task' :
  Task.id task' <> j ->
  find_task j (snd (save_task now task' s)) = find_task j s.
Proof.
  intros Hne. unfold find_task. simpl.
  apply find_replace_miss with (same := fun r => Task.id r =? Task.id task').
  - intros r Hr. apply Z.eqb_eq in Hr. apply Z.eqb_neq. congruence.
  - simpl. now apply Z.eqb_neq.
Qed.

Lemma nodup_map_injective {A} (f : A -> Z) (l : list A) (a b : A) :
  NoDup (map f l) -> In a l -> In b l -> f a = f b -> a = b.
Proof.
  induction l as [|x l IH]; simpl; intros Hnd Ha Hb Hf; [contradiction|].
  inversion Hnd as [|? ? Hnotin Hnd']; subst.
  destruct Ha as [->|Ha], Hb as [->|Hb]; try reflexivity.
  - exfalso. apply Hnotin. rewrite Hf. now apply in_map.
  - exfalso. apply Hnotin. rewrite <- Hf. now apply in_map.
  - now apply IH.
Qed.

Section UpdateProofs.

Variable jwt_decode : string -> option (option Z).
Variable authorization : option string.
Variable user_id : Z.
Hypothesis token_accepted :
  get_user_id_from_token jwt_decode authorization = Some user_id.
Hypothesis user_id_truthy : user_id <> 0.

(** The store that a successful [update_task] leaves. *)
Lemma update_task_result now task_id data s task :
  owned_task task_id user_id s = Some task ->
  category_accepted data user_id s ->
  let task2 := set_category (update_fields task data) (updated_category data task) in
  let s1 := match TaskUpdateSchema.tag_ids data with
            | Some ids => snd (set_tags task_id ids user_id s)
            | None => s
            end in
  snd (update_task jwt_decode now task_id data authorization s)
  = snd (save_task now task2 s1).
Proof.
  intros Hown Hcat task2 s1.
  destruct (owned_task_found user_id _ _ _ Hown) as [Hid _].
  unfold update_task.
  rewrite (authenticated_identity jwt_decode authorization user_id) by assumption.
  rewrite snd_bind, (get_object_or_404_found _ _ _ Hown). simpl fst. simpl snd.
  cbv iota beta.
  assert (Hstep :
    (match TaskUpdateSchema.category_id data with
     | Some c =>
         if c =? 0 then ret (set_category (update_fields task data) None)
         else
           category <- get_object_or_404 (owned_category c user_id) ;;
           ret (set_category (update_fields task data) (Some (Category.id category)))
     | None => ret (update_fields task data)
     end) s = (inr task2, s)).
  { unfold task2, updated_category, category_accepted in *.
    destruct (TaskUpdateSchema.category_id data) as [c|].
    - destruct (Z.eqb_spec c 0) as [E|E]; [reflexivity|].
      destruct Hcat as [Hc|[category Hc]]; [contradiction|].
      unfold bind. rewrite (get_object_or_404_found _ _ _ Hc).
      pose proof (find_some_holds _ _ _ Hc) as Hp.
      apply andb_true_iff in Hp. destruct Hp as [Hp _]. apply Z.eqb_eq in Hp.
      now rewrite Hp.
    - unfold ret. destruct task; reflexivity. }
  rewrite snd_bind, Hstep. simpl fst. simpl snd. cbv iota beta.
  rewrite snd_bind.
  assert (Htags :
    (match TaskUpdateSchema.tag_ids data with
     | Some ids => set_tags (Task.id task2) ids user_id
     | None => ret tt
     end) s = (inr tt, s1)).
  { unfold s1. change (Task.id task2) with (Task.id task). rewrite Hid.
    destruct (TaskUpdateSchema.tag_ids data); reflexivity. }
  rewrite Htags. simpl fst. simpl snd. cbv iota beta.
  rewrite snd_bind. simpl fst. cbv iota beta.
  rewrite snd_bind.
  pose proof (read_only_describe_task (touch now task2)) as Hro.
  match goal with
  | |- context [describe_task (touch now task2) ?st] =>
      rewrite (Hro st); destruct (fst (describe_task (touch now task2) st))
  end; reflexivity.
Qed.

(** X11. An update is partial (the values supplied fitting their
    columns): a field that the request does not supply
    keeps its value, a supplied one takes the new value; the key, the
    owner and the creation time never change, [updated_at] becomes the
    time of the request, and no other task is touched.  The category stays
    when none is supplied, is cleared by the sentinel [0] and is replaced
    otherwise. *)
Theorem update_task_changes_only_supplied_fields now task_id data s task :
  owned_task task_id user_id s = Some task ->
  category_accepted data user_id s ->
  fits_columns data ->
  let s' := snd (update_task jwt_decode now task_id data authorization s) in
  (exists t',
     find_task task_id s' = Some t'
     /\ Task.title t' = supplied (TaskUpdateSchema.title data) (Task.title task)
     /\ Task.description t'
        = match TaskUpdateSchema.description data with
          | Some d => Some d
          | None => Task.description task
          end
     /\ Task.status t' = supplied (TaskUpdateSchema.status data) (Task.status task)
     /\ Task.priority t' = supplied (TaskUpdateSchema.priority data) (Task.priority task)
     /\ Task.due_date t'
        = match TaskUpdateSchema.due_date data with
          | Some d => Some d
          | None => Task.due_date task
          end
     /\ Task.estimated_pomodoros t'
        = supplied (TaskUpdateSchema.estimated_pomodoros data)
                   (Task.estimated_pomodoros task)
     /\ Task.completed_pomodoros t'
        = supplied (TaskUpdateSchema.completed_pomodoros data)
                   (Task.completed_pomodoros task)
     /\ Task.category_id t' = updated_category data task
     /\ Task.id t' = Task.id task
     /\ Task.user_id t' = Task.user_id task
     /\ Task.created_at t' = Task.created_at task
     /\ Task.updated_at t' = now)
  /\ (forall j, j <> task_id -> find_task j s' = find_task j s)
  /\ (TaskUpdateSchema.tag_ids data = None -> task_tags s' = task_tags s).
Proof.
  intros Hown Hcat _ s'. subst s'.
  rewrite (update_task_result now task_id data s task Hown Hcat).
  destruct (owned_task_found user_id _ _ _ Hown) as [Hid [y Hy]].
  set (task2 := set_category (update_fields task data) (updated_category data task)).
  set (s1 := match TaskUpdateSchema.tag_ids data with
             | Some ids => snd (set_tags task_id ids user_id s)
             | None => s
             end).
  assert (Htasks : forall j, find_task j s1 = find_task j s)
    by (intros j; unfold s1; destruct (TaskUpdateSchema.tag_ids data); reflexivity).
  split; [|split].
  - exists (touch now task2). split.
    + apply (find_task_saved now task_id s1 y); [now rewrite Htasks|].
      apply find_task_id in Hy. now rewrite Hy.
    + repeat split.
  - intros j Hj. rewrite find_other_key_saved by (simpl; congruence). apply Htasks.
  - intros Hnone. unfold s1. rewrite Hnone. reflexivity.
Qed.

(** X12. An update that names a category which is not a category of the
    caller writes nothing, whatever else it supplies: the store is left
    as it was and the request is answered 404. *)
Theorem update_task_foreign_category_writes_nothing now task_id data s task c :
  owned_task task_id user_id s = Some task ->
  TaskUpdateSchema.category_id data = Some c ->
  c <> 0 ->
  owned_category c user_id s = None ->
  run_operation (update_task jwt_decode now task_id data authorization) s
  = (Error 404, s).
Proof.
  intros Hown Hc Hnz Hcat. unfold run_operation, update_task.
  rewrite (authenticated_identity jwt_decode authorization user_id) by assumption.
  unfold bind at 1. rewrite (get_object_or_404_found _ _ _ Hown).
  unfold bind at 1. rewrite Hc.
  destruct (Z.eqb_spec c 0); [contradiction|].
  unfold bind at 1. unfold get_object_or_404. rewrite Hcat. reflexivity.
Qed.

(** X13. Supplying [tag_ids] replaces the tags of the task: afterwards
    the task carries exactly the caller's own tags among the identifiers
    given (identifiers of other users' tags or of no tag are dropped
    without an error), and the tags of every other task are as before. *)
Theorem update_task_replaces_tags now task_id data s task ids :
  owned_task task_id user_id s = Some task ->
  category_accepted data user_id s ->
  fits_columns data ->
  TaskUpdateSchema.tag_ids data = Some ids ->
  NoDup (map Tag.id (tags s)) ->
  let s' := snd (update_task jwt_decode now task_id data authorization s) in
  tags_of task_id s'
  = filter (fun g => existsb (Z.eqb (Tag.id g)) ids && (Tag.user_id g =? user_id)) (tags s)
  /\ forall j, j <> task_id -> tags_of j s' = tags_of j s.
Proof.
  intros Hown Hcat _ Hids Hnd s'. subst s'.
  rewrite (update_task_result now task_id data s task Hown Hcat). rewrite Hids.
  unfold tags_of. simpl. split.
  - apply filter_ext_in. intros g Hg. rewrite existsb_app.
    match goal with |- (?a || ?b)%bool = _ => assert (Ha : a = false) end.
    { apply not_true_iff_false. intros H. apply existsb_exists in H.
      destruct H as (p & Hp & Hpp). apply filter_In in Hp. destruct Hp as [_ Hp].
      apply andb_true_iff in Hpp. destruct Hpp as [Hpp _]. rewrite Hpp in Hp.
      discriminate. }
    rewrite Ha. simpl.
    destruct (existsb (Z.eqb (Tag.id g)) ids && (Tag.user_id g =? user_id)) eqn:Hfound.
    + apply existsb_exists. exists (task_id, Tag.id g). split.
      * apply in_map_iff. exists g. split; [reflexivity|].
        apply filter_In. split; assumption.
      * simpl. now rewrite !Z.eqb_refl.
    + apply not_true_iff_false. intros H. apply existsb_exists in H.
      destruct H as (p & Hp & Hpp). apply in_map_iff in Hp.
      destruct Hp as (g' & <- & Hg'). apply filter_In in Hg'. destruct Hg' as [Hin' Hf'].
      simpl in Hpp. apply andb_true_iff in Hpp. destruct Hpp as [_ Hpp].
      apply Z.eqb_eq in Hpp.
      assert (g' = g) by (apply (nodup_map_injective Tag.id (tags s)); assumption).
      subst g'. congruence.
  - intros j Hj. apply filter_ext. intros g. rewrite existsb_app.
    match goal with |- (_ || ?b)%bool = _ => assert (Hb : b = false) end.
    { apply not_true_iff_false. intros H. apply existsb_exists in H.
      destruct H as (p & Hp & Hpp). apply in_map_iff in Hp.
      destruct Hp as (g' & <- & _). simpl in Hpp.
      apply andb_true_iff in Hpp. destruct Hpp as [Hpp _]. apply Z.eqb_eq in Hpp.
      congruence. }
    rewrite Hb, orb_false_r.
    induction (task_tags s) as [|p l IH]; simpl; [reflexivity|].
    destruct (Z.eqb_spec (fst p) task_id) as [E|E]; simpl.
    + rewrite E. destruct (Z.eqb_spec task_id j); [congruence|]. simpl. exact IH.
    + now rewrite IH.
Qed.

End UpdateProofs.

Lemma update_task_changes_only_supplied_fields_witness :
  exists t',
    find_task 10 (snd (update_task sample_jwt_decode 9 10 (category_update 0)
                         alice_header st0)) = Some t'
    /\ Task.title t' = "Moved"
    /\ Task.priority t' = "high"
    /\ Task.category_id t' = None
    /\ Task.updated_at t' = 9.
Proof.
  pose proof (update_task_changes_only_supplied_fields sample_jwt_decode alice_header 1
                eq_refl ltac:(discriminate) 9 10 (category_update 0) st0
                (sample_task 10 "high" 0) eq_refl (or_introl eq_refl)
                ltac:(unfold fits_columns; repeat apply conj; intros x E; inversion E;
                      simpl; lia)) as H.
  cbv zeta in H.
  destruct H as ((t' & Hf & Ht & _ & _ & Hp & _ & _ & _ & Hc & _ & _ & _ & Hu) & _).
  exists t'. repeat split; assumption.
Defined.

Lemma update_task_foreign_category_writes_nothing_witness :
  run_operation (update_task sample_jwt_decode 9 10 (category_update 7) alice_header) st0
  = (Error 404, st0).
Proof.
  exact (update_task_foreign_category_writes_nothing sample_jwt_decode alice_header 1
           eq_refl ltac:(discriminate) 9 10 (category_update 7) st0
           (sample_task 10 "high" 0) 7 eq_refl eq_refl ltac:(discriminate) eq_refl).
Defined.

Lemma update_task_replaces_tags_witness :
  map Tag.id
    (tags_of 10 (snd (update_task sample_jwt_decode 9 10 (tags_update [2; 3; 99])
                        alice_header tag_store)))
  = [2].
Proof.
  pose proof (update_task_replaces_tags sample_jwt_decode alice_header 1
                eq_refl ltac:(discriminate) 9 10 (tags_update [2; 3; 99]) tag_store
                (sample_task 10 "high" 0) [2; 3; 99] eq_refl I
                ltac:(unfold fits_columns; repeat apply conj; intros x E;
                      discriminate E) eq_refl
                ltac:(repeat constructor; simpl; intuition discriminate)) as H.
  cbv zeta in H. destruct H as [H _]. rewrite H. reflexivity.
Defined.

(** ** Deleting tasks, categories and tags *)

Lemma find_filter_kept {A} (p keep : A -> bool) (l : list A) :
  (forall r, p r = true -> keep r = true) ->
  find p (filter keep l) = find p l.
Proof.
  intros H. induction l as [|a l IH]; simpl; [reflexivity|].
  destruct (keep a) eqn:Hk; simpl.
  - now rewrite IH.
  - destruct (p a) eqn:Hp; [|exact IH].
    rewrite (H a Hp) in Hk. discriminate.
Qed.

Lemma existsb_filter_kept {A} (q keep : A -> bool) (l : list A) :
  (forall r, q r = true -> keep r = true) ->
  existsb q (filter keep l) = existsb q l.
Proof.
  intros H. induction l as [|a l IH]; simpl; [reflexivity|].
  destruct (keep a) eqn:Hk; simpl.
  - now rewrite IH.
  - destruct (q a) eqn:Hq; [|exact IH].
    rewrite (H a Hq) in Hk. discriminate.
Qed.

Section DeleteProofs.

Variable jwt_decode : string -> option (option Z).
Variable authorization : option string.
Variable user_id : Z.
Hypothesis token_accepted :
  get_user_id_from_token jwt_decode authorization = Some user_id.
Hypothesis user_id_truthy : user_id <> 0.



(** X15. Deleting a category deletes no task: the category is gone, the
    other categories stay, and the task table holds the same tasks in the
    same order, each one either unchanged or, when it was in the category,
    changed in its category reference only (which becomes null, with
    [updated_at] left as it was).  No task refers to the deleted category
    afterwards. *)
Theorem delete_category_keeps_tasks category_id s category :
  owned_category category_id user_id s = Some category ->
  let s' := snd (delete_category jwt_decode category_id authorization s) in
  find_category category_id s' = None
  /\ (forall j, j <> category_id -> find_category j s' = find_category j s)
  /\ Forall2 (fun t t' =>
                t' = t
                \/ (Task.category_id t = Some category_id /\ t' = set_category t None))
             (tasks s) (tasks s')
  /\ (forall t, In t (tasks s') -> Task.category_id t <> Some category_id)
  /\ pomodoro_sessions s' = pomodoro_sessions s
  /\ task_tags s' = task_tags s.
Proof.
  intros Hown s'.
  assert (Hid : Category.id category = category_id).
  { apply find_some_holds in Hown. apply andb_true_iff in Hown.
    now apply Z.eqb_eq. }
  assert (Hs' : s' =
    {| users := users s; user_settings := user_settings s;
       categories :=
         filter (fun r => negb (Category.id r =? category_id)) (categories s);
       tags := tags s;
       tasks :=
         map (fun t => if option_Z_eqb (Task.category_id t) (Some category_id)
                       then set_category t None else t)
             (tasks s);
       task_tags := task_tags s; pomodoro_sessions := pomodoro_sessions s;
       next_session_id := next_session_id s |}).
  { unfold s', delete_category.
    rewrite (authenticated_identity jwt_decode authorization user_id) by assumption.
    unfold bind. rewrite (get_object_or_404_found _ _ _ Hown). simpl.
    now rewrite Hid. }
  clearbody s'. subst s'. simpl. repeat split.
  - unfold find_category. simpl.
    apply (find_filter_gone _ (fun r => Category.id r =? category_id)). tauto.
  - intros j Hj. unfold find_category. simpl. apply find_filter_kept.
    intros r Hr. apply Z.eqb_eq in Hr. apply negb_true_iff, Z.eqb_neq. congruence.
  - induction (tasks s) as [|t l IH]; simpl; constructor; [|exact IH].
    destruct (option_Z_eqb (Task.category_id t) (Some category_id)) eqn:E;
      [right|now left].
    split; [|reflexivity].
    destruct (Task.category_id t) as [i|]; [|discriminate].
    simpl in E. apply Z.eqb_eq in E. now subst.
  - intros t Ht. apply in_map_iff in Ht. destruct Ht as (y & <- & _).
    destruct (option_Z_eqb (Task.category_id y) (Some category_id)) eqn:E;
      [discriminate|].
    intros Hy. rewrite Hy in E. simpl in E. rewrite Z.eqb_refl in E. discriminate.
Qed.

(** X16. Deleting a tag detaches it and nothing else: no task is changed,
    and every task carries afterwards the tags it carried before except
    the deleted one. *)
Theorem delete_tag_detaches_only_that_tag tag_id s tag :
  owned_tag tag_id user_id s = Some tag ->
  let s' := snd (delete_tag jwt_decode tag_id authorization s) in
  tasks s' = tasks s
  /\ forall j,
       tags_of j s' = filter (fun g => negb (Tag.id g =? tag_id)) (tags_of j s).
Proof.
  intros Hown s'.
  assert (Hid : Tag.id tag = tag_id).
  { apply find_some_holds in Hown. apply andb_true_iff in Hown.
    now apply Z.eqb_eq. }
  assert (Hs' : s' =
    {| users := users s; user_settings := user_settings s;
       categories := categories s;
       tags := filter (fun r => negb (Tag.id r =? tag_id)) (tags s);
       tasks := tasks s;
       task_tags := filter (fun p => negb (snd p =? tag_id)) (task_tags s);
       pomodoro_sessions := pomodoro_sessions s;
       next_session_id := next_session_id s |}).
  { unfold s', delete_tag.
    rewrite (authenticated_identity jwt_decode authorization user_id) by assumption.
    unfold bind. rewrite (get_object_or_404_found _ _ _ Hown). simpl.
    now rewrite Hid. }
  clearbody s'. subst s'. split; [reflexivity|].
  intros j. unfold tags_of. simpl.
  induction (tags s) as [|g l IH]; simpl; [reflexivity|].
  destruct (Z.eqb_spec (Tag.id g) tag_id) as [E|E]; simpl.
  - rewrite IH.
    destruct (existsb _ (task_tags s)); simpl; [|reflexivity].
    destruct (Z.eqb_spec (Tag.id g) tag_id); [reflexivity|contradiction].
  - rewrite existsb_filter_kept.
    + destruct (existsb _ (task_tags s)); simpl; [|exact IH].
      destruct (Z.eqb_spec (Tag.id g) tag_id); [contradiction|]. simpl. now rewrite IH.
    + intros p Hp. apply andb_true_iff in Hp. destruct Hp as [_ Hp].
      apply Z.eqb_eq in Hp. apply negb_true_iff, Z.eqb_neq. congruence.
Qed.

(** X17. A task that is not a task of the caller (another user's, or none
    at all) is refused alike by every route that addresses a task: reading,
    updating, deleting and completing it answer 404 and leave the store as
    it was. *)
Theorem task_routes_refuse_foreign_task now task_id data s :
  owned_task task_id user_id s = None ->
  run_operation (get_task jwt_decode task_id authorization) s = (Error 404, s)
  /\ run_operation (update_task jwt_decode now task_id data authorization) s
     = (Error 404, s)
  /\ run_operation (delete_task jwt_decode task_id authorization) s = (Error 404, s)
  /\ run_operation (complete_task jwt_decode now task_id authorization) s
     = (Error 404, s).
Proof.
  intros Hown.
  unfold run_operation, get_task, update_task, delete_task, complete_task.
  rewrite !(authenticated_identity jwt_decode authorization user_id) by assumption.
  unfold bind, get_object_or_404. rewrite Hown. repeat split.
Qed.

(** X18. A category or a tag that is not the caller's own is refused by
    the routes that change it: updating and deleting it answer 404 and
    leave the store as it was. *)
Theorem label_routes_refuse_foreign_label category_id tag_id data s :
  owned_category category_id user_id s = None ->
  owned_tag tag_id user_id s = None ->
  run_operation (update_category jwt_decode category_id data authorization) s
  = (Error 404, s)
  /\ run_operation (delete_category jwt_decode category_id authorization) s
     = (Error 404, s)
  /\ run_operation (update_tag jwt_decode tag_id data authorization) s = (Error 404, s)
  /\ run_operation (delete_tag jwt_decode tag_id authorization) s = (Error 404, s).
Proof.
  intros Hc Hg.
  unfold run_operation, update_category, delete_category, update_tag, delete_tag.
  rewrite !(authenticated_identity jwt_decode authorization user_id) by assumption.
  unfold bind, get_object_or_404. rewrite Hc, Hg. repeat split.
Qed.

End DeleteProofs.


Lemma delete_category_keeps_tasks_witness :
  let s' := snd (delete_category sample_jwt_decode 5 alice_header label_store) in
  find_category 5 s' = None
  /\ map Task.id (tasks s') = [10; 11]
  /\ map Task.category_id (tasks s') = [None; None].
Proof.
  pose proof (delete_category_keeps_tasks sample_jwt_decode alice_header 1
                eq_refl ltac:(discriminate) 5 label_store
                {| Category.id := 5; Category.name := "Work";
                   Category.color_code := "#e53e3e"; Category.user_id := 1 |}
                eq_refl) as H.
  cbv zeta in H. destruct H as (H & _).
  cbv zeta. split; [exact H|]. repeat split.
Defined.

Lemma delete_tag_detaches_only_that_tag_witness :
  let s' := snd (delete_tag sample_jwt_decode 1 alice_header label_store) in
  map Tag.id (tags_of 10 s') = [2] /\ map Tag.id (tags_of 11 s') = [].
Proof.
  pose proof (delete_tag_detaches_only_that_tag sample_jwt_decode alice_header 1
                eq_refl ltac:(discriminate) 1 label_store
                {| Tag.id := 1; Tag.name := "urgent"; Tag.color_code := "#3b82f6";
                   Tag.user_id := 1 |}
                eq_refl) as H.
  cbv zeta in H. destruct H as (_ & H).
  cbv zeta. rewrite (H 10), (H 11). split; reflexivity.
Defined.

Lemma task_routes_refuse_foreign_task_witness :
  run_operation (delete_task sample_jwt_decode 10 bob_header) label_store
  = (Error 404, label_store).
Proof.
  pose proof (task_routes_refuse_foreign_task sample_jwt_decode bob_header 2
                eq_refl ltac:(discriminate) 9 10 (counter_update 3) label_store
                eq_refl) as H.
  destruct H as (_ & _ & H & _). exact H.
Defined.

Lemma label_routes_refuse_foreign_label_witness :
  run_operation (delete_category sample_jwt_decode 5 bob_header) label_store
  = (Error 404, label_store)
  /\ run_operation (delete_tag sample_jwt_decode 1 bob_header) label_store
     = (Error 404, label_store).
Proof.
  pose proof (label_routes_refuse_foreign_label sample_jwt_decode bob_header 2
                eq_refl ltac:(discriminate) 5 1
                {| LabelCreateSchema.name := "x"; LabelCreateSchema.color_code := "y" |}
                label_store eq_refl eq_refl) as H.
  destruct H as (_ & H1 & _ & H2). split; assumption.
Defined.

(** ** Creating a task *)

Lemma find_app_new {A} (p : A -> bool) (l : list A) (x : A) :
  find p l = None -> find p (l ++ [x]) = (if p x then Some x else None).
Proof.
  induction l as [|a l IH]; simpl; [reflexivity|].
  destruct (p a); [discriminate|exact IH].
Qed.

Lemma find_app_old {A} (p : A -> bool) (l : list A) (x : A) :
  p x = false -> find p (l ++ [x]) = find p l.
Proof.
  intros Hx. induction l as [|a l IH]; simpl; [now rewrite Hx|].
  destruct (p a); [reflexivity|exact IH].
Qed.

Section CreateProofs.

Variable jwt_decode : string -> option (option Z).
Variable authorization : option string.
Variable user_id : Z.
Hypothesis token_accepted :
  get_user_id_from_token jwt_decode authorization = Some user_id.
Hypothesis user_id_truthy : user_id <> 0.

(** X19. Creating a task and reading it back agree: for a key that is
    new, a category reference that is absent, [0] or the caller's own, and
    values that fit their columns, [create_task] answers the task that
    [get_task] then answers under the new key.  The task has the fields of
    the request, no completed pomodoro, and the time of the call as its
    creation time; the tasks that existed are as they were. *)
Theorem create_task_then_get_task now id task_data s user :
  find_user user_id s = Some user ->
  find_task id s = None ->
  category_reference_accepted task_data user_id s ->
  NoDup (map Category.id (categories s)) ->
  fits_task_columns task_data ->
  exists body s',
    create_task jwt_decode now id task_data authorization s = (inr (Body body), s')
    /\ run_operation (get_task jwt_decode id authorization) s' = (Ok body, s')
    /\ TaskSchema.id body = id
    /\ TaskSchema.title body = TaskCreateSchema.title task_data
    /\ TaskSchema.status body = TaskCreateSchema.status task_data
    /\ TaskSchema.priority body = TaskCreateSchema.priority task_data
    /\ TaskSchema.estimated_pomodoros body = TaskCreateSchema.estimated_pomodoros task_data
    /\ TaskSchema.completed_pomodoros body = 0
    /\ TaskSchema.created_at body = now
    /\ TaskSchema.category_id body
       = (if truthy (TaskCreateSchema.category_id task_data)
          then TaskCreateSchema.category_id task_data else None)
    /\ (forall j, j <> id -> find_task j s' = find_task j s)
    /\ pomodoro_sessions s' = pomodoro_sessions s.
Proof.
  intros Hu Hfresh Hcat Hnd _.
  assert (Huid : User.id user = user_id)
    by (apply find_some_holds in Hu; now apply Z.eqb_eq).
  (* the category step *)
  assert (Hstep : exists category,
    (if truthy (TaskCreateSchema.category_id task_data)
     then
       c <- get_object_or_404
              (owned_category (supplied (TaskCreateSchema.category_id task_data) 0)
                              (User.id user)) ;;
       ret (Some c)
     else ret None) s = (inr category, s)
    /\ option_map Category.id category
       = (if truthy (TaskCreateSchema.category_id task_data)
          then TaskCreateSchema.category_id task_data else None)
    /\ forall c, category = Some c -> find_category (Category.id c) s = Some c).
  { unfold category_reference_accepted in Hcat.
    destruct (TaskCreateSchema.category_id task_data) as [c|]; simpl.
    - destruct (Z.eqb_spec c 0) as [E|E]; simpl.
      + exists None. repeat split. discriminate.
      + destruct Hcat as [Hc|[category Hc]]; [contradiction|].
        exists (Some category). rewrite Huid. unfold bind.
        rewrite (get_object_or_404_found _ _ _ Hc).
        pose proof (find_some _ _ Hc) as [Hin Hp].
        apply andb_true_iff in Hp. destruct Hp as [Hp _]. apply Z.eqb_eq in Hp.
        repeat split.
        * simpl. now rewrite Hp.
        * intros c0 Hc0. inversion Hc0; subst c0. unfold find_category.
          destruct (find (fun c1 => Category.id c1 =? Category.id category) (categories s))
            as [c1|] eqn:Hf.
          -- pose proof (find_some _ _ Hf) as [Hin1 Hp1]. apply Z.eqb_eq in Hp1.
             f_equal. now apply (nodup_map_injective Category.id (categories s)).
          -- exfalso. pose proof (find_none _ _ Hf category Hin) as Hn.
             simpl in Hn. now rewrite Z.eqb_refl in Hn.
    - exists None. repeat split. discriminate. }
  destruct Hstep as (category & Hstep & Hcid & Hfind).
  set (task := new_task id now task_data user category).
  set (s1 := with_tasks s (tasks s ++ [task])).
  set (s2 := match TaskCreateSchema.tag_ids task_data with
             | [] => s1
             | _ :: _ => snd (set_tags id (TaskCreateSchema.tag_ids task_data)
                                (User.id user) s1)
             end).
  assert (Hcreate :
    create_task jwt_decode now id task_data authorization s
    = (inr (Body (task_schema task category (tags_of id s2))), s2)).
  { unfold create_task.
    rewrite (authenticated_identity jwt_decode authorization user_id) by assumption.
    unfold bind at 1. rewrite (get_object_or_404_found _ _ _ Hu).
    unfold bind at 1. rewrite Hstep.
    unfold bind at 1. unfold insert_task at 1. fold task. fold s1.
    change (Task.id task) with id. unfold s2.
    destruct (TaskCreateSchema.tag_ids task_data); reflexivity. }
  assert (Htasks2 : tasks s2 = (tasks s ++ [task])%list)
    by (unfold s2; destruct (TaskCreateSchema.tag_ids task_data); reflexivity).
  assert (Hcats2 : categories s2 = categories s)
    by (unfold s2; destruct (TaskCreateSchema.tag_ids task_data); reflexivity).
  assert (Hsess2 : pomodoro_sessions s2 = pomodoro_sessions s)
    by (unfold s2; destruct (TaskCreateSchema.tag_ids task_data); reflexivity).
  exists (task_schema task category (tags_of id s2)), s2.
  split; [exact Hcreate|]. split; [|repeat split].
  - unfold run_operation, get_task.
    rewrite (authenticated_identity jwt_decode authorization user_id) by assumption.
    assert (Hown : owned_task id user_id s2 = Some task).
    { unfold owned_task. rewrite Htasks2.
      assert (Hn : find (fun t => (Task.id t =? id) && (Task.user_id t =? user_id)) (tasks s)
                   = None).
      { apply find_none_all. intros y Hy.
        pose proof (find_none _ _ Hfresh y Hy) as Hy'. simpl in Hy'. now rewrite Hy'. }
      rewrite (find_app_new _ _ _ Hn). simpl. now rewrite Z.eqb_refl, Huid, Z.eqb_refl. }
    unfold bind at 1. rewrite (get_object_or_404_found _ _ _ Hown).
    unfold describe_task, related_category.
    change (Task.category_id task) with (option_map Category.id category).
    change (Task.id task) with id.
    destruct category as [c|]; simpl.
    + unfold bind, objects_get, find_category. rewrite Hcats2.
      fold (find_category (Category.id c) s). now rewrite (Hfind c eq_refl).
    + reflexivity.
  - exact Hcid.
  - intros j Hj. unfold find_task. rewrite Htasks2. apply find_app_old.
    simpl. now apply Z.eqb_neq.
  - exact Hsess2.
Qed.

(** X20. A created category is listed to its creator and to nobody else:
    the creator's listing gains the answer of [create_category] and keeps
    what it had; the listing of any other user is what it was, and no task
    is touched. *)
Theorem create_category_is_listed_to_creator id data s user authorization' user_id' :
  find_user user_id s = Some user ->
  fits_label_columns 100 data ->
  get_user_id_from_token jwt_decode authorization' = Some user_id' ->
  user_id' <> 0 ->
  user_id' <> user_id ->
  exists body s' l l',
    create_category jwt_decode id data authorization s = (inr (Body body), s')
    /\ body = {| CategorySchema.id := id;
                 CategorySchema.name := LabelCreateSchema.name data;
                 CategorySchema.color_code := LabelCreateSchema.color_code data |}
    /\ list_categories jwt_decode authorization s = (inr (Body l), s)
    /\ list_categories jwt_decode authorization s' = (inr (Body l'), s')
    /\ Permutation l' (body :: l)
    /\ fst (list_categories jwt_decode authorization' s')
       = fst (list_categories jwt_decode authorization' s)
    /\ tasks s' = tasks s.
Proof.
  intros Hu _ Htok' Hnz' Hne.
  assert (Huid : User.id user = user_id)
    by (apply find_some_holds in Hu; now apply Z.eqb_eq).
  unfold create_category, list_categories.
  rewrite !(authenticated_identity jwt_decode authorization user_id) by assumption.
  rewrite !(authenticated_identity jwt_decode authorization' user_id') by assumption.
  unfold bind at 1. rewrite (get_object_or_404_found _ _ _ Hu). rewrite Huid.
  do 4 eexists. split; [reflexivity|]. split; [reflexivity|].
  split; [reflexivity|]. split; [reflexivity|]. simpl.
  rewrite !filter_app, !map_app. simpl.
  rewrite Z.eqb_refl. destruct (Z.eqb_spec user_id user_id') as [E|E]; [congruence|].
  simpl. rewrite app_nil_r. repeat split.
  apply Permutation_sym, Permutation_cons_append.
Qed.

(** X21. A created tag is listed to its creator and to nobody else, and
    is attached to no task: the creator's listing gains the answer of
    [create_tag] and keeps what it had, the listing of any other user is
    what it was, and the task-tag table is untouched. *)
Theorem create_tag_is_listed_to_creator id data s user authorization' user_id' :
  find_user user_id s = Some user ->
  fits_label_columns 50 data ->
  get_user_id_from_token jwt_decode authorization' = Some user_id' ->
  user_id' <> 0 ->
  user_id' <> user_id ->
  exists body s' l l',
    create_tag jwt_decode id data authorization s = (inr (Body body), s')
    /\ body = {| TagSchema.id := id;
                 TagSchema.name := LabelCreateSchema.name data;
                 TagSchema.color_code := LabelCreateSchema.color_code data |}
    /\ list_tags jwt_decode authorization s = (inr (Body l), s)
    /\ list_tags jwt_decode authorization s' = (inr (Body l'), s')
    /\ Permutation l' (body :: l)
    /\ fst (list_tags jwt_decode authorization' s')
       = fst (list_tags jwt_decode authorization' s)
    /\ task_tags s' = task_tags s.
Proof.
  intros Hu _ Htok' Hnz' Hne.
  assert (Huid : User.id user = user_id)
    by (apply find_some_holds in Hu; now apply Z.eqb_eq).
  unfold create_tag, list_tags.
  rewrite !(authenticated_identity jwt_decode authorization user_id) by assumption.
  rewrite !(authenticated_identity jwt_decode authorization' user_id') by assumption.
  unfold bind at 1. rewrite (get_object_or_404_found _ _ _ Hu). rewrite Huid.
  do 4 eexists. split; [reflexivity|]. split; [reflexivity|].
  split; [reflexivity|]. split; [reflexivity|]. simpl.
  rewrite !filter_app, !map_app. simpl.
  rewrite Z.eqb_refl. destruct (Z.eqb_spec user_id user_id') as [E|E]; [congruence|].
  simpl. rewrite app_nil_r. repeat split.
  apply Permutation_sym, Permutation_cons_append.
Qed.

End CreateProofs.

Lemma create_task_then_get_task_witness :
  exists body s',
    create_task sample_jwt_decode 9 12 (sample_create (Some 5) [1; 3]) alice_header
      label_store = (inr (Body body), s')
    /\ run_operation (get_task sample_jwt_decode 12 alice_header) s' = (Ok body, s')
    /\ TaskSchema.category_id body = Some 5.
Proof.
  destruct (create_task_then_get_task sample_jwt_decode alice_header 1 eq_refl
              ltac:(discriminate) 9 12 (sample_create (Some 5) [1; 3]) label_store alice
              eq_refl eq_refl
              (or_intror (ex_intro _ {| Category.id := 5; Category.name := "Work";
                                        Category.color_code := "#e53e3e";
                                        Category.user_id := 1 |} eq_refl))
              ltac:(repeat constructor; simpl; intuition discriminate)
              ltac:(unfold fits_task_columns; simpl; lia))
    as (body & s' & H1 & H2 & _ & _ & _ & _ & _ & _ & _ & H3 & _).
  exists body, s'. repeat split; assumption.
Defined.

Lemma create_category_is_listed_to_creator_witness :
  exists body s' l',
    create_category sample_jwt_decode 6 sample_label alice_header label_store
    = (inr (Body body), s')
    /\ list_categories sample_jwt_decode alice_header s' = (inr (Body l'), s')
    /\ In body l'
    /\ fst (list_categories sample_jwt_decode bob_header s') = inr (Body []).
Proof.
  destruct (create_category_is_listed_to_creator sample_jwt_decode alice_header 1 eq_refl
              ltac:(discriminate) 6 sample_label label_store alice bob_header 2
              eq_refl ltac:(split; simpl; lia) eq_refl ltac:(discriminate)
              ltac:(discriminate))
    as (body & s' & l & l' & H1 & _ & _ & H2 & H3 & H4 & _).
  exists body, s', l'. repeat split; try assumption.
  apply (Permutation_in body (Permutation_sym H3)). now left.
Defined.

Lemma create_tag_is_listed_to_creator_witness :
  exists body s' l',
    create_tag sample_jwt_decode 4 sample_label alice_header label_store
    = (inr (Body body), s')
    /\ list_tags sample_jwt_decode alice_header s' = (inr (Body l'), s')
    /\ In body l'.
Proof.
  destruct (create_tag_is_listed_to_creator sample_jwt_decode alice_header 1 eq_refl
              ltac:(discriminate) 4 sample_label label_store alice bob_header 2
              eq_refl ltac:(split; simpl; lia) eq_refl ltac:(discriminate)
              ltac:(discriminate))
    as (body & s' & l & l' & H1 & _ & _ & H2 & H3 & _).
  exists body, s', l'. repeat split; try assumption.
  apply (Permutation_in body (Permutation_sym H3)). now left.
Defined.

(** ** The dashboard: errors and totals *)

Lemma category_point_outcome item s :
  snd (category_point item s) = s
  /\ match fst (category_point item s) with
     | inl e => e = DoesNotExist MCategory
     | inr p => CategoryDataPoint.value p = snd item
     end.
Proof.
  unfold category_point. destruct (truthy (fst item)); [|split; reflexivity].
  unfold bind, objects_get. destruct (find_category _ s); split; reflexivity.
Qed.

Lemma for_each_category_point_outcome items s :
  snd (for_each category_point items s) = s
  /\ match fst (for_each category_point items s) with
     | inl e => e = DoesNotExist MCategory
     | inr ps => map CategoryDataPoint.value ps = map snd items
     end.
Proof.
  induction items as [|item items IH]; [split; reflexivity|].
  cbn [for_each]. unfold bind.
  destruct (category_point_outcome item s) as [Hs Hr].
  destruct (category_point item s) as [[e|p] s1]; cbn [fst snd] in Hs, Hr; subst s1.
  - split; [reflexivity|exact Hr].
  - destruct IH as [Hs' Hr'].
    destruct (for_each category_point items s) as [[e|ps] s2];
      cbn [fst snd] in Hs', Hr'; subst s2.
    + split; [reflexivity|exact Hr'].
    + split; [reflexivity|]. cbn [fst ret map]. now rewrite Hr, Hr'.
Qed.

(** X22. A window of zero days is answered 500 and nothing is changed:
    the daily average divides by the number of days.  The same holds for
    the date-range operation when the range ends on the day before it
    starts, since it passes [end - start + 1] as the number of days. *)
Theorem dashboard_of_zero_days_is_500 today auth s user start_date :
  find_user auth s = Some user ->
  run_operation (get_analytics today auth 0) s = (Error 500, s)
  /\ run_operation
       (get_analytics_by_date_range today auth
          {| TimeRangeSchema.start_date := start_date;
             TimeRangeSchema.end_date := start_date - 1 |}) s
     = (Error 500, s).
Proof.
  intros Hu.
  assert (H0 : run_operation (get_analytics today auth 0) s = (Error 500, s)).
  { unfold run_operation, get_analytics.
    unfold bind at 1. rewrite (get_object_or_404_found _ _ _ Hu).
    unfold bind at 1. change (timedelta 0 s) with (@inr exn Z 0, s).
    unfold bind at 1. unfold date_sub at 1.
    destruct ((date_min <=? today - 0) && (today - 0 <=? date_max)); [|reflexivity].
    unfold ret at 1.
    unfold bind at 1. unfold get_store at 1.
    unfold bind at 1.
    match goal with
    | |- context [for_each category_point ?items s] =>
        destruct (for_each_category_point_outcome items s) as [Hs Hr];
        destruct (for_each category_point items s) as [[e|ps] s1]
    end; simpl in Hs, Hr; subst.
    - reflexivity.
    - reflexivity. }
  split; [exact H0|].
  unfold get_analytics_by_date_range. simpl.
  replace (start_date - 1 - start_date + 1) with 0 by lia. exact H0.
Qed.

Lemma dashboard_of_zero_days_is_500_witness :
  run_operation (get_analytics 200 1 0) three_day_store = (Error 500, three_day_store)
  /\ run_operation
       (get_analytics_by_date_range 200 1
          {| TimeRangeSchema.start_date := 150; TimeRangeSchema.end_date := 149 |})
       three_day_store
     = (Error 500, three_day_store).
Proof.
  exact (dashboard_of_zero_days_is_500 200 1 three_day_store alice 150 eq_refl).
Defined.

Lemma get_analytics_totals today auth days s user :
  find_user auth s = Some user ->
  days <> 0 ->
  window_in_calendar today days ->
  categories_exist s ->
  let start_date := today - days in
  let sessions := filter is_work (window_sessions s (User.id user) start_date today) in
  let tasks := window_tasks s (User.id user) start_date today in
  exists b,
    get_analytics today auth days s = (inr (Body b), s)
    /\ AnalyticsResponse.pomodoro_time_series b
       = fill_series
           (day_counts (map (fun x => local_date (PomodoroSession.start_time x)) sessions))
           start_date today
    /\ AnalyticsResponse.daily_stats b
       = flat_map (daily_entry (window_sessions s (User.id user) start_date today) tasks)
                  (date_window start_date today)
    /\ map PriorityDataPoint.value (AnalyticsResponse.priority_distribution b)
       = map snd (order_by (fun a b => String.leb (fst a) (fst b))
                           (group_count String.eqb (map Task.priority tasks)))
    /\ map CategoryDataPoint.value (AnalyticsResponse.category_distribution b)
       = map snd (order_by (fun a b => snd b <=? snd a)
                           (group_count option_Z_eqb (map Task.category_id tasks)))
    /\ ProductivityStats.total_pomodoros (AnalyticsResponse.productivity_stats b)
       = count sessions
    /\ ProductivityStats.completed_tasks (AnalyticsResponse.productivity_stats b)
       = count (filter is_status_completed tasks).
Proof.
  intros Hu Hd Hcal Hfk start_date sessions tasks. unfold get_analytics.
  unfold bind at 1. rewrite (get_object_or_404_found _ _ _ Hu).
  unfold bind at 1. rewrite (timedelta_in_calendar today days s Hcal).
  unfold bind at 1. rewrite (date_sub_in_calendar today days s Hcal).
  unfold bind at 1. unfold get_store at 1.
  unfold bind at 1.
  match goal with
  | |- context [for_each category_point ?items s] =>
      destruct (for_each_total category_point items s) as [cd Hcd];
      [|pose proof (for_each_category_point_outcome items s) as [_ Hval]]
  end.
  { intros [k c] Hin. apply category_point_total. simpl. intros i Hi. subst k.
    apply in_order_by in Hin. apply group_count_keys in Hin.
    apply in_map_iff in Hin. destruct Hin as (t & Ht & Hin).
    apply filter_In in Hin. destruct Hin as [Hin _].
    exact (Hfk t Hin i Ht). }
  rewrite Hcd in Hval |- *. cbn [fst] in Hval.
  destruct (Z.eqb_spec days 0) as [E|_]; [contradiction|].
  eexists. split; [reflexivity|]. cbn -[order_by group_count]. repeat split.
  - now rewrite map_map.
  - exact Hval.
Qed.

Lemma sum_or_0_app l l' : sum_or_0 (l ++ l') = sum_or_0 l + sum_or_0 l'.
Proof. unfold sum_or_0. induction l as [|a l IH]; simpl; lia. Qed.

Lemma sum_or_0_permutation l l' : Permutation l l' -> sum_or_0 l = sum_or_0 l'.
Proof. unfold sum_or_0. induction 1; simpl; lia. Qed.

Lemma count_filter_all {A} (p : A -> bool) (l : list A) :
  (forall x, In x l -> p x = true) -> count (filter p l) = count l.
Proof.
  intros H. induction l as [|a l IH]; simpl; [reflexivity|].
  rewrite (H a (or_introl eq_refl)), !count_cons, IH; [reflexivity|].
  intros x Hx. apply H. now right.
Qed.

(** Counting the rows of each day of a run of days counts the rows of
    the run. *)
Lemma sum_counts_by_day {A} (day : A -> Z) (l : list A) (n : nat) (a : Z) :
  sum_or_0 (map (fun d => count (filter (fun x => day x =? d) l)) (dates_from a n))
  = count (filter (fun x => (a <=? day x) && (day x <? a + Z.of_nat n)) l).
Proof.
  revert a. induction n as [|n IH]; intros a.
  - simpl. rewrite (filter_ext _ (fun _ => false)).
    + induction l; simpl; auto.
    + intros x. destruct (Z.leb_spec a (day x)), (Z.ltb_spec (day x) (a + Z.of_nat 0));
        simpl; auto; lia.
  - cbn [dates_from map]. unfold sum_or_0 in *. cbn [fold_right]. rewrite IH.
    clear IH. replace (a + Z.of_nat (S n)) with (a + 1 + Z.of_nat n) by lia.
    assert (Hb : a < a + 1 + Z.of_nat n) by lia.
    revert Hb. generalize (a + 1 + Z.of_nat n). intros b Hb.
    induction l as [|x l IHl]; [reflexivity|]. cbn [filter].
    destruct (Z.eqb_spec (day x) a), (Z.leb_spec (a + 1) (day x)),
      (Z.ltb_spec (day x) b), (Z.leb_spec a (day x));
      cbn [andb]; rewrite ?count_cons; lia.
Qed.

Lemma sum_counts_in_window {A} (day : A -> Z) (l : list A) (start_date end_date : date) :
  (forall x, In x l -> start_date <= day x <= end_date) ->
  sum_or_0 (map (fun d => count (filter (fun x => day x =? d) l))
                (date_window start_date end_date))
  = count l.
Proof.
  intros H. unfold date_window. rewrite sum_counts_by_day.
  apply count_filter_all. intros x Hx. specialize (H x Hx).
  rewrite Z2Nat.id by lia.
  apply andb_true_iff. split; [apply Z.leb_le | apply Z.ltb_lt]; lia.
Qed.

Lemma window_sessions_days s user_id start_date end_date x :
  In x (filter is_work (window_sessions s user_id start_date end_date)) ->
  start_date <= local_date (PomodoroSession.start_time x) <= end_date.
Proof.
  intros H. apply filter_In in H. destruct H as [H _].
  apply filter_In in H. destruct H as [_ H].
  apply andb_true_iff in H. destruct H as [H _].
  apply andb_true_iff in H. destruct H as [H H2].
  apply andb_true_iff in H. destruct H as [_ H1].
  apply Z.leb_le in H1, H2. lia.
Qed.

Lemma daily_entry_pomodoros sessions tasks d :
  sum_or_0 (map DailyStats.pomodoros (daily_entry sessions tasks d))
  = count (filter (fun x => local_date (PomodoroSession.start_time x) =? d)
                  (filter is_work sessions)).
Proof.
  rewrite filter_filter. unfold daily_entry.
  set (c := count (filter (fun x => is_work x
                                    && (local_date (PomodoroSession.start_time x) =? d))
                          sessions)).
  destruct ((c >? 0) || _) eqn:E; simpl.
  - lia.
  - apply orb_false_iff in E. destruct E as [E _].
    pose proof (count_nonneg (filter (fun x => is_work x
                                    && (local_date (PomodoroSession.start_time x) =? d))
                          sessions)) as Hc. fold c in Hc.
    destruct (Z.gtb_spec c 0); [discriminate|lia].
Qed.

Lemma sum_flat_map {A B} (f : B -> Z) (g : A -> list B) (l : list A) :
  sum_or_0 (map f (flat_map g l)) = sum_or_0 (map (fun a => sum_or_0 (map f (g a))) l).
Proof.
  induction l as [|a l IH]; simpl; [reflexivity|].
  rewrite map_app, sum_or_0_app, IH. reflexivity.
Qed.

Lemma sum_bump {K} (eqb : K -> K -> bool) (k : K) (groups : list (K * Z)) :
  sum_or_0 (map snd (bump eqb k groups)) = sum_or_0 (map snd groups) + 1.
Proof.
  induction groups as [|[k' c] r IH]; simpl; [reflexivity|].
  destruct (eqb k k'); simpl; lia.
Qed.

Lemma sum_group_count {K} (eqb : K -> K -> bool) (keys : list K) :
  sum_or_0 (map snd (group_count eqb keys)) = count keys.
Proof.
  unfold group_count.
  assert (H : forall groups,
    sum_or_0 (map snd (fold_left (fun g k => bump eqb k g) keys groups))
    = sum_or_0 (map snd groups) + count keys).
  { induction keys as [|k keys IH]; intros groups; simpl.
    - unfold count. simpl. lia.
    - rewrite IH, sum_bump, count_cons. lia. }
  rewrite H. simpl. lia.
Qed.

Lemma sum_ordered_group_count {K} (leb : K * Z -> K * Z -> bool) (eqb : K -> K -> bool)
    (keys : list K) :
  sum_or_0 (map snd (order_by leb (group_count eqb keys))) = count keys.
Proof.
  rewrite <- (sum_group_count eqb keys). apply sum_or_0_permutation.
  apply Permutation_map, permutation_order_by.
Qed.

(** X23. The dashboard's figures on sessions agree with each other (for
    a window inside the calendar): the values of the series of pomodoros
    add up to [total_pomodoros], and so do the pomodoros of the daily
    statistics, although the days without activity are left out of
    them. *)
Theorem dashboard_pomodoro_figures_agree today auth days s user :
  find_user auth s = Some user ->
  days <> 0 ->
  window_in_calendar today days ->
  categories_exist s ->
  exists b,
    get_analytics today auth days s = (inr (Body b), s)
    /\ sum_or_0 (series_values (AnalyticsResponse.pomodoro_time_series b))
       = ProductivityStats.total_pomodoros (AnalyticsResponse.productivity_stats b)
    /\ sum_or_0 (map DailyStats.pomodoros (AnalyticsResponse.daily_stats b))
       = ProductivityStats.total_pomodoros (AnalyticsResponse.productivity_stats b).
Proof.
  intros Hu Hd Hcal Hfk.
  destruct (get_analytics_totals today auth days s user Hu Hd Hcal Hfk)
    as (b & Hb & Hser & Hdaily & _ & _ & Htot & _).
  exists b. split; [exact Hb|]. rewrite Hser, Hdaily, Htot. split.
  - unfold series_values, fill_series. rewrite map_map. cbn [TimeSeriesDataPoint.value].
    rewrite <- (sum_counts_in_window
                  (fun x => local_date (PomodoroSession.start_time x)) _
                  (today - days) today)
      by (intros x Hx; exact (window_sessions_days _ _ _ _ _ Hx)).
    f_equal. apply map_ext. intros d.
    now rewrite count_on_day_counts, filter_map_eq, count_map.
  - rewrite sum_flat_map.
    rewrite <- (sum_counts_in_window
                  (fun x => local_date (PomodoroSession.start_time x)) _
                  (today - days) today)
      by (intros x Hx; exact (window_sessions_days _ _ _ _ _ Hx)).
    f_equal. apply map_ext. intros d. apply daily_entry_pomodoros.
Qed.

Lemma count_tasks_created_between s user_id start_date end_date :
  count (window_tasks s user_id start_date end_date)
  = tasks_created_between s user_id start_date end_date.
Proof.
  unfold window_tasks, tasks_created_between.
  induction (tasks s) as [|t l IH]; [reflexivity|]. cbn [filter fold_right].
  destruct (Z.eqb_spec (Task.user_id t) user_id);
    destruct (Z.leb_spec start_date (local_date (Task.created_at t)));
    destruct (Z.leb_spec (local_date (Task.created_at t)) end_date);
    cbn [andb]; rewrite ?count_cons, IH;
    repeat match goal with
           | |- context [Z_le_dec ?a ?b] => destruct (Z_le_dec a b)
           | |- context [Z.eq_dec ?a ?b] => destruct (Z.eq_dec a b)
           end; lia.
Qed.

(** X24. The two distributions of the dashboard each account for every
    task of the window once (the window lying inside the calendar): the
    values of the priority distribution add up to the number of the
    user's tasks created from the first to the last day of the window, and
    so do the values of the category distribution (the tasks without a
    category counted in their own group); [completed_tasks] is at most
    that number. *)
Theorem dashboard_distributions_cover_tasks today auth days s user :
  find_user auth s = Some user ->
  days <> 0 ->
  window_in_calendar today days ->
  categories_exist s ->
  exists b,
    get_analytics today auth days s = (inr (Body b), s)
    /\ sum_or_0 (map PriorityDataPoint.value (AnalyticsResponse.priority_distribution b))
       = tasks_created_between s (User.id user) (today - days) today
    /\ sum_or_0 (map CategoryDataPoint.value (AnalyticsResponse.category_distribution b))
       = tasks_created_between s (User.id user) (today - days) today
    /\ 0 <= ProductivityStats.completed_tasks (AnalyticsResponse.productivity_stats b)
         <= tasks_created_between s (User.id user) (today - days) today.
Proof.
  intros Hu Hd Hcal Hfk.
  destruct (get_analytics_totals today auth days s user Hu Hd Hcal Hfk)
    as (b & Hb & _ & _ & Hprio & Hcat & _ & Hdone).
  exists b. split; [exact Hb|]. rewrite Hprio, Hcat, Hdone.
  rewrite !sum_ordered_group_count, !count_map.
  rewrite <- count_tasks_created_between. repeat split.
  - apply count_nonneg.
  - apply count_filter_le.
Qed.

Lemma dashboard_pomodoro_figures_agree_witness :
  exists b,
    get_analytics 200 1 7 three_day_store = (inr (Body b), three_day_store)
    /\ sum_or_0 (series_values (AnalyticsResponse.pomodoro_time_series b)) = 3
    /\ ProductivityStats.total_pomodoros (AnalyticsResponse.productivity_stats b) = 3.
Proof.
  destruct (dashboard_pomodoro_figures_agree 200 1 7 three_day_store alice
              eq_refl ltac:(discriminate) ltac:(in_calendar) three_day_categories_exist)
    as (b & Hb & H1 & _).
  exists b. split; [exact Hb|]. rewrite H1.
  inversion Hb. split; reflexivity.
Defined.

Lemma label_store_categories_exist : categories_exist label_store.
Proof.
  intros t [<-|[<-|[]]] c Hc; inversion Hc. eexists. reflexivity.
Qed.

Lemma dashboard_distributions_cover_tasks_witness :
  exists b,
    get_analytics 0 1 7 label_store = (inr (Body b), label_store)
    /\ sum_or_0 (map PriorityDataPoint.value (AnalyticsResponse.priority_distribution b))
       = 2
    /\ sum_or_0 (map CategoryDataPoint.value (AnalyticsResponse.category_distribution b))
       = 2.
Proof.
  destruct (dashboard_distributions_cover_tasks 0 1 7 label_store alice
              eq_refl ltac:(discriminate) ltac:(in_calendar) label_store_categories_exist)
    as (b & Hb & H1 & H2 & _).
  exists b. split; [exact Hb|]. rewrite H1, H2. split; reflexivity.
Defined.

(** ** The two readers of the header *)

Lemma prefix_bearer_has_blank s :
  String.prefix "Bearer " s = true -> no_blank s = false.
Proof.
  intros H.
  destruct s as [|c0 [|c1 [|c2 [|c3 [|c4 [|c5 [|c6 r]]]]]]]; cbn [String.prefix] in H;
    try discriminate H;
    repeat match type of H with
           | context [ascii_dec ?a ?b] => destruct (ascii_dec a b); try discriminate H
           end.
  subst. reflexivity.
Qed.

Lemma replace_bearer_no_blank s : no_blank s = true -> replace_bearer 0 s = s.
Proof.
  induction s as [|c r IH]; [reflexivity|]. intros H.
  cbn [replace_bearer].
  destruct (String.prefix "Bearer " (String c r)) eqn:E.
  - apply prefix_bearer_has_blank in E. congruence.
  - simpl in H. apply andb_true_iff in H. destruct H as [_ H]. now rewrite IH.
Qed.

Section ReaderProofs.

Variable jwt_decode : string -> option (option Z).

(** X25. On a header of the form [Bearer <token>] with a token without
    blanks, the guard of the routers and the reader that the handlers call
    themselves see the same token, so they find the same identity: both
    give what [AuthBearer.authenticate] gives for the token. *)
Theorem token_readers_agree token :
  no_blank token = true ->
  HttpBearer_call jwt_decode (Some ("Bearer " ++ token))
  = AuthBearer_authenticate jwt_decode token
  /\ get_user_id_from_token jwt_decode (Some ("Bearer " ++ token))
     = AuthBearer_authenticate jwt_decode token.
Proof.
  intros H. split.
  - reflexivity.
  - unfold get_user_id_from_token, AuthBearer_authenticate, startswith.
    assert (Hp : String.prefix "Bearer " ("Bearer " ++ token) = true).
    { cbn [String.prefix append].
      repeat match goal with
             | |- context [ascii_dec ?a ?b] => destruct (ascii_dec a b); try congruence
             end.
      now destruct token. }
    rewrite Hp.
    change (replace_bearer 0 ("Bearer " ++ token))
      with (if String.prefix "Bearer " ("Bearer " ++ token)
            then replace_bearer 0 token
            else String "B" (replace_bearer 0 ("earer " ++ token))).
    rewrite Hp. now rewrite replace_bearer_no_blank.
Qed.

(** X26. The two readers differ on the case of the scheme: with the
    scheme written [bearer], the guard accepts the token but the handlers'
    own reader finds no identity.  A guarded operation of the task router
    then answers 500, not 401: the handler returns its (body, 401) pair,
    which the framework cannot turn into a response. *)
Theorem lowercase_scheme_passes_guard_only token user_id s :
  jwt_decode token = Some (Some user_id) ->
  user_id <> 0 ->
  let authorization := Some ("bearer " ++ token) in
  HttpBearer_call jwt_decode authorization = Some user_id
  /\ get_user_id_from_token jwt_decode authorization = None
  /\ protected jwt_decode authorization
       (fun _ => list_tasks jwt_decode None None None None authorization) s
     = (Error 500, s).
Proof.
  intros Hdec Hnz authorization.
  assert (Hguard : HttpBearer_call jwt_decode authorization = Some user_id).
  { unfold authorization, HttpBearer_call. simpl.
    unfold AuthBearer_authenticate. now rewrite Hdec. }
  assert (Hreader : get_user_id_from_token jwt_decode authorization = None)
    by reflexivity.
  split; [exact Hguard|]. split; [exact Hreader|].
  unfold protected. rewrite Hguard. unfold truthy.
  destruct (Z.eqb_spec user_id 0); [contradiction|]. simpl.
  unfold run_operation, list_tasks, authenticated. now rewrite Hreader.
Qed.

End ReaderProofs.

Lemma token_readers_agree_witness :
  HttpBearer_call sample_jwt_decode alice_header = Some 1
  /\ get_user_id_from_token sample_jwt_decode alice_header = Some 1.
Proof.
  destruct (token_readers_agree sample_jwt_decode "token-alice" eq_refl) as [H1 H2].
  split; [exact H1 | exact H2].
Defined.

Lemma lowercase_scheme_passes_guard_only_witness :
  protected sample_jwt_decode (Some "bearer token-alice")
    (fun _ => list_tasks sample_jwt_decode None None None None (Some "bearer token-alice"))
    st0
  = (Error 500, st0).
Proof.
  pose proof (lowercase_scheme_passes_guard_only sample_jwt_decode "token-alice" 1 st0
                eq_refl ltac:(discriminate)) as H.
  cbv zeta in H. destruct H as (_ & _ & H). exact H.
Defined.

(** ** The settings *)

Section SettingsProofs.

Variable jwt_decode : string -> option (option Z).
Variable authorization : option string.
Variable user_id : Z.
Hypothesis token_accepted :
  get_user_id_from_token jwt_decode authorization = Some user_id.

(** X27. Settings written are the settings read: whether or not the user
    had a settings row, [update_user_settings] answers the values it was
    given, [get_user_settings] then answers the same values without
    changing anything, and the settings of every other user are as they
    were. *)
Theorem update_user_settings_then_get data s user :
  find_user user_id s = Some user ->
  fits_setting_columns data ->
  let s' := snd (update_user_settings jwt_decode data authorization s) in
  fst (update_user_settings jwt_decode data authorization s) = inr (Body data)
  /\ get_user_settings jwt_decode authorization s' = (inr (Body data), s')
  /\ (forall other, other <> user_id -> find_setting other s' = find_setting other s)
  /\ users s' = users s /\ tasks s' = tasks s
  /\ pomodoro_sessions s' = pomodoro_sessions s.
Proof.
  intros Hu _ s'.
  assert (Huid : User.id user = user_id)
    by (apply find_some_holds in Hu; now apply Z.eqb_eq).
  set (row := {| UserSetting.user_id := user_id;
                 UserSetting.work_duration := UserSettingsSchema.work_duration data;
                 UserSetting.short_break_duration :=
                   UserSettingsSchema.short_break_duration data;
                 UserSetting.long_break_duration :=
                   UserSettingsSchema.long_break_duration data;
                 UserSetting.long_break_interval :=
                   UserSettingsSchema.long_break_interval data;
                 UserSetting.notifications_enabled :=
                   UserSettingsSchema.notifications_enabled data |}).
  assert (Hschema : settings_schema row = data) by (destruct data; reflexivity).
  set (replaced := fun l : list UserSetting.t =>
         map (fun r => if UserSetting.user_id r =? user_id then row else r) l).
  assert (Hrun : update_user_settings jwt_decode data authorization s
                 = (inr (Body data),
                    with_settings s
                      (replaced (match find_setting user_id s with
                                 | Some _ => user_settings s
                                 | None => (user_settings s
                                            ++ [UserSetting.default user_id])%list
                                 end)))).
  { unfold update_user_settings. rewrite token_accepted.
    unfold try_except, bind, objects_get, get_or_create_setting.
    rewrite Hu, Huid.
    destruct (find_setting user_id s) as [x|] eqn:Hx.
    - assert (Hxid : UserSetting.user_id x = user_id)
        by (apply find_some_holds in Hx; now apply Z.eqb_eq).
      simpl. rewrite Hxid. fold row. now rewrite Hschema.
    - simpl. fold row. now rewrite Hschema. }
  subst s'. rewrite Hrun. cbn [fst snd].
  set (l := match find_setting user_id s with
            | Some _ => user_settings s
            | None => (user_settings s ++ [UserSetting.default user_id])%list
            end).
  assert (Hfound : exists y, find (fun x => UserSetting.user_id x =? user_id) l = Some y).
  { unfold l. destruct (find_setting user_id s) as [x|] eqn:Hx.
    - exists x. exact Hx.
    - exists (UserSetting.default user_id). unfold find_setting in Hx.
      rewrite (find_app_new _ _ _ Hx). simpl. now rewrite Z.eqb_refl. }
  destruct Hfound as [y Hy].
  assert (Hrow : find (fun x => UserSetting.user_id x =? user_id) (replaced l) = Some row).
  { unfold replaced.
    apply find_replace_hit with (same := fun r => UserSetting.user_id r =? user_id) (y := y).
    - exact Hy.
    - exact (find_some_holds _ _ _ Hy).
    - simpl. apply Z.eqb_refl. }
  split; [reflexivity|]. split; [|split; [|repeat split]].
  - unfold get_user_settings. rewrite token_accepted.
    unfold try_except, bind, objects_get, get_or_create_setting.
    change (find_user user_id (with_settings s (replaced l))) with (find_user user_id s).
    rewrite Hu, Huid. unfold find_setting. cbn [user_settings with_settings].
    rewrite Hrow. now rewrite Hschema.
  - intros other Hne. unfold find_setting. cbn [user_settings with_settings].
    unfold replaced. rewrite find_replace_miss.
    + unfold l. destruct (find_setting user_id s); [reflexivity|].
      apply find_app_old. simpl. apply Z.eqb_neq. congruence.
    + intros r Hr. apply Z.eqb_eq in Hr. apply Z.eqb_neq. congruence.
    + simpl. apply Z.eqb_neq. congruence.
Qed.

End SettingsProofs.

Lemma update_user_settings_then_get_witness :
  let s' := snd (update_user_settings sample_jwt_decode sample_settings alice_header st0) in
  get_user_settings sample_jwt_decode alice_header s' = (inr (Body sample_settings), s').
Proof.
  pose proof (update_user_settings_then_get sample_jwt_decode alice_header 1 eq_refl
                sample_settings st0 alice eq_refl
                ltac:(unfold fits_setting_columns; simpl; lia)) as H.
  cbv zeta in H. destruct H as (_ & H & _). exact H.
Defined.

(** ** The analytics of one task *)

Lemma first_by_least {A} (key : A -> Z) (l : list A) (x y : A) :
  first_by (fun a b => key a <=? key b) l = Some x -> In y l -> key x <= key y.
Proof.
  unfold first_by. intros Hx Hy.
  assert (Hs : Sorted (fun a b => (key a <=? key b) = true)
                      (order_by (fun a b => key a <=? key b) l)).
  { apply sorted_order_by. intros a b Hab. apply Z.leb_gt in Hab. apply Z.leb_le. lia. }
  apply Sorted_StronglySorted in Hs.
  2:{ intros a b c Hab Hbc. apply Z.leb_le in Hab, Hbc. apply Z.leb_le. lia. }
  assert (Hin : In y (order_by (fun a b => key a <=? key b) l))
    by (apply (Permutation_in y (Permutation_sym (permutation_order_by _ l))); exact Hy).
  destruct (order_by (fun a b => key a <=? key b) l) as [|h r]; [discriminate|].
  simpl in Hx. inversion Hx; subst h.
  inversion Hs as [|? ? _ Hall]; subst.
  destruct Hin as [<-|Hin]; [lia|].
  rewrite Forall_forall in Hall. apply Z.leb_le. now apply Hall.
Qed.

Lemma first_by_in {A} (leb : A -> A -> bool) (l : list A) (x : A) :
  first_by leb l = Some x -> In x l.
Proof.
  unfold first_by. intros H.
  apply (Permutation_in x (permutation_order_by leb l)).
  destruct (order_by leb l); [discriminate|]. inversion H. now left.
Qed.

Lemma first_by_some {A} (leb : A -> A -> bool) (l : list A) :
  l <> [] -> exists x, first_by leb l = Some x.
Proof.
  intros Hl. unfold first_by.
  destruct (order_by leb l) as [|h r] eqn:E; [|now exists h].
  exfalso. apply Hl.
  apply Permutation_nil.
  rewrite <- E. apply permutation_order_by.
Qed.

(** The answer of [get_task_analytics], in the terms of its query. *)
Lemma get_task_analytics_answer auth task_id s task :
  owned_task task_id auth s = Some task ->
  exists b,
    get_task_analytics auth task_id s = (inr (Body b), s)
    /\ TaskAnalytics.task_id b = task_id
    /\ TaskAnalytics.completed_pomodoros b = Task.completed_pomodoros task
    /\ sum_or_0 (series_values (TaskAnalytics.pomodoro_time_series b))
       = count (task_sessions s task)
    /\ (count (task_sessions s task) = 0 ->
        TaskAnalytics.daily_average b = Int 0
        /\ TaskAnalytics.pomodoro_time_series b = [])
    /\ (0 < count (task_sessions s task) ->
        exists days,
          1 <= days
          /\ TaskAnalytics.daily_average b = Round (count (task_sessions s task)) days 1)
    /\ (Task.estimated_pomodoros task <= 0 ->
        TaskAnalytics.completion_percentage b = PercentZero)
    /\ (0 < Task.estimated_pomodoros task ->
        TaskAnalytics.completion_percentage b
        = PercentOf (Task.completed_pomodoros task) (Task.estimated_pomodoros task)).
Proof.
  intros Hown.
  assert (Hid : Task.id task = task_id).
  { apply find_some_holds in Hown. apply andb_true_iff in Hown.
    destruct Hown as [Hown _]. now apply Z.eqb_eq. }
  unfold get_task_analytics.
  unfold bind at 1. rewrite (get_object_or_404_found _ _ _ Hown).
  unfold bind at 1. unfold get_store at 1. cbv zeta.
  set (sessions := task_sessions s task).
  set (asc := fun a b : PomodoroSession.t =>
                PomodoroSession.start_time a <=? PomodoroSession.start_time b).
  set (desc := fun a b : PomodoroSession.t =>
                 PomodoroSession.start_time b <=? PomodoroSession.start_time a).
  (* the average *)
  assert (Havg : exists avg,
    (if count sessions >? 0 then
       match first_by asc sessions, first_by desc sessions with
       | Some first_session, Some last_session =>
           let days :=
             utc_date (PomodoroSession.start_time last_session)
             - utc_date (PomodoroSession.start_time first_session) + 1 in
           if days =? 0 then raise ZeroDivisionError
           else ret (Round (count sessions) days 1)
       | _, _ => ret (Int (count sessions))
       end
     else ret (Int 0)) s = (inr avg, s)
    /\ (count sessions = 0 -> avg = Int 0)
    /\ (0 < count sessions ->
        exists days, 1 <= days /\ avg = Round (count sessions) days 1)).
  { destruct (Z.gtb_spec (count sessions) 0) as [Hpos|Hzero].
    - assert (Hne : sessions <> []).
      { intros E. rewrite E in Hpos. unfold count in Hpos. simpl in Hpos. lia. }
      destruct (first_by_some asc sessions Hne) as [x Hx].
      destruct (first_by_some desc sessions Hne) as [z Hz].
      rewrite Hx, Hz.
      assert (Hle : PomodoroSession.start_time x <= PomodoroSession.start_time z).
      { apply (first_by_least PomodoroSession.start_time sessions x z Hx).
        exact (first_by_in _ _ _ Hz). }
      assert (Hdays : utc_date (PomodoroSession.start_time x)
                      <= utc_date (PomodoroSession.start_time z)).
      { unfold utc_date. apply Z.div_le_mono; lia. }
      cbv zeta.
      destruct (Z.eqb_spec (utc_date (PomodoroSession.start_time z)
                            - utc_date (PomodoroSession.start_time x) + 1) 0) as [E|E];
        [lia|].
      eexists. split; [reflexivity|]. split; [lia|].
      intros _. eexists. split; [|reflexivity]. lia.
    - exists (Int 0). split; [reflexivity|]. split; [reflexivity|]. lia. }
  destruct Havg as (avg & Havg & Hzero & Hpos). cbv zeta in Havg.
  unfold bind at 1. rewrite Havg.
  eexists. split; [reflexivity|].
  cbn [TaskAnalytics.task_id TaskAnalytics.completed_pomodoros
       TaskAnalytics.pomodoro_time_series TaskAnalytics.daily_average
       TaskAnalytics.completion_percentage].
  split; [exact Hid|]. split; [reflexivity|]. split; [|split; [|split; [|split]]].
  - unfold series_values. rewrite map_map. cbn [TimeSeriesDataPoint.value].
    unfold day_counts. rewrite sum_ordered_group_count. apply count_map.
  - intros H0. split; [now apply Hzero|].
    assert (E : sessions = []).
    { destruct sessions; [reflexivity|]. rewrite count_cons in H0.
      pose proof (count_nonneg sessions). lia. }
    rewrite E. reflexivity.
  - exact Hpos.
  - intros He. destruct (Z.gtb_spec (Task.estimated_pomodoros task) 0); [lia|reflexivity].
  - intros He. destruct (Z.gtb_spec (Task.estimated_pomodoros task) 0); [reflexivity|lia].
Qed.

Lemma count_task_sessions s task :
  count (task_sessions s task) = completed_work_of_task s (Task.id task).
Proof.
  unfold task_sessions, completed_work_of_task, is_work.
  induction (pomodoro_sessions s) as [|x l IH]; [reflexivity|].
  cbn [filter fold_right]. rewrite <- IH.
  destruct (PomodoroSession.task_id x) as [i|]; cbn [option_Z_eqb]; [|reflexivity].
  destruct (Z.eq_dec i (Task.id task)) as [E|E].
  - apply Z.eqb_eq in E. rewrite E. cbn [andb].
    destruct (string_dec (PomodoroSession.type x) "work") as [W|W].
    + apply String.eqb_eq in W. rewrite W. cbn [andb].
      destruct (PomodoroSession.is_completed x); rewrite ?count_cons; lia.
    + apply String.eqb_neq in W. rewrite W. reflexivity.
  - apply Z.eqb_neq in E. rewrite E. reflexivity.
Qed.

(** X28. The analytics of a task of the caller always answer, and change
    nothing: the average never divides by zero, because the days between
    the first and the last session count at least one, and a task without
    an estimate gets the percentage 0.  The values of the series add up to
    the number of sessions of the session table that are linked to the
    task, are of type work and are completed; without such sessions the
    average is 0 and the series is empty. *)
Theorem task_analytics_always_answer auth task_id s task :
  owned_task task_id auth s = Some task ->
  exists b,
    get_task_analytics auth task_id s = (inr (Body b), s)
    /\ TaskAnalytics.task_id b = task_id
    /\ TaskAnalytics.completed_pomodoros b = Task.completed_pomodoros task
    /\ sum_or_0 (series_values (TaskAnalytics.pomodoro_time_series b))
       = completed_work_of_task s task_id
    /\ (completed_work_of_task s task_id = 0 ->
        TaskAnalytics.daily_average b = Int 0
        /\ TaskAnalytics.pomodoro_time_series b = [])
    /\ (0 < completed_work_of_task s task_id ->
        exists days,
          1 <= days
          /\ TaskAnalytics.daily_average b
             = Round (completed_work_of_task s task_id) days 1)
    /\ (Task.estimated_pomodoros task <= 0 ->
        TaskAnalytics.completion_percentage b = PercentZero)
    /\ (0 < Task.estimated_pomodoros task ->
        TaskAnalytics.completion_percentage b
        = PercentOf (Task.completed_pomodoros task) (Task.estimated_pomodoros task)).
Proof.
  intros Hown.
  assert (Hid : Task.id task = task_id).
  { apply find_some_holds in Hown. apply andb_true_iff in Hown.
    destruct Hown as [Hown _]. now apply Z.eqb_eq. }
  destruct (get_task_analytics_answer auth task_id s task Hown)
    as (b & Hb & H1 & H2 & H3 & H4 & H5 & H6 & H7).
  rewrite count_task_sessions, Hid in H3, H4, H5.
  exists b. repeat (split; [assumption|]). assumption.
Qed.

Lemma task_analytics_always_answer_witness :
  exists b,
    get_task_analytics 1 10 two_session_store = (inr (Body b), two_session_store)
    /\ sum_or_0 (series_values (TaskAnalytics.pomodoro_time_series b)) = 2
    /\ TaskAnalytics.daily_average b = Round 2 3 1.
Proof.
  destruct (task_analytics_always_answer 1 10 two_session_store (sample_task 10 "high" 0)
              eq_refl) as (b & Hb & _ & _ & Hsum & _).
  exists b. split; [exact Hb|]. split; [exact Hsum|].
  inversion Hb. reflexivity.
Defined.

(** ** Completing a task, renaming a category *)

Section TaskStatusProofs.

Variable jwt_decode : string -> option (option Z).
Variable authorization : option string.
Variable user_id : Z.
Hypothesis token_accepted :
  get_user_id_from_token jwt_decode authorization = Some user_id.
Hypothesis user_id_truthy : user_id <> 0.


(** X30. Renaming a category shows in the answers on its tasks: after
    [update_category], [get_task] on a task of the category answers the
    new name and the new colour, with the task itself unchanged. *)
Theorem update_category_shows_in_task data category_id category task_id task s :
  owned_category category_id user_id s = Some category ->
  fits_label_columns 100 data ->
  owned_task task_id user_id s = Some task ->
  Task.category_id task = Some category_id ->
  let s' := snd (update_category jwt_decode category_id data authorization s) in
  tasks s' = tasks s
  /\ exists body,
       get_task jwt_decode task_id authorization s' = (inr (Body body), s')
       /\ TaskSchema.id body = task_id
       /\ TaskSchema.category_id body = Some category_id
       /\ TaskSchema.category_name body = Some (LabelCreateSchema.name data)
       /\ TaskSchema.category_color body = Some (LabelCreateSchema.color_code data).
Proof.
  intros Hc _ Hown Hcat s'.
  assert (Hcid : Category.id category = category_id).
  { apply find_some_holds in Hc. apply andb_true_iff in Hc.
    destruct Hc as [Hc _]. now apply Z.eqb_eq. }
  assert (Hid : Task.id task = task_id).
  { apply find_some_holds in Hown. apply andb_true_iff in Hown.
    destruct Hown as [Hown _]. now apply Z.eqb_eq. }
  set (renamed := {| Category.id := category_id;
                     Category.name := LabelCreateSchema.name data;
                     Category.color_code := LabelCreateSchema.color_code data;
                     Category.user_id := Category.user_id category |}).
  assert (Hs' : s' = with_categories s
                       (map (fun r => if Category.id r =? category_id then renamed else r)
                            (categories s))).
  { unfold s', update_category.
    rewrite (authenticated_identity jwt_decode authorization user_id) by assumption.
    unfold bind. rewrite (get_object_or_404_found _ _ _ Hc). simpl.
    rewrite Hcid. reflexivity. }
  clearbody s'. subst s'. split; [reflexivity|].
  assert (Hfind : find_category category_id
                    (with_categories s
                       (map (fun r => if Category.id r =? category_id then renamed else r)
                            (categories s))) = Some renamed).
  { unfold find_category. cbn [categories with_categories].
    destruct (find_weaken _ _ _ _ Hc) as [y Hy].
    apply find_replace_hit with (same := fun r => Category.id r =? category_id) (y := y).
    - exact Hy.
    - exact (find_some_holds _ _ _ Hy).
    - simpl. apply Z.eqb_refl. }
  unfold get_task.
  rewrite (authenticated_identity jwt_decode authorization user_id) by assumption.
  unfold bind at 1.
  assert (Hown' : owned_task task_id user_id
                    (with_categories s
                       (map (fun r => if Category.id r =? category_id then renamed else r)
                            (categories s))) = Some task) by exact Hown.
  rewrite (get_object_or_404_found _ _ _ Hown').
  unfold describe_task, related_category. rewrite Hcat.
  unfold bind, objects_get. rewrite Hfind.
  eexists. split; [reflexivity|]. simpl. repeat split. exact Hid.
Qed.

End TaskStatusProofs.


Lemma update_category_shows_in_task_witness :
  let s' := snd (update_category sample_jwt_decode 5 sample_label alice_header
                   label_store) in
  exists body,
    get_task sample_jwt_decode 10 alice_header s' = (inr (Body body), s')
    /\ TaskSchema.category_name body = Some "Reading".
Proof.
  pose proof (update_category_shows_in_task sample_jwt_decode alice_header 1 eq_refl
                ltac:(discriminate) sample_label 5
                {| Category.id := 5; Category.name := "Work";
                   Category.color_code := "#e53e3e"; Category.user_id := 1 |}
                10 (set_category (sample_task 10 "high" 0) (Some 5)) label_store
                eq_refl ltac:(split; simpl; lia) eq_refl eq_refl) as H.
  cbv zeta in H. destruct H as (_ & body & Hb & _ & _ & Hn & _).
  cbv zeta. exists body. split; [exact Hb | exact Hn].
Defined.
